(** * Decision-task handler of the history service

    A shallow embedding of [service/history/decisionTaskHandler.go]: the
    handler struct becomes a record, every method becomes a function that
    takes the handler and returns the completion of the call together with
    the handler as the call left it.  The collaborators the handler only
    knows through an interface (the mutable state, the timer builder) are
    type classes; the collaborators it holds as struct fields (attribute
    validator, blob-size checker, domain cache) are record fields. *)

From Stdlib Require Import ZArith List String Bool Lia.
From Stdlib Require Import Strings.Byte.
From Stdlib Require DecimalString.
Import ListNotations.

Local Open Scope string_scope.
Local Open Scope list_scope.
Local Open Scope Z_scope.

Set Implicit Arguments.

(** ** Values shared by the thrift structs *)

(** A Go [[]byte]. *)
Definition bytes : Type := list byte.

(** Getter of an optional thrift string: the empty string when unset. *)
Definition getString (s : option string) : string :=
  match s with Some v => v | None => "" end.

Definition getBool (b : option bool) : bool :=
  match b with Some v => v | None => false end.

Definition getInt (z : option Z) : Z :=
  match z with Some v => v | None => 0 end.

(** The error values the handler distinguishes by type switch. *)
Inductive error : Type :=
| BadRequestError (Message : string)
| InternalServiceError (Message : string)
| OtherError (Message : string).

Definition isBadRequestError (e : error) : bool :=
  match e with BadRequestError _ => true | _ => false end.

(** Result of a call that yields a value or an error. *)
Inductive result (A : Type) : Type :=
| Ok (a : A)
| Error (e : error).
Arguments Ok {A} a.
Arguments Error {A} e.

(** How a call of a handler method ends: it returns its [error] result
    ([None] is Go's [nil]), or a nil pointer is dereferenced on the way. *)
Inductive completion : Type :=
| Returns (err : option error)
| Panics.

Definition isNil (err : option error) : bool :=
  match err with None => true | Some _ => false end.

(** [time.Duration], in nanoseconds. *)
Definition Duration : Type := Z.

(** Modelled from the spec: [backoff.NoBackoff] is declared in package
    [common/backoff], outside the files at hand; the spec only names it
    ([NoBackoff]).  It is the duration -1. *)
Definition NoBackoff : Duration := -1.

(** Modelled from the spec: [common.EmptyEventID] is declared in package
    [common]; the spec calls it the empty started id. *)
Definition EmptyEventID : Z := -23.

(** Modelled from the spec: the two messages are constants of package
    [history] declared next to the engine; the spec names the second one
    as the reason [ActivityIDUnknown]. *)
Definition activityCancellationMsgActivityNotStarted : string :=
  "ACTIVITY_ID_NOT_STARTED".
Definition activityCancellationMsgActivityIDUnknown : string :=
  "ACTIVITY_ID_UNKNOWN".

(** Bytes of an ASCII string, Go's [[]byte(s)]. *)
Fixpoint bytesOfString (s : string) : bytes :=
  match s with
  | EmptyString => []
  | String c r => Ascii.byte_of_ascii c :: bytesOfString r
  end.

(** ** Enumerations *)

Inductive DecisionType : Type :=
| DecisionTypeScheduleActivityTask
| DecisionTypeRequestCancelActivityTask
| DecisionTypeStartTimer
| DecisionTypeCompleteWorkflowExecution
| DecisionTypeFailWorkflowExecution
| DecisionTypeCancelTimer
| DecisionTypeCancelWorkflowExecution
| DecisionTypeRequestCancelExternalWorkflowExecution
| DecisionTypeRecordMarker
| DecisionTypeContinueAsNewWorkflowExecution
| DecisionTypeStartChildWorkflowExecution
| DecisionTypeSignalExternalWorkflowExecution
| DecisionTypeOther (w : Z).   (* an int32 outside the declared values *)

(** What [%v] prints for a decision type: the name of a declared value,
    and the number of any other.  The text comes from the generated
    [String] method of the enum. *)
Definition DecisionType_String (t : DecisionType) : string :=
  match t with
  | DecisionTypeScheduleActivityTask => "ScheduleActivityTask"
  | DecisionTypeRequestCancelActivityTask => "RequestCancelActivityTask"
  | DecisionTypeStartTimer => "StartTimer"
  | DecisionTypeCompleteWorkflowExecution => "CompleteWorkflowExecution"
  | DecisionTypeFailWorkflowExecution => "FailWorkflowExecution"
  | DecisionTypeCancelTimer => "CancelTimer"
  | DecisionTypeCancelWorkflowExecution => "CancelWorkflowExecution"
  | DecisionTypeRequestCancelExternalWorkflowExecution =>
      "RequestCancelExternalWorkflowExecution"
  | DecisionTypeRecordMarker => "RecordMarker"
  | DecisionTypeContinueAsNewWorkflowExecution =>
      "ContinueAsNewWorkflowExecution"
  | DecisionTypeStartChildWorkflowExecution => "StartChildWorkflowExecution"
  | DecisionTypeSignalExternalWorkflowExecution =>
      "SignalExternalWorkflowExecution"
  | DecisionTypeOther w =>
      "DecisionType(" ++ DecimalString.NilZero.string_of_int (Z.to_int w) ++ ")"
  end.

Inductive DecisionTaskFailedCause : Type :=
| DecisionTaskFailedCauseUnhandledDecision
| DecisionTaskFailedCauseBadScheduleActivityAttributes
| DecisionTaskFailedCauseBadRequestCancelActivityAttributes
| DecisionTaskFailedCauseBadStartTimerAttributes
| DecisionTaskFailedCauseBadCancelTimerAttributes
| DecisionTaskFailedCauseBadRecordMarkerAttributes
| DecisionTaskFailedCauseBadCompleteWorkflowExecutionAttributes
| DecisionTaskFailedCauseBadFailWorkflowExecutionAttributes
| DecisionTaskFailedCauseBadCancelWorkflowExecutionAttributes
| DecisionTaskFailedCauseBadRequestCancelExternalWorkflowExecutionAttributes
| DecisionTaskFailedCauseBadContinueAsNewAttributes
| DecisionTaskFailedCauseStartTimerDuplicateID
| DecisionTaskFailedCauseBadSignalWorkflowExecutionAttributes
| DecisionTaskFailedCauseBadStartChildExecutionAttributes
| DecisionTaskFailedCauseScheduleActivityDuplicateID.

Inductive ContinueAsNewInitiator : Type :=
| ContinueAsNewInitiatorDecider
| ContinueAsNewInitiatorRetryPolicy
| ContinueAsNewInitiatorCronSchedule.

Inductive EventType : Type :=
| EventTypeWorkflowExecutionStarted
| EventTypeWorkflowExecutionCompleted
| EventTypeWorkflowExecutionFailed
| EventTypeWorkflowExecutionTimedOut
| EventTypeWorkflowExecutionCanceled
| EventTypeWorkflowExecutionTerminated
| EventTypeWorkflowExecutionContinuedAsNew
| EventTypeWorkflowExecutionSignaled
| EventTypeActivityTaskScheduled
| EventTypeActivityTaskCancelRequested
| EventTypeRequestCancelActivityTaskFailed
| EventTypeActivityTaskCanceled
| EventTypeTimerStarted
| EventTypeTimerFired
| EventTypeTimerCanceled
| EventTypeCancelTimerFailed
| EventTypeMarkerRecorded
| EventTypeStartChildWorkflowExecutionInitiated
| EventTypeRequestCancelExternalWorkflowExecutionInitiated
| EventTypeSignalExternalWorkflowExecutionInitiated.

(** ** Metrics and log lines *)

Inductive MetricScope : Type :=
| HistoryRespondDecisionTaskCompletedScope.

Inductive MetricCounter : Type :=
| DecisionTypeScheduleActivityCounter
| DecisionTypeCompleteWorkflowCounter
| DecisionTypeFailWorkflowCounter
| DecisionTypeCancelWorkflowCounter
| DecisionTypeStartTimerCounter
| DecisionTypeCancelActivityCounter
| DecisionTypeCancelTimerCounter
| DecisionTypeRecordMarkerCounter
| DecisionTypeCancelExternalWorkflowCounter
| DecisionTypeSignalExternalWorkflowCounter
| DecisionTypeContinueAsNewCounter
| DecisionTypeChildWorkflowCounter
| MultipleCompletionDecisionsCounter.

Definition MetricCounter_eqb (a b : MetricCounter) : bool :=
  match a, b with
  | DecisionTypeScheduleActivityCounter, DecisionTypeScheduleActivityCounter
  | DecisionTypeCompleteWorkflowCounter, DecisionTypeCompleteWorkflowCounter
  | DecisionTypeFailWorkflowCounter, DecisionTypeFailWorkflowCounter
  | DecisionTypeCancelWorkflowCounter, DecisionTypeCancelWorkflowCounter
  | DecisionTypeStartTimerCounter, DecisionTypeStartTimerCounter
  | DecisionTypeCancelActivityCounter, DecisionTypeCancelActivityCounter
  | DecisionTypeCancelTimerCounter, DecisionTypeCancelTimerCounter
  | DecisionTypeRecordMarkerCounter, DecisionTypeRecordMarkerCounter
  | DecisionTypeCancelExternalWorkflowCounter,
    DecisionTypeCancelExternalWorkflowCounter
  | DecisionTypeSignalExternalWorkflowCounter,
    DecisionTypeSignalExternalWorkflowCounter
  | DecisionTypeContinueAsNewCounter, DecisionTypeContinueAsNewCounter
  | DecisionTypeChildWorkflowCounter, DecisionTypeChildWorkflowCounter
  | MultipleCompletionDecisionsCounter, MultipleCompletionDecisionsCounter =>
      true
  | _, _ => false
  end.

(** The metrics client, seen through the calls of [IncCounter] it received,
    oldest first. *)
Definition metricsClientState : Type := list (MetricScope * MetricCounter).

(** How often a counter was incremented. *)
Definition counterValue (c : MetricCounter) (m : metricsClientState) : nat :=
  List.length (filter (fun sc => MetricCounter_eqb (snd sc) c) m).

(** [tag.ErrorTypeMultipleCompletionDecisions] of [common/log/tag/values.go]. *)
Definition ErrorTypeMultipleCompletionDecisions : string :=
  "MultipleCompletionDecisions".

(** A line written by [logger.Warn] with its two tags; the decision type
    is logged as the integer value of the enum, kept here as the enum. *)
Record logLine : Type := {
  logMessage : string;
  tagWorkflowDecisionType : DecisionType;
  tagErrorType : string
}.

(** ** Thrift structs

    One module per struct, so that fields keep the names they have in the
    source.  Optional fields (pointers) are [option]s; only the fields the
    handler, its validators or the mutable state read are kept. *)

Module TaskList.
Record t : Type := { Name : option string }.
Definition GetName (v : option t) : string :=
  match v with Some l => getString (Name l) | None => "" end.
End TaskList.

Module WorkflowType.
Record t : Type := { Name : option string }.
End WorkflowType.

Module ActivityType.
Record t : Type := { Name : option string }.
End ActivityType.

Module WorkflowExecution.
Record t : Type := { WorkflowId : option string; RunId : option string }.
Definition GetWorkflowId (v : option t) : string :=
  match v with Some e => getString (WorkflowId e) | None => "" end.
Definition GetRunId (v : option t) : string :=
  match v with Some e => getString (RunId e) | None => "" end.
End WorkflowExecution.

(** The backoff coefficient, a double, is left out. *)
Module RetryPolicy.
Record t : Type := {
  InitialIntervalInSeconds : option Z;
  MaximumIntervalInSeconds : option Z;
  MaximumAttempts : option Z;
  NonRetriableErrorReasons : list string;
  ExpirationIntervalInSeconds : option Z
}.
End RetryPolicy.

Module ScheduleActivityTaskDecisionAttributes.
Record t : Type := {
  ActivityId : option string;
  ActivityType : option ActivityType.t;
  Domain : option string;
  TaskList : option TaskList.t;
  Input : bytes;
  ScheduleToCloseTimeoutSeconds : option Z;
  ScheduleToStartTimeoutSeconds : option Z;
  StartToCloseTimeoutSeconds : option Z;
  HeartbeatTimeoutSeconds : option Z
}.
Definition GetDomain (v : option t) : string :=
  match v with Some a => getString (Domain a) | None => "" end.
End ScheduleActivityTaskDecisionAttributes.

Module RequestCancelActivityTaskDecisionAttributes.
Record t : Type := { ActivityId : option string }.
Definition GetActivityId (v : option t) : string :=
  match v with Some a => getString (ActivityId a) | None => "" end.
End RequestCancelActivityTaskDecisionAttributes.

Module StartTimerDecisionAttributes.
Record t : Type := {
  TimerId : option string;
  StartToFireTimeoutSeconds : option Z
}.
End StartTimerDecisionAttributes.

Module CancelTimerDecisionAttributes.
Record t : Type := { TimerId : option string }.
End CancelTimerDecisionAttributes.

Module CompleteWorkflowExecutionDecisionAttributes.
Record t : Type := { Result : bytes }.
End CompleteWorkflowExecutionDecisionAttributes.

Module FailWorkflowExecutionDecisionAttributes.
Record t : Type := { Reason : option string; Details : bytes }.
Definition GetReason (v : option t) : string :=
  match v with Some a => getString (Reason a) | None => "" end.
End FailWorkflowExecutionDecisionAttributes.

Module CancelWorkflowExecutionDecisionAttributes.
Record t : Type := { Details : bytes }.
End CancelWorkflowExecutionDecisionAttributes.

Module RecordMarkerDecisionAttributes.
Record t : Type := { MarkerName : option string; Details : bytes }.
End RecordMarkerDecisionAttributes.

Module ContinueAsNewWorkflowExecutionDecisionAttributes.
Record t : Type := {
  WorkflowType : option WorkflowType.t;
  TaskList : option TaskList.t;
  Input : bytes;
  ExecutionStartToCloseTimeoutSeconds : option Z;
  TaskStartToCloseTimeoutSeconds : option Z;
  BackoffStartIntervalInSeconds : option Z;
  RetryPolicy : option RetryPolicy.t;
  Initiator : option ContinueAsNewInitiator;
  FailureReason : option string;
  FailureDetails : bytes;
  LastCompletionResult : bytes;
  CronSchedule : option string
}.
End ContinueAsNewWorkflowExecutionDecisionAttributes.

Module StartChildWorkflowExecutionDecisionAttributes.
Record t : Type := {
  Domain : option string;
  WorkflowId : option string;
  WorkflowType : option WorkflowType.t;
  TaskList : option TaskList.t;
  Input : bytes;
  ExecutionStartToCloseTimeoutSeconds : option Z;
  TaskStartToCloseTimeoutSeconds : option Z;
  Control : bytes
}.
Definition GetDomain (v : option t) : string :=
  match v with Some a => getString (Domain a) | None => "" end.
Definition GetWorkflowId (v : option t) : string :=
  match v with Some a => getString (WorkflowId a) | None => "" end.
End StartChildWorkflowExecutionDecisionAttributes.

Module RequestCancelExternalWorkflowExecutionDecisionAttributes.
Record t : Type := {
  Domain : option string;
  WorkflowId : option string;
  RunId : option string;
  Control : bytes;
  ChildWorkflowOnly : option bool
}.
Definition GetDomain (v : option t) : string :=
  match v with Some a => getString (Domain a) | None => "" end.
Definition GetWorkflowId (v : option t) : string :=
  match v with Some a => getString (WorkflowId a) | None => "" end.
Definition GetRunId (v : option t) : string :=
  match v with Some a => getString (RunId a) | None => "" end.
Definition GetChildWorkflowOnly (v : option t) : bool :=
  match v with Some a => getBool (ChildWorkflowOnly a) | None => false end.
End RequestCancelExternalWorkflowExecutionDecisionAttributes.

Module SignalExternalWorkflowExecutionDecisionAttributes.
Record t : Type := {
  Domain : option string;
  Execution : option WorkflowExecution.t;
  SignalName : option string;
  Input : bytes;
  Control : bytes;
  ChildWorkflowOnly : option bool
}.
Definition GetDomain (v : option t) : string :=
  match v with Some a => getString (Domain a) | None => "" end.
Definition GetChildWorkflowOnly (v : option t) : bool :=
  match v with Some a => getBool (ChildWorkflowOnly a) | None => false end.
End SignalExternalWorkflowExecutionDecisionAttributes.

Module WorkflowExecutionStartedEventAttributes.
Record t : Type := {
  WorkflowType : option WorkflowType.t;
  ParentWorkflowDomain : option string;
  TaskList : option TaskList.t;
  Input : bytes;
  ExecutionStartToCloseTimeoutSeconds : option Z;
  TaskStartToCloseTimeoutSeconds : option Z;
  RetryPolicy : option RetryPolicy.t;
  LastCompletionResult : bytes;
  CronSchedule : option string
}.
Definition GetParentWorkflowDomain (v : t) : string :=
  getString (ParentWorkflowDomain v).
End WorkflowExecutionStartedEventAttributes.

(** The attributes an event carries.  Of the per-type attribute pointers
    of a thrift [HistoryEvent] the handler reads one, that of the start
    event; the others are summarised by what identifies the event to its
    consumers. *)
Inductive EventAttributes : Type :=
| StartedAttributes (a : WorkflowExecutionStartedEventAttributes.t)
| ClosedAttributes (reason : string) (payload : bytes)
| RequestedAttributes (requestID : string)
| TimerAttributes (timerID : string)
| NoAttributes.

Module HistoryEvent.
Record t : Type := {
  EventId : option Z;
  EventType : option EventType;
  Attributes : EventAttributes
}.
Definition GetEventId (v : t) : Z := getInt (EventId v).
Definition WorkflowExecutionStartedEventAttributes (v : t)
  : option WorkflowExecutionStartedEventAttributes.t :=
  match Attributes v with StartedAttributes a => Some a | _ => None end.
End HistoryEvent.

Local Abbreviation decisionTypeEnum := DecisionType (only parsing).

Module Decision.
Record t : Type := {
  DecisionType : option DecisionType;
  ScheduleActivityTaskDecisionAttributes :
    option ScheduleActivityTaskDecisionAttributes.t;
  StartTimerDecisionAttributes : option StartTimerDecisionAttributes.t;
  CompleteWorkflowExecutionDecisionAttributes :
    option CompleteWorkflowExecutionDecisionAttributes.t;
  FailWorkflowExecutionDecisionAttributes :
    option FailWorkflowExecutionDecisionAttributes.t;
  RequestCancelActivityTaskDecisionAttributes :
    option RequestCancelActivityTaskDecisionAttributes.t;
  CancelTimerDecisionAttributes : option CancelTimerDecisionAttributes.t;
  CancelWorkflowExecutionDecisionAttributes :
    option CancelWorkflowExecutionDecisionAttributes.t;
  RequestCancelExternalWorkflowExecutionDecisionAttributes :
    option RequestCancelExternalWorkflowExecutionDecisionAttributes.t;
  RecordMarkerDecisionAttributes : option RecordMarkerDecisionAttributes.t;
  ContinueAsNewWorkflowExecutionDecisionAttributes :
    option ContinueAsNewWorkflowExecutionDecisionAttributes.t;
  StartChildWorkflowExecutionDecisionAttributes :
    option StartChildWorkflowExecutionDecisionAttributes.t;
  SignalExternalWorkflowExecutionDecisionAttributes :
    option SignalExternalWorkflowExecutionDecisionAttributes.t
}.
(** The zero value of the enum when the field is unset. *)
Definition GetDecisionType (v : t) : decisionTypeEnum :=
  match DecisionType v with
  | Some ty => ty
  | None => DecisionTypeScheduleActivityTask
  end.
End Decision.

(** ** Persistence structs *)

Record WorkflowExecutionInfo : Type := {
  DomainID : string;
  WorkflowID : string;
  RunID : string;
  ParentDomainID : string;
  TaskListName : string;
  WorkflowTimeout : Z;
  DecisionTimeoutValue : Z
}.

Record ActivityInfo : Type := {
  ActivityInfo_ScheduleID : Z;
  ActivityInfo_StartedID : Z;
  ActivityInfo_ActivityID : string
}.

Record TimerInfo : Type := {
  TimerInfo_TimerID : string;
  TimerInfo_StartedID : Z;
  TimerInfo_ExpirySeconds : Z
}.

Record ChildExecutionInfo : Type := {
  ChildExecutionInfo_InitiatedID : Z;
  ChildExecutionInfo_CreateRequestID : string
}.

Record RequestCancelInfo : Type := {
  RequestCancelInfo_InitiatedID : Z;
  RequestCancelInfo_CancelRequestID : string
}.

Record SignalInfo : Type := {
  SignalInfo_InitiatedID : Z;
  SignalInfo_SignalRequestID : string
}.

(** The tasks the handler builds; every field it leaves unset is zero. *)
Inductive Task : Type :=
| ActivityTask (DomainID : string) (TaskList : string) (ScheduleID : Z)
| CancelExecutionTask (TargetDomainID TargetWorkflowID TargetRunID : string)
    (TargetChildWorkflowOnly : bool) (InitiatedID : Z)
| StartChildExecutionTask (TargetDomainID TargetWorkflowID : string)
    (InitiatedID : Z)
| SignalExecutionTask (TargetDomainID TargetWorkflowID TargetRunID : string)
    (TargetChildWorkflowOnly : bool) (InitiatedID : Z).

(** ** Domain cache *)

Record DomainInfo : Type := { ID : string; Name : string }.

Record DomainCacheEntry : Type := { GetInfo : DomainInfo }.

Record DomainCache : Type := {
  GetDomain : string -> result DomainCacheEntry;
  GetDomainByID : string -> result DomainCacheEntry
}.

(** ** The interfaces the handler consumes *)

(** The [mutableState] interface, restricted to the methods the handler
    and the blob-size checker call.  The Go object is mutated in place; a
    mutator here returns its results together with the state it leaves. *)
Class MutableState (MS : Type) : Type := {
  GetExecutionInfo : MS -> WorkflowExecutionInfo;
  IsWorkflowExecutionRunning : MS -> bool;
  HasBufferedEvents : MS -> bool;
  HasParentExecution : MS -> bool;
  GetStartEvent : MS -> option HistoryEvent.t;
  GetCronBackoffDuration : MS -> Duration;
  GetRetryBackoffDuration : string -> MS -> Duration;
  AddActivityTaskScheduledEvent :
    Z -> option ScheduleActivityTaskDecisionAttributes.t -> MS ->
    result (HistoryEvent.t * ActivityInfo) * MS;
  AddActivityTaskCancelRequestedEvent :
    Z -> string -> string -> MS ->
    result (HistoryEvent.t * ActivityInfo) * MS;
  AddActivityTaskCanceledEvent :
    Z -> Z -> Z -> bytes -> string -> MS -> result HistoryEvent.t * MS;
  AddRequestCancelActivityTaskFailedEvent :
    Z -> string -> string -> MS -> result HistoryEvent.t * MS;
  AddTimerStartedEvent :
    Z -> option StartTimerDecisionAttributes.t -> MS ->
    result (HistoryEvent.t * TimerInfo) * MS;
  AddTimerCanceledEvent :
    Z -> option CancelTimerDecisionAttributes.t -> string -> MS ->
    result HistoryEvent.t * MS;
  AddCancelTimerFailedEvent :
    Z -> option CancelTimerDecisionAttributes.t -> string -> MS ->
    result HistoryEvent.t * MS;
  AddCompletedWorkflowEvent :
    Z -> option CompleteWorkflowExecutionDecisionAttributes.t -> MS ->
    result HistoryEvent.t * MS;
  AddFailWorkflowEvent :
    Z -> option FailWorkflowExecutionDecisionAttributes.t -> MS ->
    result HistoryEvent.t * MS;
  AddWorkflowExecutionCanceledEvent :
    Z -> option CancelWorkflowExecutionDecisionAttributes.t -> MS ->
    result HistoryEvent.t * MS;
  (* not called by the handler itself: the blob-size check ends the
     workflow with it; the arguments are the reason and the details *)
  AddWorkflowExecutionTerminatedEvent :
    string -> bytes -> MS -> result HistoryEvent.t * MS;
  AddRecordMarkerEvent :
    Z -> option RecordMarkerDecisionAttributes.t -> MS ->
    result HistoryEvent.t * MS;
  AddContinueAsNewEvent :
    Z -> Z -> DomainCacheEntry -> string ->
    option ContinueAsNewWorkflowExecutionDecisionAttributes.t -> Z -> MS ->
    result (HistoryEvent.t * MS) * MS;
  AddStartChildWorkflowExecutionInitiatedEvent :
    Z -> string -> option StartChildWorkflowExecutionDecisionAttributes.t ->
    MS -> result (HistoryEvent.t * ChildExecutionInfo) * MS;
  AddRequestCancelExternalWorkflowExecutionInitiatedEvent :
    Z -> string ->
    option RequestCancelExternalWorkflowExecutionDecisionAttributes.t ->
    MS -> result (HistoryEvent.t * RequestCancelInfo) * MS;
  AddSignalExternalWorkflowExecutionInitiatedEvent :
    Z -> string -> option SignalExternalWorkflowExecutionDecisionAttributes.t ->
    MS -> result (HistoryEvent.t * SignalInfo) * MS
}.

(** The two methods of [*timerBuilder] the handler calls. *)
Class timerBuilderOps (TB MS : Type) : Type := {
  AddUserTimer : TimerInfo -> MS -> TB -> TB;
  loadUserTimers : MS -> TB -> TB
}.

(** [*decisionAttrValidator]: one method per decision kind, each returning
    nil or an error. *)
Record decisionAttrValidator : Type := {
  validateActivityScheduleAttributes :
    string -> string -> option ScheduleActivityTaskDecisionAttributes.t ->
    Z -> option error;
  validateActivityCancelAttributes :
    option RequestCancelActivityTaskDecisionAttributes.t -> option error;
  validateTimerScheduleAttributes :
    option StartTimerDecisionAttributes.t -> option error;
  validateTimerCancelAttributes :
    option CancelTimerDecisionAttributes.t -> option error;
  validateCompleteWorkflowExecutionAttributes :
    option CompleteWorkflowExecutionDecisionAttributes.t -> option error;
  validateFailWorkflowExecutionAttributes :
    option FailWorkflowExecutionDecisionAttributes.t -> option error;
  validateCancelWorkflowExecutionAttributes :
    option CancelWorkflowExecutionDecisionAttributes.t -> option error;
  validateRecordMarkerAttributes :
    option RecordMarkerDecisionAttributes.t -> option error;
  validateContinueAsNewWorkflowExecutionAttributes :
    option ContinueAsNewWorkflowExecutionDecisionAttributes.t ->
    WorkflowExecutionInfo -> option error;
  validateStartChildExecutionAttributes :
    string -> string ->
    option StartChildWorkflowExecutionDecisionAttributes.t ->
    WorkflowExecutionInfo -> option error;
  validateCancelExternalWorkflowExecutionAttributes :
    string -> string ->
    option RequestCancelExternalWorkflowExecutionDecisionAttributes.t ->
    option error;
  validateSignalExternalWorkflowExecutionAttributes :
    string -> string ->
    option SignalExternalWorkflowExecutionDecisionAttributes.t ->
    option error
}.

(** [*decisionBlobSizeChecker].  The checker holds a pointer to the very
    mutable state the handler works on, so its method takes that state and
    returns it as the check left it. *)
Record decisionBlobSizeChecker (MS : Type) : Type := {
  failWorkflowIfBlobSizeExceedsLimit :
    bytes -> string -> MS -> (bool * option error) * MS
}.

(** ** The handler struct *)

Section HandlerState.
Variables MS TB : Type.

Record decisionTaskHandlerImpl : Type := {
  identity : string;
  decisionTaskCompletedID : Z;
  eventStoreVersion : Z;
  domainEntry : DomainCacheEntry;
  (* internal state *)
  hasUnhandledEventsBeforeDecisions : bool;
  timerBuilder : TB;
  transferTasks : list Task;
  timerTasks : list Task;
  failDecision : bool;
  failDecisionCause : option DecisionTaskFailedCause;
  failMessage : option string;
  activityNotStartedCancelled : bool;
  continueAsNewBuilder : option MS;
  stopProcessing : bool;
  mutableState : MS;
  (* validation *)
  attrValidator : decisionAttrValidator;
  sizeLimitChecker : decisionBlobSizeChecker MS;
  (* collaborators; the logger and the metrics client are seen
     through what they received, oldest first *)
  logger : list logLine;
  timerBuilderProvider : unit -> TB;
  domainCache : DomainCache;
  metricsClient : metricsClientState;
  (* not a field of the Go struct: how many identifiers the handler has
     drawn from [uuid.New] *)
  uuidsDrawn : nat
}.

(** The handler with the fields that are ever assigned replaced; the
    fields fixed at construction are kept. *)
Definition withFields (handler : decisionTaskHandlerImpl)
  (hu : bool)
  (tb : TB)
  (tt : list Task)
  (fd : bool)
  (fc : option DecisionTaskFailedCause)
  (fm : option string)
  (an : bool)
  (cb : option MS)
  (sp : bool)
  (ms : MS)
  (lg : list logLine)
  (mc : metricsClientState)
  (ud : nat)
  : decisionTaskHandlerImpl :=
  {|
    identity := identity handler;
    decisionTaskCompletedID := decisionTaskCompletedID handler;
    eventStoreVersion := eventStoreVersion handler;
    domainEntry := domainEntry handler;
    hasUnhandledEventsBeforeDecisions := hu;
    timerBuilder := tb;
    transferTasks := tt;
    timerTasks := timerTasks handler;
    failDecision := fd;
    failDecisionCause := fc;
    failMessage := fm;
    activityNotStartedCancelled := an;
    continueAsNewBuilder := cb;
    stopProcessing := sp;
    mutableState := ms;
    attrValidator := attrValidator handler;
    sizeLimitChecker := sizeLimitChecker handler;
    logger := lg;
    timerBuilderProvider := timerBuilderProvider handler;
    domainCache := domainCache handler;
    metricsClient := mc;
    uuidsDrawn := ud
  |}.

(** Assignment to one field. *)

Definition set_hasUnhandledEventsBeforeDecisions (v : bool)
  (handler : decisionTaskHandlerImpl) : decisionTaskHandlerImpl :=
  withFields handler v (timerBuilder handler) (transferTasks handler)
    (failDecision handler) (failDecisionCause handler) (failMessage handler)
    (activityNotStartedCancelled handler) (continueAsNewBuilder handler)
    (stopProcessing handler) (mutableState handler) (logger handler)
    (metricsClient handler) (uuidsDrawn handler).

Definition set_timerBuilder (v : TB)
  (handler : decisionTaskHandlerImpl) : decisionTaskHandlerImpl :=
  withFields handler (hasUnhandledEventsBeforeDecisions handler) v
    (transferTasks handler) (failDecision handler)
    (failDecisionCause handler) (failMessage handler)
    (activityNotStartedCancelled handler) (continueAsNewBuilder handler)
    (stopProcessing handler) (mutableState handler) (logger handler)
    (metricsClient handler) (uuidsDrawn handler).

Definition set_transferTasks (v : list Task)
  (handler : decisionTaskHandlerImpl) : decisionTaskHandlerImpl :=
  withFields handler (hasUnhandledEventsBeforeDecisions handler)
    (timerBuilder handler) v (failDecision handler)
    (failDecisionCause handler) (failMessage handler)
    (activityNotStartedCancelled handler) (continueAsNewBuilder handler)
    (stopProcessing handler) (mutableState handler) (logger handler)
    (metricsClient handler) (uuidsDrawn handler).

Definition set_failDecision (v : bool)
  (handler : decisionTaskHandlerImpl) : decisionTaskHandlerImpl :=
  withFields handler (hasUnhandledEventsBeforeDecisions handler)
    (timerBuilder handler) (transferTasks handler) v
    (failDecisionCause handler) (failMessage handler)
    (activityNotStartedCancelled handler) (continueAsNewBuilder handler)
    (stopProcessing handler) (mutableState handler) (logger handler)
    (metricsClient handler) (uuidsDrawn handler).

Definition set_failDecisionCause (v : option DecisionTaskFailedCause)
  (handler : decisionTaskHandlerImpl) : decisionTaskHandlerImpl :=
  withFields handler (hasUnhandledEventsBeforeDecisions handler)
    (timerBuilder handler) (transferTasks handler) (failDecision handler) v
    (failMessage handler) (activityNotStartedCancelled handler)
    (continueAsNewBuilder handler) (stopProcessing handler)
    (mutableState handler) (logger handler) (metricsClient handler)
    (uuidsDrawn handler).

Definition set_failMessage (v : option string)
  (handler : decisionTaskHandlerImpl) : decisionTaskHandlerImpl :=
  withFields handler (hasUnhandledEventsBeforeDecisions handler)
    (timerBuilder handler) (transferTasks handler) (failDecision handler)
    (failDecisionCause handler) v (activityNotStartedCancelled handler)
    (continueAsNewBuilder handler) (stopProcessing handler)
    (mutableState handler) (logger handler) (metricsClient handler)
    (uuidsDrawn handler).

Definition set_activityNotStartedCancelled (v : bool)
  (handler : decisionTaskHandlerImpl) : decisionTaskHandlerImpl :=
  withFields handler (hasUnhandledEventsBeforeDecisions handler)
    (timerBuilder handler) (transferTasks handler) (failDecision handler)
    (failDecisionCause handler) (failMessage handler) v
    (continueAsNewBuilder handler) (stopProcessing handler)
    (mutableState handler) (logger handler) (metricsClient handler)
    (uuidsDrawn handler).

Definition set_continueAsNewBuilder (v : option MS)
  (handler : decisionTaskHandlerImpl) : decisionTaskHandlerImpl :=
  withFields handler (hasUnhandledEventsBeforeDecisions handler)
    (timerBuilder handler) (transferTasks handler) (failDecision handler)
    (failDecisionCause handler) (failMessage handler)
    (activityNotStartedCancelled handler) v (stopProcessing handler)
    (mutableState handler) (logger handler) (metricsClient handler)
    (uuidsDrawn handler).

Definition set_stopProcessing (v : bool)
  (handler : decisionTaskHandlerImpl) : decisionTaskHandlerImpl :=
  withFields handler (hasUnhandledEventsBeforeDecisions handler)
    (timerBuilder handler) (transferTasks handler) (failDecision handler)
    (failDecisionCause handler) (failMessage handler)
    (activityNotStartedCancelled handler) (continueAsNewBuilder handler) v
    (mutableState handler) (logger handler) (metricsClient handler)
    (uuidsDrawn handler).

Definition set_mutableState (v : MS)
  (handler : decisionTaskHandlerImpl) : decisionTaskHandlerImpl :=
  withFields handler (hasUnhandledEventsBeforeDecisions handler)
    (timerBuilder handler) (transferTasks handler) (failDecision handler)
    (failDecisionCause handler) (failMessage handler)
    (activityNotStartedCancelled handler) (continueAsNewBuilder handler)
    (stopProcessing handler) v (logger handler) (metricsClient handler)
    (uuidsDrawn handler).

Definition set_logger (v : list logLine)
  (handler : decisionTaskHandlerImpl) : decisionTaskHandlerImpl :=
  withFields handler (hasUnhandledEventsBeforeDecisions handler)
    (timerBuilder handler) (transferTasks handler) (failDecision handler)
    (failDecisionCause handler) (failMessage handler)
    (activityNotStartedCancelled handler) (continueAsNewBuilder handler)
    (stopProcessing handler) (mutableState handler) v
    (metricsClient handler) (uuidsDrawn handler).

Definition set_metricsClient (v : metricsClientState)
  (handler : decisionTaskHandlerImpl) : decisionTaskHandlerImpl :=
  withFields handler (hasUnhandledEventsBeforeDecisions handler)
    (timerBuilder handler) (transferTasks handler) (failDecision handler)
    (failDecisionCause handler) (failMessage handler)
    (activityNotStartedCancelled handler) (continueAsNewBuilder handler)
    (stopProcessing handler) (mutableState handler) (logger handler) v
    (uuidsDrawn handler).

Definition set_uuidsDrawn (v : nat)
  (handler : decisionTaskHandlerImpl) : decisionTaskHandlerImpl :=
  withFields handler (hasUnhandledEventsBeforeDecisions handler)
    (timerBuilder handler) (transferTasks handler) (failDecision handler)
    (failDecisionCause handler) (failMessage handler)
    (activityNotStartedCancelled handler) (continueAsNewBuilder handler)
    (stopProcessing handler) (mutableState handler) (logger handler)
    (metricsClient handler) v.

End HandlerState.

(** ** The handler's methods *)

Section Handler.
Context {MS TB : Type} `{MutableState MS} `{timerBuilderOps TB MS}.

(** [uuid.New()]: the identifier the generator hands out at its [n]-th
    call of a run.  The generator is random, so the sequence differs from
    run to run. *)
Variable uuid_New : nat -> string.

(** [err.Error()], the text of an error value. *)
Variable errorString : error -> string.

(** [int32(d.Seconds())]; [Seconds] is a float64 computation. *)
Variable secondsInt32 : Duration -> Z.

Local Abbreviation handlerImpl := (decisionTaskHandlerImpl MS TB).

Definition newDecisionTaskHandler
  (identity : string)
  (decisionTaskCompletedID : Z)
  (eventStoreVersion : Z)
  (domainEntry : DomainCacheEntry)
  (mutableState : MS)
  (attrValidator : decisionAttrValidator)
  (sizeLimitChecker : decisionBlobSizeChecker MS)
  (logger : list logLine)
  (timerBuilderProvider : unit -> TB)
  (domainCache : DomainCache)
  (metricsClient : metricsClientState) : handlerImpl :=
  {|
    identity := identity;
    decisionTaskCompletedID := decisionTaskCompletedID;
    eventStoreVersion := eventStoreVersion;
    domainEntry := domainEntry;
    hasUnhandledEventsBeforeDecisions := HasBufferedEvents mutableState;
    timerBuilder := timerBuilderProvider tt;
    transferTasks := [];
    timerTasks := [];
    failDecision := false;
    failDecisionCause := None;
    failMessage := None;
    activityNotStartedCancelled := false;
    continueAsNewBuilder := None;
    stopProcessing := false;
    mutableState := mutableState;
    attrValidator := attrValidator;
    sizeLimitChecker := sizeLimitChecker;
    logger := logger;
    timerBuilderProvider := timerBuilderProvider;
    domainCache := domainCache;
    metricsClient := metricsClient;
    uuidsDrawn := 0%nat
  |}.

(** [handler.metricsClient.IncCounter(scope, counter)] *)
Definition IncCounter (scope : MetricScope) (counter : MetricCounter)
  (handler : handlerImpl) : handlerImpl :=
  set_metricsClient (metricsClient handler ++ [(scope, counter)]) handler.

(** [handler.logger.Warn("Multiple completion decisions", ...)] *)
Definition WarnMultipleCompletion (decisionType : DecisionType)
  (handler : handlerImpl) : handlerImpl :=
  set_logger
    (logger handler ++
     [{| logMessage := "Multiple completion decisions";
         tagWorkflowDecisionType := decisionType;
         tagErrorType := ErrorTypeMultipleCompletionDecisions |}])
    handler.

(** [uuid.New()] *)
Definition uuidNew (handler : handlerImpl) : string * handlerImpl :=
  (uuid_New (uuidsDrawn handler),
   set_uuidsDrawn (S (uuidsDrawn handler)) handler).

Definition handlerFailDecision
  (failedCause : DecisionTaskFailedCause)
  (failMessage : string)
  (handler : handlerImpl) : option error * handlerImpl :=
  let handler := set_failDecision true handler in
  let handler := set_failDecisionCause (Some failedCause) handler in
  let handler := set_failMessage (Some failMessage) handler in
  let handler := set_stopProcessing true handler in
  (None, handler).

Definition validateDecisionAttr
  (validationFn : unit -> option error)
  (failedCause : DecisionTaskFailedCause)
  (handler : handlerImpl) : option error * handlerImpl :=
  match validationFn tt with
  | Some err =>
      if isBadRequestError err
      then handlerFailDecision failedCause (errorString err) handler
      else (Some err, handler)
  | None => (None, handler)
  end.

Definition retryCronContinueAsNew
  (attr : option WorkflowExecutionStartedEventAttributes.t)
  (backoffInterval : Z)
  (continueAsNewIter : option ContinueAsNewInitiator)
  (failureReason : option string)
  (failureDetails : bytes)
  (lastCompletionResult : bytes)
  (handler : handlerImpl) : completion * handlerImpl :=
  match attr with
  | None => (Panics, handler)
  | Some attr =>
  let continueAsNewAttributes :=
    {|
      ContinueAsNewWorkflowExecutionDecisionAttributes.WorkflowType :=
        WorkflowExecutionStartedEventAttributes.WorkflowType attr;
      ContinueAsNewWorkflowExecutionDecisionAttributes.TaskList :=
        WorkflowExecutionStartedEventAttributes.TaskList attr;
      ContinueAsNewWorkflowExecutionDecisionAttributes.RetryPolicy :=
        WorkflowExecutionStartedEventAttributes.RetryPolicy attr;
      ContinueAsNewWorkflowExecutionDecisionAttributes.Input :=
        WorkflowExecutionStartedEventAttributes.Input attr;
      ContinueAsNewWorkflowExecutionDecisionAttributes.ExecutionStartToCloseTimeoutSeconds :=
        WorkflowExecutionStartedEventAttributes.ExecutionStartToCloseTimeoutSeconds attr;
      ContinueAsNewWorkflowExecutionDecisionAttributes.TaskStartToCloseTimeoutSeconds :=
        WorkflowExecutionStartedEventAttributes.TaskStartToCloseTimeoutSeconds attr;
      ContinueAsNewWorkflowExecutionDecisionAttributes.CronSchedule :=
        WorkflowExecutionStartedEventAttributes.CronSchedule attr;
      ContinueAsNewWorkflowExecutionDecisionAttributes.BackoffStartIntervalInSeconds :=
        Some backoffInterval;
      ContinueAsNewWorkflowExecutionDecisionAttributes.Initiator :=
        continueAsNewIter;
      ContinueAsNewWorkflowExecutionDecisionAttributes.FailureReason :=
        failureReason;
      ContinueAsNewWorkflowExecutionDecisionAttributes.FailureDetails :=
        failureDetails;
      ContinueAsNewWorkflowExecutionDecisionAttributes.LastCompletionResult :=
        lastCompletionResult
    |} in
  let '(res, ms) :=
    AddContinueAsNewEvent
      (decisionTaskCompletedID handler)
      (decisionTaskCompletedID handler)
      (domainEntry handler)
      (WorkflowExecutionStartedEventAttributes.GetParentWorkflowDomain attr)
      (Some continueAsNewAttributes)
      (eventStoreVersion handler)
      (mutableState handler) in
  let handler := set_mutableState ms handler in
  match res with
  | Error err => (Returns (Some err), handler)
  | Ok (_, newStateBuilder) =>
      (Returns None, set_continueAsNewBuilder (Some newStateBuilder) handler)
  end
  end.

Definition handleDecisionScheduleActivity
  (attr : option ScheduleActivityTaskDecisionAttributes.t)
  (handler : handlerImpl) : completion * handlerImpl :=
  let handler :=
    IncCounter HistoryRespondDecisionTaskCompletedScope
      DecisionTypeScheduleActivityCounter handler in
  let executionInfo := GetExecutionInfo (mutableState handler) in
  let domainID := DomainID executionInfo in
  match
    (if ScheduleActivityTaskDecisionAttributes.GetDomain attr =? ""
     then Ok domainID
     else
       match GetDomain (domainCache handler)
               (ScheduleActivityTaskDecisionAttributes.GetDomain attr) with
       | Error _ =>
           Error (InternalServiceError
                    ("Unable to schedule activity across domain " ++
                     ScheduleActivityTaskDecisionAttributes.GetDomain attr ++
                     "."))
       | Ok targetDomainEntry => Ok (ID (GetInfo targetDomainEntry))
       end)%string
  with
  | Error err => (Returns (Some err), handler)
  | Ok targetDomainID =>
  let '(err, handler) :=
    validateDecisionAttr
      (fun _ =>
         validateActivityScheduleAttributes (attrValidator handler)
           domainID targetDomainID attr (WorkflowTimeout executionInfo))
      DecisionTaskFailedCauseBadScheduleActivityAttributes handler in
  if negb (isNil err) || stopProcessing handler
  then (Returns err, handler)
  else
  match attr with
  | None => (Panics, handler)
  | Some a =>
  let '((failWorkflow, err), ms) :=
    failWorkflowIfBlobSizeExceedsLimit (sizeLimitChecker handler)
      (ScheduleActivityTaskDecisionAttributes.Input a)
      "ScheduleActivityTaskDecisionAttributes.Input exceeds size limit."
      (mutableState handler) in
  let handler := set_mutableState ms handler in
  if negb (isNil err) || failWorkflow
  then (Returns err, set_stopProcessing true handler)
  else
  let '(res, ms) :=
    AddActivityTaskScheduledEvent (decisionTaskCompletedID handler) attr
      (mutableState handler) in
  let handler := set_mutableState ms handler in
  match res with
  | Ok (scheduleEvent, _) =>
      (Returns None,
       set_transferTasks
         (transferTasks handler ++
          [ActivityTask targetDomainID
             (TaskList.GetName (ScheduleActivityTaskDecisionAttributes.TaskList a))
             (HistoryEvent.GetEventId scheduleEvent)])
         handler)
  | Error (BadRequestError _) =>
      let '(err, handler) :=
        handlerFailDecision
          DecisionTaskFailedCauseScheduleActivityDuplicateID "" handler in
      (Returns err, handler)
  | Error err => (Returns (Some err), handler)
  end
  end
  end.

Definition handleDecisionRequestCancelActivity
  (attr : option RequestCancelActivityTaskDecisionAttributes.t)
  (handler : handlerImpl) : completion * handlerImpl :=
  let handler :=
    IncCounter HistoryRespondDecisionTaskCompletedScope
      DecisionTypeCancelActivityCounter handler in
  let '(err, handler) :=
    validateDecisionAttr
      (fun _ => validateActivityCancelAttributes (attrValidator handler) attr)
      DecisionTaskFailedCauseBadRequestCancelActivityAttributes handler in
  if negb (isNil err) || stopProcessing handler
  then (Returns err, handler)
  else
  let activityID :=
    RequestCancelActivityTaskDecisionAttributes.GetActivityId attr in
  let '(res, ms) :=
    AddActivityTaskCancelRequestedEvent (decisionTaskCompletedID handler)
      activityID (identity handler) (mutableState handler) in
  let handler := set_mutableState ms handler in
  match res with
  | Ok (actCancelReqEvent, ai) =>
      if ActivityInfo_StartedID ai =? EmptyEventID
      then
        (* We haven't started the activity yet, we can cancel the activity
           right away and schedule a decision task to ensure the workflow
           makes progress. *)
        let '(res, ms) :=
          AddActivityTaskCanceledEvent
            (ActivityInfo_ScheduleID ai)
            (ActivityInfo_StartedID ai)
            (HistoryEvent.GetEventId actCancelReqEvent)
            (bytesOfString activityCancellationMsgActivityNotStarted)
            (identity handler)
            (mutableState handler) in
        let handler := set_mutableState ms handler in
        match res with
        | Error err => (Returns (Some err), handler)
        | Ok _ =>
            (Returns None, set_activityNotStartedCancelled true handler)
        end
      else (Returns None, handler)
  | Error (BadRequestError _) =>
      let '(res, ms) :=
        AddRequestCancelActivityTaskFailedEvent
          (decisionTaskCompletedID handler)
          activityID
          activityCancellationMsgActivityIDUnknown
          (mutableState handler) in
      let handler := set_mutableState ms handler in
      match res with
      | Error err => (Returns (Some err), handler)
      | Ok _ => (Returns None, handler)
      end
  | Error err => (Returns (Some err), handler)
  end.

Definition handleDecisionStartTimer
  (attr : option StartTimerDecisionAttributes.t)
  (handler : handlerImpl) : completion * handlerImpl :=
  let handler :=
    IncCounter HistoryRespondDecisionTaskCompletedScope
      DecisionTypeStartTimerCounter handler in
  let '(err, handler) :=
    validateDecisionAttr
      (fun _ => validateTimerScheduleAttributes (attrValidator handler) attr)
      DecisionTaskFailedCauseBadStartTimerAttributes handler in
  if negb (isNil err) || stopProcessing handler
  then (Returns err, handler)
  else
  let '(res, ms) :=
    AddTimerStartedEvent (decisionTaskCompletedID handler) attr
      (mutableState handler) in
  let handler := set_mutableState ms handler in
  match res with
  | Ok (_, ti) =>
      (Returns None,
       set_timerBuilder
         (AddUserTimer ti (mutableState handler) (timerBuilder handler))
         handler)
  | Error (BadRequestError _) =>
      let '(err, handler) :=
        handlerFailDecision
          DecisionTaskFailedCauseStartTimerDuplicateID "" handler in
      (Returns err, handler)
  | Error err => (Returns (Some err), handler)
  end.

Definition handleDecisionCompleteWorkflow
  (attr : option CompleteWorkflowExecutionDecisionAttributes.t)
  (handler : handlerImpl) : completion * handlerImpl :=
  let handler :=
    IncCounter HistoryRespondDecisionTaskCompletedScope
      DecisionTypeCompleteWorkflowCounter handler in
  if hasUnhandledEventsBeforeDecisions handler
  then
    let '(err, handler) :=
      handlerFailDecision DecisionTaskFailedCauseUnhandledDecision ""
        handler in
    (Returns err, handler)
  else
  let '(err, handler) :=
    validateDecisionAttr
      (fun _ =>
         validateCompleteWorkflowExecutionAttributes (attrValidator handler)
           attr)
      DecisionTaskFailedCauseBadCompleteWorkflowExecutionAttributes
      handler in
  if negb (isNil err) || stopProcessing handler
  then (Returns err, handler)
  else
  match attr with
  | None => (Panics, handler)
  | Some a =>
  let '((failWorkflow, err), ms) :=
    failWorkflowIfBlobSizeExceedsLimit (sizeLimitChecker handler)
      (CompleteWorkflowExecutionDecisionAttributes.Result a)
      "CompleteWorkflowExecutionDecisionAttributes.Result exceeds size limit."
      (mutableState handler) in
  let handler := set_mutableState ms handler in
  if negb (isNil err) || failWorkflow
  then (Returns err, set_stopProcessing true handler)
  else
  (* If the decision has more than one completion event than just pick the
     first one *)
  if negb (IsWorkflowExecutionRunning (mutableState handler))
  then
    let handler :=
      IncCounter HistoryRespondDecisionTaskCompletedScope
        MultipleCompletionDecisionsCounter handler in
    let handler :=
      WarnMultipleCompletion DecisionTypeCompleteWorkflowExecution handler in
    (Returns None, handler)
  else
  (* check if this is a cron workflow *)
  let cronBackoff := GetCronBackoffDuration (mutableState handler) in
  if cronBackoff =? NoBackoff
  then
    (* not cron, so complete this workflow execution *)
    let '(res, ms) :=
      AddCompletedWorkflowEvent (decisionTaskCompletedID handler) attr
        (mutableState handler) in
    let handler := set_mutableState ms handler in
    match res with
    | Error _ =>
        (Returns
           (Some (InternalServiceError
                    "Unable to add complete workflow event.")),
         handler)
    | Ok _ => (Returns None, handler)
    end
  else
  (* this is a cron workflow *)
  match GetStartEvent (mutableState handler) with
  | None =>
      (Returns (Some (InternalServiceError "Failed to load start event.")),
       handler)
  | Some startEvent =>
      let startAttributes :=
        HistoryEvent.WorkflowExecutionStartedEventAttributes startEvent in
      retryCronContinueAsNew
        startAttributes
        (secondsInt32 cronBackoff)
        (Some ContinueAsNewInitiatorCronSchedule)
        None
        []
        (CompleteWorkflowExecutionDecisionAttributes.Result a)
        handler
  end
  end.

Definition handleDecisionFailWorkflow
  (attr : option FailWorkflowExecutionDecisionAttributes.t)
  (handler : handlerImpl) : completion * handlerImpl :=
  let handler :=
    IncCounter HistoryRespondDecisionTaskCompletedScope
      DecisionTypeFailWorkflowCounter handler in
  if hasUnhandledEventsBeforeDecisions handler
  then
    let '(err, handler) :=
      handlerFailDecision DecisionTaskFailedCauseUnhandledDecision ""
        handler in
    (Returns err, handler)
  else
  let '(err, handler) :=
    validateDecisionAttr
      (fun _ =>
         validateFailWorkflowExecutionAttributes (attrValidator handler) attr)
      DecisionTaskFailedCauseBadFailWorkflowExecutionAttributes handler in
  if negb (isNil err) || stopProcessing handler
  then (Returns err, handler)
  else
  match attr with
  | None => (Panics, handler)
  | Some a =>
  let '((failWorkflow, err), ms) :=
    failWorkflowIfBlobSizeExceedsLimit (sizeLimitChecker handler)
      (FailWorkflowExecutionDecisionAttributes.Details a)
      "FailWorkflowExecutionDecisionAttributes.Details exceeds size limit."
      (mutableState handler) in
  let handler := set_mutableState ms handler in
  if negb (isNil err) || failWorkflow
  then (Returns err, set_stopProcessing true handler)
  else
  (* If the decision has more than one completion event than just pick the
     first one *)
  if negb (IsWorkflowExecutionRunning (mutableState handler))
  then
    let handler :=
      IncCounter HistoryRespondDecisionTaskCompletedScope
        MultipleCompletionDecisionsCounter handler in
    let handler :=
      WarnMultipleCompletion DecisionTypeFailWorkflowExecution handler in
    (Returns None, handler)
  else
  (* below will check whether to do continue as new based on backoff &
     backoff or cron *)
  let backoffInterval :=
    GetRetryBackoffDuration
      (FailWorkflowExecutionDecisionAttributes.GetReason attr)
      (mutableState handler) in
  let continueAsNewInitiator := ContinueAsNewInitiatorRetryPolicy in
  (* first check the backoff retry *)
  let '(backoffInterval, continueAsNewInitiator) :=
    if backoffInterval =? NoBackoff
    then
      (* if no backoff retry, set the backoffInterval using cron schedule *)
      (GetCronBackoffDuration (mutableState handler),
       ContinueAsNewInitiatorCronSchedule)
    else (backoffInterval, continueAsNewInitiator) in
  (* second check the backoff / cron schedule *)
  if backoffInterval =? NoBackoff
  then
    (* no retry or cron *)
    let '(res, ms) :=
      AddFailWorkflowEvent (decisionTaskCompletedID handler) attr
        (mutableState handler) in
    let handler := set_mutableState ms handler in
    match res with
    | Error _ =>
        (Returns
           (Some (InternalServiceError "Unable to add fail workflow event.")),
         handler)
    | Ok _ => (Returns None, handler)
    end
  else
  (* this is a cron / backoff workflow *)
  match GetStartEvent (mutableState handler) with
  | None =>
      (Returns (Some (InternalServiceError "Failed to load start event.")),
       handler)
  | Some startEvent =>
      let startAttributes :=
        HistoryEvent.WorkflowExecutionStartedEventAttributes startEvent in
      match startAttributes with
      | None => (Panics, handler)
      | Some sa =>
          retryCronContinueAsNew
            startAttributes
            (secondsInt32 backoffInterval)
            (Some continueAsNewInitiator)
            (FailWorkflowExecutionDecisionAttributes.Reason a)
            (FailWorkflowExecutionDecisionAttributes.Details a)
            (WorkflowExecutionStartedEventAttributes.LastCompletionResult sa)
            handler
      end
  end
  end.

Definition handleDecisionCancelTimer
  (attr : option CancelTimerDecisionAttributes.t)
  (handler : handlerImpl) : completion * handlerImpl :=
  let handler :=
    IncCounter HistoryRespondDecisionTaskCompletedScope
      DecisionTypeCancelTimerCounter handler in
  let '(err, handler) :=
    validateDecisionAttr
      (fun _ => validateTimerCancelAttributes (attrValidator handler) attr)
      DecisionTaskFailedCauseBadCancelTimerAttributes handler in
  if negb (isNil err) || stopProcessing handler
  then (Returns err, handler)
  else
  let '(res, ms) :=
    AddTimerCanceledEvent (decisionTaskCompletedID handler) attr
      (identity handler) (mutableState handler) in
  let handler := set_mutableState ms handler in
  match res with
  | Ok _ =>
      (* timer deletion is success. we need to rebuild the timer builder
         since timer builder has a local cached version of timers *)
      let handler :=
        set_timerBuilder (timerBuilderProvider handler tt) handler in
      let handler :=
        set_timerBuilder
          (loadUserTimers (mutableState handler) (timerBuilder handler))
          handler in
      (* timer deletion is a success, we may have deleted a fired timer in
         which case we should reset hasBufferedEvents *)
      let handler :=
        set_hasUnhandledEventsBeforeDecisions
          (HasBufferedEvents (mutableState handler)) handler in
      (Returns None, handler)
  | Error (BadRequestError _) =>
      let '(res, ms) :=
        AddCancelTimerFailedEvent (decisionTaskCompletedID handler) attr
          (identity handler) (mutableState handler) in
      let handler := set_mutableState ms handler in
      match res with
      | Error err => (Returns (Some err), handler)
      | Ok _ => (Returns None, handler)
      end
  | Error err => (Returns (Some err), handler)
  end.

Definition handleDecisionCancelWorkflow
  (attr : option CancelWorkflowExecutionDecisionAttributes.t)
  (handler : handlerImpl) : completion * handlerImpl :=
  let handler :=
    IncCounter HistoryRespondDecisionTaskCompletedScope
      DecisionTypeCancelWorkflowCounter handler in
  if hasUnhandledEventsBeforeDecisions handler
  then
    let '(err, handler) :=
      handlerFailDecision DecisionTaskFailedCauseUnhandledDecision ""
        handler in
    (Returns err, handler)
  else
  let '(err, handler) :=
    validateDecisionAttr
      (fun _ =>
         validateCancelWorkflowExecutionAttributes (attrValidator handler)
           attr)
      DecisionTaskFailedCauseBadCancelWorkflowExecutionAttributes handler in
  if negb (isNil err) || stopProcessing handler
  then (Returns err, handler)
  else
  (* If the decision has more than one completion event than just pick the
     first one *)
  if negb (IsWorkflowExecutionRunning (mutableState handler))
  then
    let handler :=
      IncCounter HistoryRespondDecisionTaskCompletedScope
        MultipleCompletionDecisionsCounter handler in
    let handler :=
      WarnMultipleCompletion DecisionTypeCancelWorkflowExecution handler in
    (Returns None, handler)
  else
  let '(res, ms) :=
    AddWorkflowExecutionCanceledEvent (decisionTaskCompletedID handler) attr
      (mutableState handler) in
  let handler := set_mutableState ms handler in
  match res with
  | Error err => (Returns (Some err), handler)
  | Ok _ => (Returns None, handler)
  end.

Definition handleDecisionRequestCancelExternalWorkflow
  (attr : option RequestCancelExternalWorkflowExecutionDecisionAttributes.t)
  (handler : handlerImpl) : completion * handlerImpl :=
  let handler :=
    IncCounter HistoryRespondDecisionTaskCompletedScope
      DecisionTypeCancelExternalWorkflowCounter handler in
  let executionInfo := GetExecutionInfo (mutableState handler) in
  let domainID := DomainID executionInfo in
  match
    (if RequestCancelExternalWorkflowExecutionDecisionAttributes.GetDomain
          attr =? ""
     then Ok domainID
     else
       match GetDomain (domainCache handler)
               (RequestCancelExternalWorkflowExecutionDecisionAttributes.GetDomain
                  attr) with
       | Error _ =>
           Error (InternalServiceError
                    ("Unable to cancel workflow across domain: " ++
                     RequestCancelExternalWorkflowExecutionDecisionAttributes.GetDomain
                       attr ++
                     "."))
       | Ok targetDomainEntry => Ok (ID (GetInfo targetDomainEntry))
       end)%string
  with
  | Error err => (Returns (Some err), handler)
  | Ok targetDomainID =>
  let '(err, handler) :=
    validateDecisionAttr
      (fun _ =>
         validateCancelExternalWorkflowExecutionAttributes
           (attrValidator handler) domainID targetDomainID attr)
      DecisionTaskFailedCauseBadRequestCancelExternalWorkflowExecutionAttributes
      handler in
  if negb (isNil err) || stopProcessing handler
  then (Returns err, handler)
  else
  let '(cancelRequestID, handler) := uuidNew handler in
  let '(res, ms) :=
    AddRequestCancelExternalWorkflowExecutionInitiatedEvent
      (decisionTaskCompletedID handler) cancelRequestID attr
      (mutableState handler) in
  let handler := set_mutableState ms handler in
  match res with
  | Error _ =>
      (Returns
         (Some (InternalServiceError
                  "Unable to add external cancel workflow request.")),
       handler)
  | Ok (wfCancelReqEvent, _) =>
      (Returns None,
       set_transferTasks
         (transferTasks handler ++
          [CancelExecutionTask
             targetDomainID
             (RequestCancelExternalWorkflowExecutionDecisionAttributes.GetWorkflowId
                attr)
             (RequestCancelExternalWorkflowExecutionDecisionAttributes.GetRunId
                attr)
             (RequestCancelExternalWorkflowExecutionDecisionAttributes.GetChildWorkflowOnly
                attr)
             (HistoryEvent.GetEventId wfCancelReqEvent)])
         handler)
  end
  end.

Definition handleDecisionRecordMarker
  (attr : option RecordMarkerDecisionAttributes.t)
  (handler : handlerImpl) : completion * handlerImpl :=
  let handler :=
    IncCounter HistoryRespondDecisionTaskCompletedScope
      DecisionTypeRecordMarkerCounter handler in
  let '(err, handler) :=
    validateDecisionAttr
      (fun _ => validateRecordMarkerAttributes (attrValidator handler) attr)
      DecisionTaskFailedCauseBadRecordMarkerAttributes handler in
  if negb (isNil err) || stopProcessing handler
  then (Returns err, handler)
  else
  match attr with
  | None => (Panics, handler)
  | Some a =>
  let '((failWorkflow, err), ms) :=
    failWorkflowIfBlobSizeExceedsLimit (sizeLimitChecker handler)
      (RecordMarkerDecisionAttributes.Details a)
      "RecordMarkerDecisionAttributes.Details exceeds size limit."
      (mutableState handler) in
  let handler := set_mutableState ms handler in
  if negb (isNil err) || failWorkflow
  then (Returns err, set_stopProcessing true handler)
  else
  let '(res, ms) :=
    AddRecordMarkerEvent (decisionTaskCompletedID handler) attr
      (mutableState handler) in
  let handler := set_mutableState ms handler in
  match res with
  | Error err => (Returns (Some err), handler)
  | Ok _ => (Returns None, handler)
  end
  end.

Definition handleDecisionContinueAsNewWorkflow
  (attr : option ContinueAsNewWorkflowExecutionDecisionAttributes.t)
  (handler : handlerImpl) : completion * handlerImpl :=
  let handler :=
    IncCounter HistoryRespondDecisionTaskCompletedScope
      DecisionTypeContinueAsNewCounter handler in
  if hasUnhandledEventsBeforeDecisions handler
  then
    let '(err, handler) :=
      handlerFailDecision DecisionTaskFailedCauseUnhandledDecision ""
        handler in
    (Returns err, handler)
  else
  let '(err, handler) :=
    validateDecisionAttr
      (fun _ =>
         validateContinueAsNewWorkflowExecutionAttributes
           (attrValidator handler) attr
           (GetExecutionInfo (mutableState handler)))
      DecisionTaskFailedCauseBadContinueAsNewAttributes handler in
  if negb (isNil err) || stopProcessing handler
  then (Returns err, handler)
  else
  match attr with
  | None => (Panics, handler)
  | Some a =>
  let '((failWorkflow, err), ms) :=
    failWorkflowIfBlobSizeExceedsLimit (sizeLimitChecker handler)
      (ContinueAsNewWorkflowExecutionDecisionAttributes.Input a)
      "ContinueAsNewWorkflowExecutionDecisionAttributes.Input exceeds size limit."
      (mutableState handler) in
  let handler := set_mutableState ms handler in
  if negb (isNil err) || failWorkflow
  then (Returns err, set_stopProcessing true handler)
  else
  (* If the decision has more than one completion event than just pick the
     first one *)
  if negb (IsWorkflowExecutionRunning (mutableState handler))
  then
    let handler :=
      IncCounter HistoryRespondDecisionTaskCompletedScope
        MultipleCompletionDecisionsCounter handler in
    let handler :=
      WarnMultipleCompletion DecisionTypeContinueAsNewWorkflowExecution
        handler in
    (Returns None, handler)
  else
  (* Extract parentDomainName so it can be passed down to next run of
     workflow execution; [executionInfo] is a pointer into the mutable
     state, read here *)
  match
    (if HasParentExecution (mutableState handler)
     then
       let parentDomainID :=
         ParentDomainID (GetExecutionInfo (mutableState handler)) in
       match GetDomainByID (domainCache handler) parentDomainID with
       | Error err => Error err
       | Ok parentDomainEntry => Ok (Name (GetInfo parentDomainEntry))
       end
     else Ok "")
  with
  | Error err => (Returns (Some err), handler)
  | Ok parentDomainName =>
  let '(res, ms) :=
    AddContinueAsNewEvent
      (decisionTaskCompletedID handler)
      (decisionTaskCompletedID handler)
      (domainEntry handler)
      parentDomainName
      attr
      (eventStoreVersion handler)
      (mutableState handler) in
  let handler := set_mutableState ms handler in
  match res with
  | Error err => (Returns (Some err), handler)
  | Ok (_, newStateBuilder) =>
      (Returns None, set_continueAsNewBuilder (Some newStateBuilder) handler)
  end
  end
  end.

Definition handleDecisionStartChildWorkflow
  (attr : option StartChildWorkflowExecutionDecisionAttributes.t)
  (handler : handlerImpl) : completion * handlerImpl :=
  let handler :=
    IncCounter HistoryRespondDecisionTaskCompletedScope
      DecisionTypeChildWorkflowCounter handler in
  let executionInfo := GetExecutionInfo (mutableState handler) in
  let domainID := DomainID executionInfo in
  match
    (if StartChildWorkflowExecutionDecisionAttributes.GetDomain attr =? ""
     then Ok domainID
     else
       match GetDomain (domainCache handler)
               (StartChildWorkflowExecutionDecisionAttributes.GetDomain attr)
       with
       | Error _ =>
           Error (InternalServiceError
                    ("Unable to schedule child execution across domain " ++
                     StartChildWorkflowExecutionDecisionAttributes.GetDomain
                       attr ++
                     "."))
       | Ok targetDomainEntry => Ok (ID (GetInfo targetDomainEntry))
       end)%string
  with
  | Error err => (Returns (Some err), handler)
  | Ok targetDomainID =>
  let '(err, handler) :=
    validateDecisionAttr
      (fun _ =>
         validateStartChildExecutionAttributes (attrValidator handler)
           domainID targetDomainID attr executionInfo)
      DecisionTaskFailedCauseBadStartChildExecutionAttributes handler in
  if negb (isNil err) || stopProcessing handler
  then (Returns err, handler)
  else
  match attr with
  | None => (Panics, handler)
  | Some a =>
  let '((failWorkflow, err), ms) :=
    failWorkflowIfBlobSizeExceedsLimit (sizeLimitChecker handler)
      (StartChildWorkflowExecutionDecisionAttributes.Input a)
      "StartChildWorkflowExecutionDecisionAttributes.Input exceeds size limit."
      (mutableState handler) in
  let handler := set_mutableState ms handler in
  if negb (isNil err) || failWorkflow
  then (Returns err, set_stopProcessing true handler)
  else
  let '(requestID, handler) := uuidNew handler in
  let '(res, ms) :=
    AddStartChildWorkflowExecutionInitiatedEvent
      (decisionTaskCompletedID handler) requestID attr
      (mutableState handler) in
  let handler := set_mutableState ms handler in
  match res with
  | Error err => (Returns (Some err), handler)
  | Ok (initiatedEvent, _) =>
      (Returns None,
       set_transferTasks
         (transferTasks handler ++
          [StartChildExecutionTask
             targetDomainID
             (StartChildWorkflowExecutionDecisionAttributes.GetWorkflowId attr)
             (HistoryEvent.GetEventId initiatedEvent)])
         handler)
  end
  end
  end.

Definition handleDecisionSignalExternalWorkflow
  (attr : option SignalExternalWorkflowExecutionDecisionAttributes.t)
  (handler : handlerImpl) : completion * handlerImpl :=
  let handler :=
    IncCounter HistoryRespondDecisionTaskCompletedScope
      DecisionTypeSignalExternalWorkflowCounter handler in
  let executionInfo := GetExecutionInfo (mutableState handler) in
  let domainID := DomainID executionInfo in
  match
    (if SignalExternalWorkflowExecutionDecisionAttributes.GetDomain attr =? ""
     then Ok domainID
     else
       match GetDomain (domainCache handler)
               (SignalExternalWorkflowExecutionDecisionAttributes.GetDomain
                  attr)
       with
       | Error _ =>
           Error (InternalServiceError
                    ("Unable to signal workflow across domain: " ++
                     SignalExternalWorkflowExecutionDecisionAttributes.GetDomain
                       attr ++
                     "."))
       | Ok targetDomainEntry => Ok (ID (GetInfo targetDomainEntry))
       end)%string
  with
  | Error err => (Returns (Some err), handler)
  | Ok targetDomainID =>
  let '(err, handler) :=
    validateDecisionAttr
      (fun _ =>
         validateSignalExternalWorkflowExecutionAttributes
           (attrValidator handler) domainID targetDomainID attr)
      DecisionTaskFailedCauseBadSignalWorkflowExecutionAttributes handler in
  if negb (isNil err) || stopProcessing handler
  then (Returns err, handler)
  else
  match attr with
  | None => (Panics, handler)
  | Some a =>
  let '((failWorkflow, err), ms) :=
    failWorkflowIfBlobSizeExceedsLimit (sizeLimitChecker handler)
      (SignalExternalWorkflowExecutionDecisionAttributes.Input a)
      "SignalExternalWorkflowExecutionDecisionAttributes.Input exceeds size limit."
      (mutableState handler) in
  let handler := set_mutableState ms handler in
  if negb (isNil err) || failWorkflow
  then (Returns err, set_stopProcessing true handler)
  else
  let '(signalRequestID, handler) := uuidNew handler in (* for deduplicate *)
  let '(res, ms) :=
    AddSignalExternalWorkflowExecutionInitiatedEvent
      (decisionTaskCompletedID handler) signalRequestID attr
      (mutableState handler) in
  let handler := set_mutableState ms handler in
  match res with
  | Error _ =>
      (Returns
         (Some (InternalServiceError
                  "Unable to add external signal workflow request.")),
       handler)
  | Ok (wfSignalReqEvent, _) =>
      (Returns None,
       set_transferTasks
         (transferTasks handler ++
          [SignalExecutionTask
             targetDomainID
             (WorkflowExecution.GetWorkflowId
                (SignalExternalWorkflowExecutionDecisionAttributes.Execution a))
             (WorkflowExecution.GetRunId
                (SignalExternalWorkflowExecutionDecisionAttributes.Execution a))
             (SignalExternalWorkflowExecutionDecisionAttributes.GetChildWorkflowOnly
                attr)
             (HistoryEvent.GetEventId wfSignalReqEvent)])
         handler)
  end
  end
  end.

Definition handleDecision (decision : Decision.t) (handler : handlerImpl)
  : completion * handlerImpl :=
  match Decision.GetDecisionType decision with
  | DecisionTypeScheduleActivityTask =>
      handleDecisionScheduleActivity
        (Decision.ScheduleActivityTaskDecisionAttributes decision) handler
  | DecisionTypeCompleteWorkflowExecution =>
      handleDecisionCompleteWorkflow
        (Decision.CompleteWorkflowExecutionDecisionAttributes decision)
        handler
  | DecisionTypeFailWorkflowExecution =>
      handleDecisionFailWorkflow
        (Decision.FailWorkflowExecutionDecisionAttributes decision) handler
  | DecisionTypeCancelWorkflowExecution =>
      handleDecisionCancelWorkflow
        (Decision.CancelWorkflowExecutionDecisionAttributes decision) handler
  | DecisionTypeStartTimer =>
      handleDecisionStartTimer
        (Decision.StartTimerDecisionAttributes decision) handler
  | DecisionTypeRequestCancelActivityTask =>
      handleDecisionRequestCancelActivity
        (Decision.RequestCancelActivityTaskDecisionAttributes decision)
        handler
  | DecisionTypeCancelTimer =>
      handleDecisionCancelTimer
        (Decision.CancelTimerDecisionAttributes decision) handler
  | DecisionTypeRecordMarker =>
      handleDecisionRecordMarker
        (Decision.RecordMarkerDecisionAttributes decision) handler
  | DecisionTypeRequestCancelExternalWorkflowExecution =>
      handleDecisionRequestCancelExternalWorkflow
        (Decision.RequestCancelExternalWorkflowExecutionDecisionAttributes
           decision)
        handler
  | DecisionTypeSignalExternalWorkflowExecution =>
      handleDecisionSignalExternalWorkflow
        (Decision.SignalExternalWorkflowExecutionDecisionAttributes decision)
        handler
  | DecisionTypeContinueAsNewWorkflowExecution =>
      handleDecisionContinueAsNewWorkflow
        (Decision.ContinueAsNewWorkflowExecutionDecisionAttributes decision)
        handler
  | DecisionTypeStartChildWorkflowExecution =>
      handleDecisionStartChildWorkflow
        (Decision.StartChildWorkflowExecutionDecisionAttributes decision)
        handler
  | DecisionTypeOther _ =>
      (Returns
         (Some (BadRequestError
                  ("Unknown decision type: " ++
                   DecisionType_String (Decision.GetDecisionType decision))%string)),
       handler)
  end.

Fixpoint handleDecisions (decisions : list Decision.t) (handler : handlerImpl)
  : completion * handlerImpl :=
  match decisions with
  | [] => (Returns None, handler)
  | decision :: decisions =>
      let '(c, handler) := handleDecision decision handler in
      match c with
      | Returns None =>
          if stopProcessing handler
          then (Returns None, handler)
          else handleDecisions decisions handler
      | _ => (c, handler)
      end
  end.

End Handler.

(** ** What each clause does before it applies its decision

    The clauses of [handleDecision] share a prelude: count the decision,
    resolve the target domain or refuse unhandled events, validate, check
    the size of the payload.  The functions below name the pieces of that
    prelude, so that statements can say how far a decision gets. *)

Section Prelude.
Context {MS TB : Type} `{MutableState MS}.

Local Abbreviation handlerImpl := (decisionTaskHandlerImpl MS TB).

(** The counter the clause of a decision type increments on entry. *)
Definition decisionCounter (ty : DecisionType) : option MetricCounter :=
  match ty with
  | DecisionTypeScheduleActivityTask =>
      Some DecisionTypeScheduleActivityCounter
  | DecisionTypeRequestCancelActivityTask =>
      Some DecisionTypeCancelActivityCounter
  | DecisionTypeStartTimer => Some DecisionTypeStartTimerCounter
  | DecisionTypeCompleteWorkflowExecution =>
      Some DecisionTypeCompleteWorkflowCounter
  | DecisionTypeFailWorkflowExecution => Some DecisionTypeFailWorkflowCounter
  | DecisionTypeCancelTimer => Some DecisionTypeCancelTimerCounter
  | DecisionTypeCancelWorkflowExecution =>
      Some DecisionTypeCancelWorkflowCounter
  | DecisionTypeRequestCancelExternalWorkflowExecution =>
      Some DecisionTypeCancelExternalWorkflowCounter
  | DecisionTypeRecordMarker => Some DecisionTypeRecordMarkerCounter
  | DecisionTypeContinueAsNewWorkflowExecution =>
      Some DecisionTypeContinueAsNewCounter
  | DecisionTypeStartChildWorkflowExecution =>
      Some DecisionTypeChildWorkflowCounter
  | DecisionTypeSignalExternalWorkflowExecution =>
      Some DecisionTypeSignalExternalWorkflowCounter
  | DecisionTypeOther _ => None
  end.

(** The handler once the clause of [decision] has counted it. *)
Definition counted (decision : Decision.t) (handler : handlerImpl)
  : handlerImpl :=
  match decisionCounter (Decision.GetDecisionType decision) with
  | Some c =>
      set_metricsClient
        (metricsClient handler ++
         [(HistoryRespondDecisionTaskCompletedScope, c)])
        handler
  | None => handler
  end.

(** The four terminal decisions. *)
Definition isTerminalDecisionType (ty : DecisionType) : bool :=
  match ty with
  | DecisionTypeCompleteWorkflowExecution
  | DecisionTypeFailWorkflowExecution
  | DecisionTypeCancelWorkflowExecution
  | DecisionTypeContinueAsNewWorkflowExecution => true
  | _ => false
  end.

Definition isTerminalDecision (decision : Decision.t) : bool :=
  isTerminalDecisionType (Decision.GetDecisionType decision).

(** The decisions whose clause draws a request id from [uuid.New]. *)
Definition drawsRequestID (decision : Decision.t) : bool :=
  match Decision.GetDecisionType decision with
  | DecisionTypeRequestCancelExternalWorkflowExecution
  | DecisionTypeSignalExternalWorkflowExecution
  | DecisionTypeStartChildWorkflowExecution => true
  | _ => false
  end.

(** The target domain id of a decision that names a domain: the
    workflow's own domain when the name is empty, the cache's answer
    otherwise; [None] when the lookup fails. *)
Definition targetDomainOf (domain : string) (handler : handlerImpl)
  : option string :=
  if (domain =? "")%string
  then Some (DomainID (GetExecutionInfo (mutableState handler)))
  else
    match GetDomain (domainCache handler) domain with
    | Ok entry => Some (ID (GetInfo entry))
    | Error _ => None
    end.

(** The resolved target domain of a decision of the four kinds that
    name one. *)
Definition targetDomainID (decision : Decision.t) (handler : handlerImpl)
  : option string :=
  match Decision.GetDecisionType decision with
  | DecisionTypeScheduleActivityTask =>
      targetDomainOf
        (ScheduleActivityTaskDecisionAttributes.GetDomain
           (Decision.ScheduleActivityTaskDecisionAttributes decision))
        handler
  | DecisionTypeRequestCancelExternalWorkflowExecution =>
      targetDomainOf
        (RequestCancelExternalWorkflowExecutionDecisionAttributes.GetDomain
           (Decision.RequestCancelExternalWorkflowExecutionDecisionAttributes
              decision))
        handler
  | DecisionTypeStartChildWorkflowExecution =>
      targetDomainOf
        (StartChildWorkflowExecutionDecisionAttributes.GetDomain
           (Decision.StartChildWorkflowExecutionDecisionAttributes decision))
        handler
  | DecisionTypeSignalExternalWorkflowExecution =>
      targetDomainOf
        (SignalExternalWorkflowExecutionDecisionAttributes.GetDomain
           (Decision.SignalExternalWorkflowExecutionDecisionAttributes
              decision))
        handler
  | _ => None
  end.

(** The verdict of the validator on a decision together with the cause
    the clause would fail the decision with; [None] when the clause
    returns before it validates (a domain lookup failed, events were
    unhandled before a terminal decision, the type is unknown). *)
Definition validationOf (decision : Decision.t) (handler : handlerImpl)
  : option (option error * DecisionTaskFailedCause) :=
  let v := attrValidator handler in
  let info := GetExecutionInfo (mutableState handler) in
  let domainID := DomainID info in
  match Decision.GetDecisionType decision with
  | DecisionTypeScheduleActivityTask =>
      let attr := Decision.ScheduleActivityTaskDecisionAttributes decision in
      match targetDomainID decision handler with
      | None => None
      | Some target =>
          Some (validateActivityScheduleAttributes v domainID target attr
                  (WorkflowTimeout info),
                DecisionTaskFailedCauseBadScheduleActivityAttributes)
      end
  | DecisionTypeRequestCancelActivityTask =>
      Some (validateActivityCancelAttributes v
              (Decision.RequestCancelActivityTaskDecisionAttributes decision),
            DecisionTaskFailedCauseBadRequestCancelActivityAttributes)
  | DecisionTypeStartTimer =>
      Some (validateTimerScheduleAttributes v
              (Decision.StartTimerDecisionAttributes decision),
            DecisionTaskFailedCauseBadStartTimerAttributes)
  | DecisionTypeCancelTimer =>
      Some (validateTimerCancelAttributes v
              (Decision.CancelTimerDecisionAttributes decision),
            DecisionTaskFailedCauseBadCancelTimerAttributes)
  | DecisionTypeRecordMarker =>
      Some (validateRecordMarkerAttributes v
              (Decision.RecordMarkerDecisionAttributes decision),
            DecisionTaskFailedCauseBadRecordMarkerAttributes)
  | DecisionTypeCompleteWorkflowExecution =>
      if hasUnhandledEventsBeforeDecisions handler then None
      else
        Some (validateCompleteWorkflowExecutionAttributes v
                (Decision.CompleteWorkflowExecutionDecisionAttributes
                   decision),
              DecisionTaskFailedCauseBadCompleteWorkflowExecutionAttributes)
  | DecisionTypeFailWorkflowExecution =>
      if hasUnhandledEventsBeforeDecisions handler then None
      else
        Some (validateFailWorkflowExecutionAttributes v
                (Decision.FailWorkflowExecutionDecisionAttributes decision),
              DecisionTaskFailedCauseBadFailWorkflowExecutionAttributes)
  | DecisionTypeCancelWorkflowExecution =>
      if hasUnhandledEventsBeforeDecisions handler then None
      else
        Some (validateCancelWorkflowExecutionAttributes v
                (Decision.CancelWorkflowExecutionDecisionAttributes decision),
              DecisionTaskFailedCauseBadCancelWorkflowExecutionAttributes)
  | DecisionTypeContinueAsNewWorkflowExecution =>
      if hasUnhandledEventsBeforeDecisions handler then None
      else
        Some (validateContinueAsNewWorkflowExecutionAttributes v
                (Decision.ContinueAsNewWorkflowExecutionDecisionAttributes
                   decision)
                info,
              DecisionTaskFailedCauseBadContinueAsNewAttributes)
  | DecisionTypeStartChildWorkflowExecution =>
      let attr :=
        Decision.StartChildWorkflowExecutionDecisionAttributes decision in
      match targetDomainID decision handler with
      | None => None
      | Some target =>
          Some (validateStartChildExecutionAttributes v domainID target attr
                  info,
                DecisionTaskFailedCauseBadStartChildExecutionAttributes)
      end
  | DecisionTypeRequestCancelExternalWorkflowExecution =>
      let attr :=
        Decision.RequestCancelExternalWorkflowExecutionDecisionAttributes
          decision in
      match targetDomainID decision handler with
      | None => None
      | Some target =>
          Some (validateCancelExternalWorkflowExecutionAttributes v domainID
                  target attr,
                DecisionTaskFailedCauseBadRequestCancelExternalWorkflowExecutionAttributes)
      end
  | DecisionTypeSignalExternalWorkflowExecution =>
      let attr :=
        Decision.SignalExternalWorkflowExecutionDecisionAttributes decision in
      match targetDomainID decision handler with
      | None => None
      | Some target =>
          Some (validateSignalExternalWorkflowExecutionAttributes v domainID
                  target attr,
                DecisionTaskFailedCauseBadSignalWorkflowExecutionAttributes)
      end
  | DecisionTypeOther _ => None
  end.

(** A decision passes validation: the clause reaches its validator, the
    validator returns nil, and processing had not been stopped. *)
Definition passesValidation (decision : Decision.t) (handler : handlerImpl)
  : bool :=
  match validationOf decision handler with
  | Some (None, _) => negb (stopProcessing handler)
  | _ => false
  end.

(** The payload a clause hands to the blob-size checker, with the message
    it passes along; [None] for the clauses that check no payload. *)
Definition checkedPayload (decision : Decision.t) : option (bytes * string) :=
  match Decision.GetDecisionType decision with
  | DecisionTypeScheduleActivityTask =>
      option_map
        (fun a =>
           (ScheduleActivityTaskDecisionAttributes.Input a,
            "ScheduleActivityTaskDecisionAttributes.Input exceeds size limit."))
        (Decision.ScheduleActivityTaskDecisionAttributes decision)
  | DecisionTypeCompleteWorkflowExecution =>
      option_map
        (fun a =>
           (CompleteWorkflowExecutionDecisionAttributes.Result a,
            "CompleteWorkflowExecutionDecisionAttributes.Result exceeds size limit."))
        (Decision.CompleteWorkflowExecutionDecisionAttributes decision)
  | DecisionTypeFailWorkflowExecution =>
      option_map
        (fun a =>
           (FailWorkflowExecutionDecisionAttributes.Details a,
            "FailWorkflowExecutionDecisionAttributes.Details exceeds size limit."))
        (Decision.FailWorkflowExecutionDecisionAttributes decision)
  | DecisionTypeRecordMarker =>
      option_map
        (fun a =>
           (RecordMarkerDecisionAttributes.Details a,
            "RecordMarkerDecisionAttributes.Details exceeds size limit."))
        (Decision.RecordMarkerDecisionAttributes decision)
  | DecisionTypeContinueAsNewWorkflowExecution =>
      option_map
        (fun a =>
           (ContinueAsNewWorkflowExecutionDecisionAttributes.Input a,
            "ContinueAsNewWorkflowExecutionDecisionAttributes.Input exceeds size limit."))
        (Decision.ContinueAsNewWorkflowExecutionDecisionAttributes decision)
  | DecisionTypeStartChildWorkflowExecution =>
      option_map
        (fun a =>
           (StartChildWorkflowExecutionDecisionAttributes.Input a,
            "StartChildWorkflowExecutionDecisionAttributes.Input exceeds size limit."))
        (Decision.StartChildWorkflowExecutionDecisionAttributes decision)
  | DecisionTypeSignalExternalWorkflowExecution =>
      option_map
        (fun a =>
           (SignalExternalWorkflowExecutionDecisionAttributes.Input a,
            "SignalExternalWorkflowExecutionDecisionAttributes.Input exceeds size limit."))
        (Decision.SignalExternalWorkflowExecutionDecisionAttributes decision)
  | _ => None
  end.

(** The fields a fail-decision verdict assigns, the others kept. *)
Definition failedWith (cause : DecisionTaskFailedCause) (message : string)
  (handler : handlerImpl) : handlerImpl :=
  withFields handler
    (hasUnhandledEventsBeforeDecisions handler) (timerBuilder handler)
    (transferTasks handler) true (Some cause) (Some message)
    (activityNotStartedCancelled handler) (continueAsNewBuilder handler)
    true (mutableState handler) (logger handler) (metricsClient handler)
    (uuidsDrawn handler).

(** The handler after [AddContinueAsNewEvent] was called with the given
    parent domain and attributes: the state the mutator left and, when it
    succeeded, the builder of the next run stored as the verdict. *)
Definition continuedAsNew (parentDomainName : string)
  (attrs : ContinueAsNewWorkflowExecutionDecisionAttributes.t)
  (handler : handlerImpl) : completion * handlerImpl :=
  let '(res, ms) :=
    AddContinueAsNewEvent
      (decisionTaskCompletedID handler) (decisionTaskCompletedID handler)
      (domainEntry handler) parentDomainName (Some attrs)
      (eventStoreVersion handler) (mutableState handler) in
  match res with
  | Error err => (Returns (Some err), set_mutableState ms handler)
  | Ok (_, builder) =>
      (Returns None,
       set_continueAsNewBuilder (Some builder) (set_mutableState ms handler))
  end.

(** The handler at the point where the clause of a decision is about to
    apply it: the decision is counted, it passed validation, and the
    blob-size check, where the clause has one, let the payload through.
    [None] when the clause returns before that point. *)
Definition prepared (decision : Decision.t) (handler : handlerImpl)
  : option handlerImpl :=
  if passesValidation decision handler
  then
    match Decision.GetDecisionType decision with
    | DecisionTypeRequestCancelActivityTask
    | DecisionTypeStartTimer
    | DecisionTypeCancelTimer
    | DecisionTypeCancelWorkflowExecution
    | DecisionTypeRequestCancelExternalWorkflowExecution =>
        Some (counted decision handler)
    | DecisionTypeOther _ => None
    | _ =>
        match checkedPayload decision with
        | None => None
        | Some (payload, message) =>
            match
              failWorkflowIfBlobSizeExceedsLimit (sizeLimitChecker handler)
                payload message (mutableState handler)
            with
            | ((false, None), ms) =>
                Some (set_mutableState ms (counted decision handler))
            | _ => None
            end
        end
    end
  else None.

End Prelude.

(** ** The blob-size checker *)

Section BlobSizeChecker.
Context {MS : Type} `{MutableState MS}.

(** Modelled from the spec: the reason of the termination event, named in
    section 4.B. *)
Definition PayloadSizeExceedsLimit : string := "PayloadSizeExceedsLimit".

(** Modelled from the spec: [decisionBlobSizeChecker] and its method
    [failWorkflowIfBlobSizeExceedsLimit] are defined in a file of package
    [history] that is not at hand; the handler only calls the method.
    Section 4.B: a payload of at most [warnLimit] bytes has no effect; one
    between the limits emits a metric and processing continues; one above
    [errorLimit] terminates the workflow with a
    [WorkflowExecutionTerminated] event carrying the reason
    [PayloadSizeExceedsLimit].  The metric is not part of the model, and
    an error of the mutator is handed back to the caller. *)
Definition newDecisionBlobSizeChecker (sizeLimitWarn sizeLimitError : Z)
  : decisionBlobSizeChecker MS :=
  {|
    failWorkflowIfBlobSizeExceedsLimit := fun blob message ms =>
      let size := Z.of_nat (List.length blob) in
      if size <=? sizeLimitWarn then ((false, None), ms)
      else if size <=? sizeLimitError then ((false, None), ms)
      else
        let '(res, ms) :=
          AddWorkflowExecutionTerminatedEvent PayloadSizeExceedsLimit
            (bytesOfString message) ms in
        match res with
        | Ok _ => ((true, None), ms)
        | Error err => ((false, Some err), ms)
        end
  |}.

End BlobSizeChecker.

(** ** The history behind a mutable state *)

(** The event types the four terminal decisions append. *)
Definition isCompletionEventType (ty : option EventType) : bool :=
  match ty with
  | Some EventTypeWorkflowExecutionCompleted
  | Some EventTypeWorkflowExecutionFailed
  | Some EventTypeWorkflowExecutionCanceled
  | Some EventTypeWorkflowExecutionContinuedAsNew => true
  | _ => false
  end.

(** How many completion-type events a list of events holds. *)
Definition completionEvents (evs : list HistoryEvent.t) : nat :=
  List.length
    (filter (fun e => isCompletionEventType (HistoryEvent.EventType e)) evs).

(** Modelled from the spec: the implementation of the mutable state is not
    at hand.  Section 1 makes the progress of a workflow an append-only
    history of events and section 6 has every mutator return the event it
    created; [GetHistory] is that history. *)
Class MutableStateHistory (MS : Type) : Type := {
  GetHistory : MS -> list HistoryEvent.t
}.

Section Contract.
Context {MS : Type} `{MutableState MS} `{MutableStateHistory MS}.

(** [ms'] extends the history of [ms] by the events [evs]. *)
Definition appended (ms ms' : MS) (evs : list HistoryEvent.t) : Prop :=
  GetHistory ms' = GetHistory ms ++ evs.

(** A step that appends no completion-type event and does not bring a
    closed workflow back to running. *)
Definition quietStep (ms ms' : MS) : Prop :=
  (exists evs, appended ms ms' evs /\ completionEvents evs = 0%nat) /\
  (IsWorkflowExecutionRunning ms = false ->
   IsWorkflowExecutionRunning ms' = false).

(** What a mutator that closes the workflow does: when it succeeds it
    appends the event it returns, of type [ty], and the workflow stops
    running; when it fails it has appended at most one completion-type
    event. *)
Definition closingStep {A : Type} (eventOf : A -> HistoryEvent.t)
  (ty : EventType) (ms : MS) (r : result A * MS) : Prop :=
  match r with
  | (Ok a, ms') =>
      appended ms ms' [eventOf a] /\
      HistoryEvent.EventType (eventOf a) = Some ty /\
      IsWorkflowExecutionRunning ms' = false
  | (Error _, ms') =>
      exists evs, appended ms ms' evs /\ (completionEvents evs <= 1)%nat
  end.

(** Modelled from the spec: what the handler may rely on from the mutators
    of a mutable state, whose implementation is not at hand.  Section 3:
    [isRunning] becomes false on completion, failure, cancellation,
    termination and continue-as-new, and nothing makes it true again;
    section 6: every mutator returns the event it created.  The mutators
    of the four terminal decisions close the workflow, the termination
    applied by the blob-size check records its reason and details, and no
    other mutator appends a completion-type event. *)
Class MutableStateLaws : Prop := {
  AddActivityTaskScheduledEvent_quiet : forall id attr ms,
    quietStep ms (snd (AddActivityTaskScheduledEvent id attr ms));
  AddActivityTaskCancelRequestedEvent_quiet : forall id activityID who ms,
    quietStep ms
      (snd (AddActivityTaskCancelRequestedEvent id activityID who ms));
  AddActivityTaskCanceledEvent_quiet : forall sid stid cid details who ms,
    quietStep ms
      (snd (AddActivityTaskCanceledEvent sid stid cid details who ms));
  AddRequestCancelActivityTaskFailedEvent_quiet : forall id activityID c ms,
    quietStep ms
      (snd (AddRequestCancelActivityTaskFailedEvent id activityID c ms));
  AddTimerStartedEvent_quiet : forall id attr ms,
    quietStep ms (snd (AddTimerStartedEvent id attr ms));
  AddTimerCanceledEvent_quiet : forall id attr who ms,
    quietStep ms (snd (AddTimerCanceledEvent id attr who ms));
  AddCancelTimerFailedEvent_quiet : forall id attr who ms,
    quietStep ms (snd (AddCancelTimerFailedEvent id attr who ms));
  AddRecordMarkerEvent_quiet : forall id attr ms,
    quietStep ms (snd (AddRecordMarkerEvent id attr ms));
  AddStartChildWorkflowExecutionInitiatedEvent_quiet : forall id rid attr ms,
    quietStep ms
      (snd (AddStartChildWorkflowExecutionInitiatedEvent id rid attr ms));
  AddRequestCancelExternalWorkflowExecutionInitiatedEvent_quiet :
    forall id rid attr ms,
    quietStep ms
      (snd (AddRequestCancelExternalWorkflowExecutionInitiatedEvent
              id rid attr ms));
  AddSignalExternalWorkflowExecutionInitiatedEvent_quiet :
    forall id rid attr ms,
    quietStep ms
      (snd (AddSignalExternalWorkflowExecutionInitiatedEvent id rid attr ms));
  AddWorkflowExecutionTerminatedEvent_quiet : forall reason details ms,
    quietStep ms
      (snd (AddWorkflowExecutionTerminatedEvent reason details ms));
  AddWorkflowExecutionTerminatedEvent_terminates : forall reason details ms,
    match AddWorkflowExecutionTerminatedEvent reason details ms with
    | (Ok ev, ms') =>
        appended ms ms' [ev] /\
        HistoryEvent.EventType ev =
          Some EventTypeWorkflowExecutionTerminated /\
        HistoryEvent.Attributes ev = ClosedAttributes reason details /\
        IsWorkflowExecutionRunning ms' = false
    | (Error _, _) => True
    end;
  AddCompletedWorkflowEvent_closes : forall id attr ms,
    closingStep (fun ev => ev) EventTypeWorkflowExecutionCompleted ms
      (AddCompletedWorkflowEvent id attr ms);
  AddFailWorkflowEvent_closes : forall id attr ms,
    closingStep (fun ev => ev) EventTypeWorkflowExecutionFailed ms
      (AddFailWorkflowEvent id attr ms);
  AddWorkflowExecutionCanceledEvent_closes : forall id attr ms,
    closingStep (fun ev => ev) EventTypeWorkflowExecutionCanceled ms
      (AddWorkflowExecutionCanceledEvent id attr ms);
  AddContinueAsNewEvent_closes : forall a b entry parent attr ver ms,
    closingStep fst EventTypeWorkflowExecutionContinuedAsNew ms
      (AddContinueAsNewEvent a b entry parent attr ver ms)
}.

(** The blob-size checker of a handler appends no completion-type event
    and leaves a closed workflow closed. *)
Definition quietChecker (checker : decisionBlobSizeChecker MS) : Prop :=
  forall blob message ms,
    quietStep ms
      (snd (failWorkflowIfBlobSizeExceedsLimit checker blob message ms)).

(** What handling one decision, or a whole batch, does to the history:
    at most one completion-type event is appended, none once the workflow
    is closed, and a closed workflow stays closed; when the handler
    returned nil and a completion-type event was appended, the workflow
    is closed. *)
Definition decisionStep (c : completion) (ms ms' : MS) : Prop :=
  exists evs,
    appended ms ms' evs /\
    (completionEvents evs <= 1)%nat /\
    (IsWorkflowExecutionRunning ms = false ->
     completionEvents evs = 0%nat /\
     IsWorkflowExecutionRunning ms' = false) /\
    (c = Returns None -> completionEvents evs = 1%nat ->
     IsWorkflowExecutionRunning ms' = false).

End Contract.

(** ** What a batch leaves behind

    Two ways to count the decisions of a batch, used to say what the
    handler has accumulated when it returns. *)

(** The decisions whose clause appends a transfer task when it applies
    the decision: an activity to dispatch, an external workflow to cancel
    or to signal, a child workflow to start. *)
Definition addsTransferTask (decision : Decision.t) : bool :=
  match Decision.GetDecisionType decision with
  | DecisionTypeScheduleActivityTask
  | DecisionTypeRequestCancelExternalWorkflowExecution
  | DecisionTypeStartChildWorkflowExecution
  | DecisionTypeSignalExternalWorkflowExecution => true
  | _ => false
  end.

(** Whether the clause of a decision increments the counter on entry. *)
Definition countedBy (counter : MetricCounter) (decision : Decision.t)
  : bool :=
  match decisionCounter (Decision.GetDecisionType decision) with
  | Some c => MetricCounter_eqb c counter
  | None => false
  end.

(** ** A reference mutable state

    The handler is stated over the interfaces above.  To run it, and to
    show that the contract can be met, the module below implements them in
    the simplest way the spec allows. *)

Module Ref.

(** Modelled from the spec: the mutable state of section 3 (the
    implementation is not at hand): execution info, pending activities and
    timers, the queue of buffered events, the running flag, and the
    history recorded so far with the id of the next event. *)
Record state : Type := {
  executionInfo : WorkflowExecutionInfo;
  running : bool;
  nextEventID : Z;
  history : list HistoryEvent.t;
  bufferedEvents : list HistoryEvent.t;
  activityInfos : list ActivityInfo;
  timerInfos : list TimerInfo;
  startEvent : option HistoryEvent.t;
  cronBackoff : Duration;
  retryBackoff : Duration;
  hasParent : bool
}.

(** The state with its changing parts replaced. *)
Definition update (ms : state) (r : bool) (n : Z)
  (h b : list HistoryEvent.t) (a : list ActivityInfo) (t : list TimerInfo)
  : state :=
  {|
    executionInfo := executionInfo ms;
    running := r;
    nextEventID := n;
    history := h;
    bufferedEvents := b;
    activityInfos := a;
    timerInfos := t;
    startEvent := startEvent ms;
    cronBackoff := cronBackoff ms;
    retryBackoff := retryBackoff ms;
    hasParent := hasParent ms
  |}.

(** Append an event of the given type; event ids count up. *)
Definition append (ty : EventType) (attrs : EventAttributes) (ms : state)
  : HistoryEvent.t * state :=
  let ev :=
    {| HistoryEvent.EventId := Some (nextEventID ms);
       HistoryEvent.EventType := Some ty;
       HistoryEvent.Attributes := attrs |} in
  (ev,
   update ms (running ms) (nextEventID ms + 1) (history ms ++ [ev])
     (bufferedEvents ms) (activityInfos ms) (timerInfos ms)).

Definition stop (ms : state) : state :=
  update ms false (nextEventID ms) (history ms) (bufferedEvents ms)
    (activityInfos ms) (timerInfos ms).

(** A closing event: appended when the workflow runs, and then it runs no
    more. *)
Definition closeWith (ty : EventType) (attrs : EventAttributes) (ms : state)
  : result HistoryEvent.t * state :=
  if running ms
  then let '(ev, ms) := append ty attrs ms in (Ok ev, stop ms)
  else (Error (InternalServiceError "workflow execution already completed"),
        ms).

Definition findActivity (activityID : string) (ms : state)
  : option ActivityInfo :=
  find (fun ai => (ActivityInfo_ActivityID ai =? activityID)%string)
    (activityInfos ms).

Definition hasTimer (timerID : string) (ms : state) : bool :=
  existsb (fun ti => (TimerInfo_TimerID ti =? timerID)%string)
    (timerInfos ms).

(** A buffered event that reports the timer as fired. *)
Definition isFiredTimer (timerID : string) (ev : HistoryEvent.t) : bool :=
  match HistoryEvent.EventType ev, HistoryEvent.Attributes ev with
  | Some EventTypeTimerFired, TimerAttributes t => (t =? timerID)%string
  | _, _ => false
  end.

Definition addActivityTaskScheduledEvent (id : Z)
  (attr : option ScheduleActivityTaskDecisionAttributes.t) (ms : state)
  : result (HistoryEvent.t * ActivityInfo) * state :=
  match attr with
  | None => (Error (InternalServiceError "no attributes"), ms)
  | Some a =>
      let activityID :=
        getString (ScheduleActivityTaskDecisionAttributes.ActivityId a) in
      match findActivity activityID ms with
      | Some _ => (Error (BadRequestError "duplicate activity id"), ms)
      | None =>
          let '(ev, ms) := append EventTypeActivityTaskScheduled NoAttributes
                             ms in
          let ai :=
            {| ActivityInfo_ScheduleID := HistoryEvent.GetEventId ev;
               ActivityInfo_StartedID := EmptyEventID;
               ActivityInfo_ActivityID := activityID |} in
          (Ok (ev, ai),
           update ms (running ms) (nextEventID ms) (history ms)
             (bufferedEvents ms) (ai :: activityInfos ms) (timerInfos ms))
      end
  end.

Definition addActivityTaskCancelRequestedEvent (id : Z)
  (activityID who : string) (ms : state)
  : result (HistoryEvent.t * ActivityInfo) * state :=
  match findActivity activityID ms with
  | None => (Error (BadRequestError "unknown activity id"), ms)
  | Some ai =>
      let '(ev, ms) :=
        append EventTypeActivityTaskCancelRequested NoAttributes ms in
      (Ok (ev, ai), ms)
  end.

Definition addActivityTaskCanceledEvent (scheduleID startedID cancelID : Z)
  (details : bytes) (who : string) (ms : state)
  : result HistoryEvent.t * state :=
  if existsb (fun ai => ActivityInfo_ScheduleID ai =? scheduleID)
       (activityInfos ms)
  then
    let '(ev, ms) := append EventTypeActivityTaskCanceled NoAttributes ms in
    (Ok ev,
     update ms (running ms) (nextEventID ms) (history ms) (bufferedEvents ms)
       (filter (fun ai => negb (ActivityInfo_ScheduleID ai =? scheduleID))
          (activityInfos ms))
       (timerInfos ms))
  else (Error (InternalServiceError "unknown schedule id"), ms).

Definition addTimerStartedEvent (id : Z)
  (attr : option StartTimerDecisionAttributes.t) (ms : state)
  : result (HistoryEvent.t * TimerInfo) * state :=
  match attr with
  | None => (Error (InternalServiceError "no attributes"), ms)
  | Some a =>
      let timerID := getString (StartTimerDecisionAttributes.TimerId a) in
      if hasTimer timerID ms
      then (Error (BadRequestError "duplicate timer id"), ms)
      else
        let '(ev, ms) :=
          append EventTypeTimerStarted (TimerAttributes timerID) ms in
        let ti :=
          {| TimerInfo_TimerID := timerID;
             TimerInfo_StartedID := HistoryEvent.GetEventId ev;
             TimerInfo_ExpirySeconds :=
               getInt (StartTimerDecisionAttributes.StartToFireTimeoutSeconds
                         a) |} in
        (Ok (ev, ti),
         update ms (running ms) (nextEventID ms) (history ms)
           (bufferedEvents ms) (activityInfos ms) (ti :: timerInfos ms))
  end.

(** Cancelling a live timer removes it; cancelling a timer whose fire
    event sits in the buffer consumes that event (section 4.D); a timer
    that is neither is not found. *)
Definition addTimerCanceledEvent (id : Z)
  (attr : option CancelTimerDecisionAttributes.t) (who : string) (ms : state)
  : result HistoryEvent.t * state :=
  let timerID :=
    match attr with
    | Some a => getString (CancelTimerDecisionAttributes.TimerId a)
    | None => ""
    end in
  if hasTimer timerID ms
  then
    let '(ev, ms) :=
      append EventTypeTimerCanceled (TimerAttributes timerID) ms in
    (Ok ev,
     update ms (running ms) (nextEventID ms) (history ms) (bufferedEvents ms)
       (activityInfos ms)
       (filter (fun ti => negb (TimerInfo_TimerID ti =? timerID)%string)
          (timerInfos ms)))
  else if existsb (isFiredTimer timerID) (bufferedEvents ms)
  then
    let '(ev, ms) :=
      append EventTypeTimerCanceled (TimerAttributes timerID) ms in
    (Ok ev,
     update ms (running ms) (nextEventID ms) (history ms)
       (filter (fun e => negb (isFiredTimer timerID e)) (bufferedEvents ms))
       (activityInfos ms) (timerInfos ms))
  else (Error (BadRequestError "timer not found"), ms).

(** The start event of the run a continue-as-new begins. *)
Definition nextStartEvent (parentDomainName : string)
  (a : ContinueAsNewWorkflowExecutionDecisionAttributes.t)
  : HistoryEvent.t :=
  {| HistoryEvent.EventId := Some 1;
     HistoryEvent.EventType := Some EventTypeWorkflowExecutionStarted;
     HistoryEvent.Attributes :=
       StartedAttributes
         {| WorkflowExecutionStartedEventAttributes.WorkflowType :=
              ContinueAsNewWorkflowExecutionDecisionAttributes.WorkflowType a;
            WorkflowExecutionStartedEventAttributes.ParentWorkflowDomain :=
              if (parentDomainName =? "")%string then None
              else Some parentDomainName;
            WorkflowExecutionStartedEventAttributes.TaskList :=
              ContinueAsNewWorkflowExecutionDecisionAttributes.TaskList a;
            WorkflowExecutionStartedEventAttributes.Input :=
              ContinueAsNewWorkflowExecutionDecisionAttributes.Input a;
            WorkflowExecutionStartedEventAttributes.ExecutionStartToCloseTimeoutSeconds :=
              ContinueAsNewWorkflowExecutionDecisionAttributes.ExecutionStartToCloseTimeoutSeconds a;
            WorkflowExecutionStartedEventAttributes.TaskStartToCloseTimeoutSeconds :=
              ContinueAsNewWorkflowExecutionDecisionAttributes.TaskStartToCloseTimeoutSeconds a;
            WorkflowExecutionStartedEventAttributes.RetryPolicy :=
              ContinueAsNewWorkflowExecutionDecisionAttributes.RetryPolicy a;
            WorkflowExecutionStartedEventAttributes.LastCompletionResult :=
              ContinueAsNewWorkflowExecutionDecisionAttributes.LastCompletionResult a;
            WorkflowExecutionStartedEventAttributes.CronSchedule :=
              ContinueAsNewWorkflowExecutionDecisionAttributes.CronSchedule a
         |} |}.

(** Continue-as-new closes the run and returns the builder of the next
    one, which starts from the event above. *)
Definition addContinueAsNewEvent (a b : Z) (entry : DomainCacheEntry)
  (parentDomainName : string)
  (attr : option ContinueAsNewWorkflowExecutionDecisionAttributes.t)
  (ver : Z) (ms : state)
  : result (HistoryEvent.t * state) * state :=
  match attr with
  | None => (Error (InternalServiceError "no attributes"), ms)
  | Some attrs =>
      match closeWith EventTypeWorkflowExecutionContinuedAsNew NoAttributes
              ms with
      | (Error err, ms) => (Error err, ms)
      | (Ok ev, ms) =>
          let start := nextStartEvent parentDomainName attrs in
          let next :=
            {| executionInfo := executionInfo ms;
               running := true;
               nextEventID := 2;
               history := [start];
               bufferedEvents := [];
               activityInfos := [];
               timerInfos := [];
               startEvent := Some start;
               cronBackoff := cronBackoff ms;
               retryBackoff := retryBackoff ms;
               hasParent := hasParent ms |} in
          (Ok (ev, next), ms)
      end
  end.

Definition initiated {A : Type} (ty : EventType) (requestID : string)
  (info : Z -> A) (ms : state) : result (HistoryEvent.t * A) * state :=
  let '(ev, ms) := append ty (RequestedAttributes requestID) ms in
  (Ok (ev, info (HistoryEvent.GetEventId ev)), ms).

Definition recorded (ty : EventType) (ms : state)
  : result HistoryEvent.t * state :=
  let '(ev, ms) := append ty NoAttributes ms in (Ok ev, ms).

(** Modelled from the spec: the methods of the mutable state (section 6),
    whose implementation is not at hand.  Every mutator appends the event
    it returns; a closing mutator refuses a workflow that no longer runs;
    duplicate and unknown ids are answered with a BadRequest error. *)
#[global] Instance mutableStateOps : MutableState state := {|
  GetExecutionInfo := executionInfo;
  IsWorkflowExecutionRunning := running;
  HasBufferedEvents := fun ms =>
    match bufferedEvents ms with [] => false | _ => true end;
  HasParentExecution := hasParent;
  GetStartEvent := startEvent;
  GetCronBackoffDuration := cronBackoff;
  GetRetryBackoffDuration := fun _ ms => retryBackoff ms;
  AddActivityTaskScheduledEvent := addActivityTaskScheduledEvent;
  AddActivityTaskCancelRequestedEvent := addActivityTaskCancelRequestedEvent;
  AddActivityTaskCanceledEvent := addActivityTaskCanceledEvent;
  AddRequestCancelActivityTaskFailedEvent := fun _ _ _ =>
    recorded EventTypeRequestCancelActivityTaskFailed;
  AddTimerStartedEvent := addTimerStartedEvent;
  AddTimerCanceledEvent := addTimerCanceledEvent;
  AddCancelTimerFailedEvent := fun _ _ _ =>
    recorded EventTypeCancelTimerFailed;
  AddCompletedWorkflowEvent := fun _ attr =>
    closeWith EventTypeWorkflowExecutionCompleted
      (match attr with
       | Some a =>
           ClosedAttributes ""
             (CompleteWorkflowExecutionDecisionAttributes.Result a)
       | None => NoAttributes
       end);
  AddFailWorkflowEvent := fun _ attr =>
    closeWith EventTypeWorkflowExecutionFailed
      (match attr with
       | Some a =>
           ClosedAttributes
             (getString (FailWorkflowExecutionDecisionAttributes.Reason a))
             (FailWorkflowExecutionDecisionAttributes.Details a)
       | None => NoAttributes
       end);
  AddWorkflowExecutionCanceledEvent := fun _ attr =>
    closeWith EventTypeWorkflowExecutionCanceled
      (match attr with
       | Some a =>
           ClosedAttributes ""
             (CancelWorkflowExecutionDecisionAttributes.Details a)
       | None => NoAttributes
       end);
  AddWorkflowExecutionTerminatedEvent := fun reason details =>
    closeWith EventTypeWorkflowExecutionTerminated
      (ClosedAttributes reason details);
  AddRecordMarkerEvent := fun _ _ => recorded EventTypeMarkerRecorded;
  AddContinueAsNewEvent := addContinueAsNewEvent;
  AddStartChildWorkflowExecutionInitiatedEvent := fun _ requestID _ =>
    initiated EventTypeStartChildWorkflowExecutionInitiated requestID
      (fun id => {| ChildExecutionInfo_InitiatedID := id;
                    ChildExecutionInfo_CreateRequestID := requestID |});
  AddRequestCancelExternalWorkflowExecutionInitiatedEvent :=
    fun _ requestID _ =>
    initiated EventTypeRequestCancelExternalWorkflowExecutionInitiated
      requestID
      (fun id => {| RequestCancelInfo_InitiatedID := id;
                    RequestCancelInfo_CancelRequestID := requestID |});
  AddSignalExternalWorkflowExecutionInitiatedEvent := fun _ requestID _ =>
    initiated EventTypeSignalExternalWorkflowExecutionInitiated requestID
      (fun id => {| SignalInfo_InitiatedID := id;
                    SignalInfo_SignalRequestID := requestID |})
|}.

#[global] Instance mutableStateHistory : MutableStateHistory state := {|
  GetHistory := history
|}.

(** The timers the workflow has started and not yet seen fire or cancel:
    the pending ones and those whose fire event waits in the buffer. *)
Definition liveTimerIDs (ms : state) : list string :=
  map TimerInfo_TimerID (timerInfos ms) ++
  flat_map
    (fun ev =>
       match HistoryEvent.EventType ev, HistoryEvent.Attributes ev with
       | Some EventTypeTimerFired, TimerAttributes t => [t]
       | _, _ => []
       end)
    (bufferedEvents ms).

Definition badRequest (message : string) : option error :=
  Some (BadRequestError message).

Definition unset (s : option string) : bool := (getString s =? "")%string.

Definition negative (z : option Z) : bool := getInt z <? 0.

Definition coherent (p : option RetryPolicy.t) : bool :=
  match p with
  | None => true
  | Some r =>
      (0 <? getInt (RetryPolicy.InitialIntervalInSeconds r)) &&
      match RetryPolicy.MaximumIntervalInSeconds r with
      | Some m => getInt (RetryPolicy.InitialIntervalInSeconds r) <=? m
      | None => true
      end
  end.

(** Modelled from the spec: the attribute validator of section 4.A; its
    file is not at hand.  One check per decision kind, in the words of the
    spec; left out are the per-domain ceilings on timeouts, the backoff
    coefficient and the child policy, whose values the spec does not give.
    The validator is built with the set of live timers. *)
Definition newDecisionAttrValidator (liveTimers : list string)
  : decisionAttrValidator :=
  {|
    validateActivityScheduleAttributes := fun _ _ attr _ =>
      match attr with
      | None =>
          badRequest
            "ScheduleActivityTaskDecisionAttributes is not set on decision."
      | Some a =>
          let sc :=
            ScheduleActivityTaskDecisionAttributes.ScheduleToCloseTimeoutSeconds a in
          let ss :=
            ScheduleActivityTaskDecisionAttributes.ScheduleToStartTimeoutSeconds a in
          let st :=
            ScheduleActivityTaskDecisionAttributes.StartToCloseTimeoutSeconds a in
          if unset (ScheduleActivityTaskDecisionAttributes.ActivityId a)
          then badRequest "ActivityId is not set on decision."
          else if
            match ScheduleActivityTaskDecisionAttributes.ActivityType a with
            | Some ty => unset (ActivityType.Name ty)
            | None => true
            end
          then badRequest "ActivityType is not set on decision."
          else if
            (TaskList.GetName
               (ScheduleActivityTaskDecisionAttributes.TaskList a) =? "")%string
          then badRequest "TaskList is not set on decision."
          else if
            negative sc || negative ss || negative st ||
            negative
              (ScheduleActivityTaskDecisionAttributes.HeartbeatTimeoutSeconds a)
          then badRequest "A valid timeout may not be negative."
          else if
            negb ((0 <? getInt sc) || ((0 <? getInt ss) && (0 <? getInt st)))
          then badRequest "A valid timeout is not set on decision."
          else if
            (0 <? getInt sc) && (0 <? getInt ss) && (0 <? getInt st) &&
            (getInt sc <? getInt ss + getInt st)
          then badRequest "ScheduleToClose is shorter than its parts."
          else None
      end;
    validateActivityCancelAttributes := fun attr =>
      match attr with
      | None =>
          badRequest
            "RequestCancelActivityTaskDecisionAttributes is not set on decision."
      | Some a =>
          if unset (RequestCancelActivityTaskDecisionAttributes.ActivityId a)
          then badRequest "ActivityId is not set on decision."
          else None
      end;
    validateTimerScheduleAttributes := fun attr =>
      match attr with
      | None => badRequest "StartTimerDecisionAttributes is not set on decision."
      | Some a =>
          if unset (StartTimerDecisionAttributes.TimerId a)
          then badRequest "TimerId is not set on decision."
          else if
            existsb
              (String.eqb (getString (StartTimerDecisionAttributes.TimerId a)))
              liveTimers
          then badRequest "TimerId is in use."
          else if
            getInt (StartTimerDecisionAttributes.StartToFireTimeoutSeconds a)
            <=? 0
          then badRequest "A valid StartToFireTimeoutSeconds is not set on decision."
          else None
      end;
    validateTimerCancelAttributes := fun attr =>
      match attr with
      | None => badRequest "CancelTimerDecisionAttributes is not set on decision."
      | Some a =>
          if
            existsb
              (String.eqb (getString (CancelTimerDecisionAttributes.TimerId a)))
              liveTimers
          then None
          else badRequest "TimerId does not refer to a live timer."
      end;
    validateCompleteWorkflowExecutionAttributes := fun attr =>
      match attr with
      | None =>
          badRequest
            "CompleteWorkflowExecutionDecisionAttributes is not set on decision."
      | Some _ => None
      end;
    validateFailWorkflowExecutionAttributes := fun attr =>
      match attr with
      | None =>
          badRequest
            "FailWorkflowExecutionDecisionAttributes is not set on decision."
      | Some _ => None
      end;
    validateCancelWorkflowExecutionAttributes := fun attr =>
      match attr with
      | None =>
          badRequest
            "CancelWorkflowExecutionDecisionAttributes is not set on decision."
      | Some _ => None
      end;
    validateRecordMarkerAttributes := fun attr =>
      match attr with
      | None =>
          badRequest "RecordMarkerDecisionAttributes is not set on decision."
      | Some a =>
          if unset (RecordMarkerDecisionAttributes.MarkerName a)
          then badRequest "MarkerName is not set on decision."
          else None
      end;
    validateContinueAsNewWorkflowExecutionAttributes := fun attr _ =>
      match attr with
      | None =>
          badRequest
            "ContinueAsNewWorkflowExecutionDecisionAttributes is not set on decision."
      | Some a =>
          if
            match
              ContinueAsNewWorkflowExecutionDecisionAttributes.WorkflowType a
            with
            | Some ty => unset (WorkflowType.Name ty)
            | None => true
            end
          then badRequest "WorkflowType is not set on decision."
          else if
            (TaskList.GetName
               (ContinueAsNewWorkflowExecutionDecisionAttributes.TaskList a)
             =? "")%string
          then badRequest "TaskList is not set on decision."
          else if
            (getInt
               (ContinueAsNewWorkflowExecutionDecisionAttributes.ExecutionStartToCloseTimeoutSeconds a)
             <=? 0) ||
            (getInt
               (ContinueAsNewWorkflowExecutionDecisionAttributes.TaskStartToCloseTimeoutSeconds a)
             <=? 0)
          then badRequest "A valid timeout is not set on decision."
          else if
            negb
              (coherent
                 (ContinueAsNewWorkflowExecutionDecisionAttributes.RetryPolicy
                    a))
          then badRequest "RetryPolicy is not coherent."
          else None
      end;
    validateStartChildExecutionAttributes := fun _ _ attr _ =>
      match attr with
      | None =>
          badRequest
            "StartChildWorkflowExecutionDecisionAttributes is not set on decision."
      | Some a =>
          if unset (StartChildWorkflowExecutionDecisionAttributes.WorkflowId a)
          then badRequest "Required field WorkflowID is not set on decision."
          else if
            match
              StartChildWorkflowExecutionDecisionAttributes.WorkflowType a
            with
            | Some ty => unset (WorkflowType.Name ty)
            | None => true
            end
          then badRequest "Required field WorkflowType is not set on decision."
          else if
            (TaskList.GetName
               (StartChildWorkflowExecutionDecisionAttributes.TaskList a)
             =? "")%string
          then badRequest "Required field TaskList is not set on decision."
          else if
            (getInt
               (StartChildWorkflowExecutionDecisionAttributes.ExecutionStartToCloseTimeoutSeconds a)
             <=? 0) ||
            (getInt
               (StartChildWorkflowExecutionDecisionAttributes.TaskStartToCloseTimeoutSeconds a)
             <=? 0)
          then badRequest "A valid timeout is not set on decision."
          else None
      end;
    validateCancelExternalWorkflowExecutionAttributes := fun _ _ attr =>
      match attr with
      | None =>
          badRequest
            "RequestCancelExternalWorkflowExecutionDecisionAttributes is not set on decision."
      | Some a =>
          if
            unset
              (RequestCancelExternalWorkflowExecutionDecisionAttributes.WorkflowId
                 a)
          then badRequest "WorkflowId is not set on decision."
          else None
      end;
    validateSignalExternalWorkflowExecutionAttributes := fun _ _ attr =>
      match attr with
      | None =>
          badRequest
            "SignalExternalWorkflowExecutionDecisionAttributes is not set on decision."
      | Some a =>
          if
            (WorkflowExecution.GetWorkflowId
               (SignalExternalWorkflowExecutionDecisionAttributes.Execution a)
             =? "")%string
          then badRequest "WorkflowId is not set on decision."
          else None
      end
  |}.

(** Modelled from the spec: the timer builder of section 4.C (its file is
    not at hand), an in-memory set of user timers ordered by fire time. *)
Definition timerBuilder : Type := list TimerInfo.

Fixpoint insertTimer (ti : TimerInfo) (tb : timerBuilder) : timerBuilder :=
  match tb with
  | [] => [ti]
  | x :: rest =>
      if TimerInfo_ExpirySeconds ti <=? TimerInfo_ExpirySeconds x
      then ti :: tb
      else x :: insertTimer ti rest
  end.

#[global] Instance timerBuilderModel : timerBuilderOps timerBuilder state := {|
  AddUserTimer := fun ti _ tb => insertTimer ti tb;
  loadUserTimers := fun ms _ => fold_right insertTimer [] (timerInfos ms)
|}.

(** Modelled from the spec: the domain cache of section 6, a lookup by
    name or by id over the registered domains. *)
Definition newDomainCache (domains : list DomainInfo) : DomainCache :=
  {|
    GetDomain := fun name =>
      match find (fun d => (Name d =? name)%string) domains with
      | Some d => Ok {| GetInfo := d |}
      | None => Error (OtherError "domain does not exist")
      end;
    GetDomainByID := fun id =>
      match find (fun d => (ID d =? id)%string) domains with
      | Some d => Ok {| GetInfo := d |}
      | None => Error (OtherError "domain does not exist")
      end
  |}.

(** *** A workflow to run the handler on *)

Definition uuids (prefix : string) (n : nat) : string :=
  (prefix ++ DecimalString.NilZero.string_of_uint (Nat.to_uint n))%string.

Definition errorText (err : error) : string :=
  match err with
  | BadRequestError m => ("BadRequestError{Message: " ++ m ++ "}")%string
  | InternalServiceError m =>
      ("InternalServiceError{Message: " ++ m ++ "}")%string
  | OtherError m => m
  end.

Definition wholeSeconds (d : Duration) : Z := Z.quot d 1000000000.

Definition ownDomain : DomainInfo := {| ID := "domain-id-1"; Name := "own" |}.
Definition otherDomain : DomainInfo :=
  {| ID := "domain-id-2"; Name := "other" |}.

Definition startAttributes : WorkflowExecutionStartedEventAttributes.t :=
  {| WorkflowExecutionStartedEventAttributes.WorkflowType :=
       Some {| WorkflowType.Name := Some "order" |};
     WorkflowExecutionStartedEventAttributes.ParentWorkflowDomain := None;
     WorkflowExecutionStartedEventAttributes.TaskList :=
       Some {| TaskList.Name := Some "tl" |};
     WorkflowExecutionStartedEventAttributes.Input := [x01];
     WorkflowExecutionStartedEventAttributes.ExecutionStartToCloseTimeoutSeconds :=
       Some 3600;
     WorkflowExecutionStartedEventAttributes.TaskStartToCloseTimeoutSeconds :=
       Some 10;
     WorkflowExecutionStartedEventAttributes.RetryPolicy := None;
     WorkflowExecutionStartedEventAttributes.LastCompletionResult :=
       [x07; x08];
     WorkflowExecutionStartedEventAttributes.CronSchedule := None |}.

Definition started : HistoryEvent.t :=
  {| HistoryEvent.EventId := Some 1;
     HistoryEvent.EventType := Some EventTypeWorkflowExecutionStarted;
     HistoryEvent.Attributes := StartedAttributes startAttributes |}.

(** A running workflow whose decision task completed as event 4: no
    buffered events, no retry policy, no cron schedule. *)
Definition workflow : state :=
  {| executionInfo :=
       {| DomainID := "domain-id-1"; WorkflowID := "wf"; RunID := "run-1";
          ParentDomainID := ""; TaskListName := "tl";
          WorkflowTimeout := 3600; DecisionTimeoutValue := 10 |};
     running := true;
     nextEventID := 5;
     history := [started];
     bufferedEvents := [];
     activityInfos := [];
     timerInfos := [];
     startEvent := Some started;
     cronBackoff := NoBackoff;
     retryBackoff := NoBackoff;
     hasParent := false |}.

Definition signaled : HistoryEvent.t :=
  {| HistoryEvent.EventId := None;
     HistoryEvent.EventType := Some EventTypeWorkflowExecutionSignaled;
     HistoryEvent.Attributes := NoAttributes |}.

Definition timerFired (timerID : string) : HistoryEvent.t :=
  {| HistoryEvent.EventId := None;
     HistoryEvent.EventType := Some EventTypeTimerFired;
     HistoryEvent.Attributes := TimerAttributes timerID |}.

Definition withBuffered (evs : list HistoryEvent.t) (ms : state) : state :=
  update ms (running ms) (nextEventID ms) (history ms) evs
    (activityInfos ms) (timerInfos ms).

Definition withBackoff (cron retry : Duration) (ms : state) : state :=
  {| executionInfo := executionInfo ms;
     running := running ms;
     nextEventID := nextEventID ms;
     history := history ms;
     bufferedEvents := bufferedEvents ms;
     activityInfos := activityInfos ms;
     timerInfos := timerInfos ms;
     startEvent := startEvent ms;
     cronBackoff := cron;
     retryBackoff := retry;
     hasParent := hasParent ms |}.

(** The handler for a decision task on [ms]: blob limits of 4 and 8
    bytes, both domains registered, nothing logged or counted yet. *)
Definition handlerOn (ms : state)
  : decisionTaskHandlerImpl state timerBuilder :=
  newDecisionTaskHandler "decider" 4 0 {| GetInfo := ownDomain |} ms
    (newDecisionAttrValidator (liveTimerIDs ms))
    (newDecisionBlobSizeChecker 4 8)
    [] (fun _ => []) (newDomainCache [ownDomain; otherDomain]) [].

(** One run of the handler on a batch, with the identifiers the
    generator hands out in that run. *)
Definition run (ids : nat -> string) (decisions : list Decision.t)
  (ms : state) : completion * decisionTaskHandlerImpl state timerBuilder :=
  handleDecisions ids errorText wholeSeconds decisions (handlerOn ms).

(** A decision of the given type with no attributes set. *)
Definition bare (ty : DecisionType) : Decision.t :=
  {| Decision.DecisionType := Some ty;
     Decision.ScheduleActivityTaskDecisionAttributes := None;
     Decision.StartTimerDecisionAttributes := None;
     Decision.CompleteWorkflowExecutionDecisionAttributes := None;
     Decision.FailWorkflowExecutionDecisionAttributes := None;
     Decision.RequestCancelActivityTaskDecisionAttributes := None;
     Decision.CancelTimerDecisionAttributes := None;
     Decision.CancelWorkflowExecutionDecisionAttributes := None;
     Decision.RequestCancelExternalWorkflowExecutionDecisionAttributes := None;
     Decision.RecordMarkerDecisionAttributes := None;
     Decision.ContinueAsNewWorkflowExecutionDecisionAttributes := None;
     Decision.StartChildWorkflowExecutionDecisionAttributes := None;
     Decision.SignalExternalWorkflowExecutionDecisionAttributes := None |}.

Definition completeWorkflow (result : bytes) : Decision.t :=
  Decision.Build_t (Some DecisionTypeCompleteWorkflowExecution) None None
    (Some {| CompleteWorkflowExecutionDecisionAttributes.Result := result |})
    None None None None None None None None None.

Definition failWorkflow (reason : string) (details : bytes) : Decision.t :=
  Decision.Build_t (Some DecisionTypeFailWorkflowExecution) None None None
    (Some {| FailWorkflowExecutionDecisionAttributes.Reason := Some reason;
             FailWorkflowExecutionDecisionAttributes.Details := details |})
    None None None None None None None None.

Definition cancelWorkflow (details : bytes) : Decision.t :=
  Decision.Build_t (Some DecisionTypeCancelWorkflowExecution) None None None
    None None None
    (Some {| CancelWorkflowExecutionDecisionAttributes.Details := details |})
    None None None None None.

Definition scheduleActivity (activityID taskList : string) (input : bytes)
  : Decision.t :=
  Decision.Build_t (Some DecisionTypeScheduleActivityTask)
    (Some
       {| ScheduleActivityTaskDecisionAttributes.ActivityId :=
            Some activityID;
          ScheduleActivityTaskDecisionAttributes.ActivityType :=
            Some {| ActivityType.Name := Some "T" |};
          ScheduleActivityTaskDecisionAttributes.Domain := None;
          ScheduleActivityTaskDecisionAttributes.TaskList :=
            Some {| TaskList.Name := Some taskList |};
          ScheduleActivityTaskDecisionAttributes.Input := input;
          ScheduleActivityTaskDecisionAttributes.ScheduleToCloseTimeoutSeconds :=
            Some 60;
          ScheduleActivityTaskDecisionAttributes.ScheduleToStartTimeoutSeconds :=
            Some 10;
          ScheduleActivityTaskDecisionAttributes.StartToCloseTimeoutSeconds :=
            Some 50;
          ScheduleActivityTaskDecisionAttributes.HeartbeatTimeoutSeconds :=
            None |})
    None None None None None None None None None None None.

Definition requestCancelActivity (activityID : string) : Decision.t :=
  Decision.Build_t (Some DecisionTypeRequestCancelActivityTask) None None
    None None
    (Some {| RequestCancelActivityTaskDecisionAttributes.ActivityId :=
               Some activityID |})
    None None None None None None None.

Definition cancelTimer (timerID : string) : Decision.t :=
  Decision.Build_t (Some DecisionTypeCancelTimer) None None None None None
    (Some {| CancelTimerDecisionAttributes.TimerId := Some timerID |})
    None None None None None None.

Definition requestCancelExternal (workflowID : string) : Decision.t :=
  Decision.Build_t (Some DecisionTypeRequestCancelExternalWorkflowExecution)
    None None None None None None None
    (Some
       {| RequestCancelExternalWorkflowExecutionDecisionAttributes.Domain :=
            None;
          RequestCancelExternalWorkflowExecutionDecisionAttributes.WorkflowId :=
            Some workflowID;
          RequestCancelExternalWorkflowExecutionDecisionAttributes.RunId :=
            None;
          RequestCancelExternalWorkflowExecutionDecisionAttributes.Control :=
            [];
          RequestCancelExternalWorkflowExecutionDecisionAttributes.ChildWorkflowOnly :=
            None |})
    None None None None.

(** A cron workflow whose next run is due in a minute, a workflow with a
    retry policy that backs off for a second, and a payload of ten bytes,
    above the error limit of [handlerOn]. *)
Definition cronWorkflow : state := withBackoff 60000000000 NoBackoff workflow.

Definition retryingWorkflow : state :=
  withBackoff NoBackoff 1000000000 workflow.

Definition tenBytes : bytes := List.repeat x01 10.

(** Identifiers that agree with [uuids "a-"] on the first draw only. *)
Definition otherIDs (n : nat) : string :=
  match n with O => "a-0" | S _ => "other" end.

End Ref.

(** ** More decisions and workflows to run the handler on *)

Module Cases.

Definition startTimer (timerID : string) (seconds : Z) : Decision.t :=
  Decision.Build_t (Some DecisionTypeStartTimer) None
    (Some {| StartTimerDecisionAttributes.TimerId := Some timerID;
             StartTimerDecisionAttributes.StartToFireTimeoutSeconds :=
               Some seconds |})
    None None None None None None None None None None.

Definition recordMarker (name : string) (details : bytes) : Decision.t :=
  Decision.Build_t (Some DecisionTypeRecordMarker) None None None None None
    None None None
    (Some {| RecordMarkerDecisionAttributes.MarkerName := Some name;
             RecordMarkerDecisionAttributes.Details := details |})
    None None None.

Definition continueAsNewAttributes (input : bytes)
  : ContinueAsNewWorkflowExecutionDecisionAttributes.t :=
  {| ContinueAsNewWorkflowExecutionDecisionAttributes.WorkflowType :=
       Some {| WorkflowType.Name := Some "order" |};
     ContinueAsNewWorkflowExecutionDecisionAttributes.TaskList :=
       Some {| TaskList.Name := Some "tl" |};
     ContinueAsNewWorkflowExecutionDecisionAttributes.Input := input;
     ContinueAsNewWorkflowExecutionDecisionAttributes.ExecutionStartToCloseTimeoutSeconds :=
       Some 3600;
     ContinueAsNewWorkflowExecutionDecisionAttributes.TaskStartToCloseTimeoutSeconds :=
       Some 10;
     ContinueAsNewWorkflowExecutionDecisionAttributes.BackoffStartIntervalInSeconds :=
       None;
     ContinueAsNewWorkflowExecutionDecisionAttributes.RetryPolicy := None;
     ContinueAsNewWorkflowExecutionDecisionAttributes.Initiator := None;
     ContinueAsNewWorkflowExecutionDecisionAttributes.FailureReason := None;
     ContinueAsNewWorkflowExecutionDecisionAttributes.FailureDetails := [];
     ContinueAsNewWorkflowExecutionDecisionAttributes.LastCompletionResult :=
       [];
     ContinueAsNewWorkflowExecutionDecisionAttributes.CronSchedule := None |}.

Definition continueAsNew (input : bytes) : Decision.t :=
  Decision.Build_t (Some DecisionTypeContinueAsNewWorkflowExecution) None
    None None None None None None None None
    (Some (continueAsNewAttributes input)) None None.

Definition startChildAttributes (domain : option string)
  (workflowID : string) (input : bytes)
  : StartChildWorkflowExecutionDecisionAttributes.t :=
  {| StartChildWorkflowExecutionDecisionAttributes.Domain := domain;
     StartChildWorkflowExecutionDecisionAttributes.WorkflowId :=
       Some workflowID;
     StartChildWorkflowExecutionDecisionAttributes.WorkflowType :=
       Some {| WorkflowType.Name := Some "child" |};
     StartChildWorkflowExecutionDecisionAttributes.TaskList :=
       Some {| TaskList.Name := Some "tl" |};
     StartChildWorkflowExecutionDecisionAttributes.Input := input;
     StartChildWorkflowExecutionDecisionAttributes.ExecutionStartToCloseTimeoutSeconds :=
       Some 60;
     StartChildWorkflowExecutionDecisionAttributes.TaskStartToCloseTimeoutSeconds :=
       Some 10;
     StartChildWorkflowExecutionDecisionAttributes.Control := [] |}.

Definition startChild (domain : option string) (workflowID : string)
  (input : bytes) : Decision.t :=
  Decision.Build_t (Some DecisionTypeStartChildWorkflowExecution) None None
    None None None None None None None None
    (Some (startChildAttributes domain workflowID input)) None.

Definition signalAttributes (domain : option string)
  (workflowID runID : string) (input : bytes)
  : SignalExternalWorkflowExecutionDecisionAttributes.t :=
  {| SignalExternalWorkflowExecutionDecisionAttributes.Domain := domain;
     SignalExternalWorkflowExecutionDecisionAttributes.Execution :=
       Some {| WorkflowExecution.WorkflowId := Some workflowID;
               WorkflowExecution.RunId := Some runID |};
     SignalExternalWorkflowExecutionDecisionAttributes.SignalName :=
       Some "wake";
     SignalExternalWorkflowExecutionDecisionAttributes.Input := input;
     SignalExternalWorkflowExecutionDecisionAttributes.Control := [];
     SignalExternalWorkflowExecutionDecisionAttributes.ChildWorkflowOnly :=
       Some true |}.

Definition signalExternal (domain : option string)
  (workflowID runID : string) (input : bytes) : Decision.t :=
  Decision.Build_t (Some DecisionTypeSignalExternalWorkflowExecution) None
    None None None None None None None None None None
    (Some (signalAttributes domain workflowID runID input)).

Definition requestCancelExternalIn (domain workflowID runID : string)
  : Decision.t :=
  Decision.Build_t (Some DecisionTypeRequestCancelExternalWorkflowExecution)
    None None None None None None None
    (Some
       {| RequestCancelExternalWorkflowExecutionDecisionAttributes.Domain :=
            Some domain;
          RequestCancelExternalWorkflowExecutionDecisionAttributes.WorkflowId :=
            Some workflowID;
          RequestCancelExternalWorkflowExecutionDecisionAttributes.RunId :=
            Some runID;
          RequestCancelExternalWorkflowExecutionDecisionAttributes.Control :=
            [];
          RequestCancelExternalWorkflowExecutionDecisionAttributes.ChildWorkflowOnly :=
            Some true |})
    None None None None.

(** A workflow started by a parent in the other domain. *)
Definition childWorkflow : Ref.state :=
  {| Ref.executionInfo :=
       {| DomainID := "domain-id-1"; WorkflowID := "wf"; RunID := "run-1";
          ParentDomainID := "domain-id-2"; TaskListName := "tl";
          WorkflowTimeout := 3600; DecisionTimeoutValue := 10 |};
     Ref.running := true;
     Ref.nextEventID := 5;
     Ref.history := [Ref.started];
     Ref.bufferedEvents := [];
     Ref.activityInfos := [];
     Ref.timerInfos := [];
     Ref.startEvent := Some Ref.started;
     Ref.cronBackoff := NoBackoff;
     Ref.retryBackoff := NoBackoff;
     Ref.hasParent := true |}.

(** A workflow that has been closed already. *)
Definition closedWorkflow : Ref.state := Ref.stop Ref.workflow.

(** A workflow with a pending timer [t]. *)
Definition timerWorkflow : Ref.state :=
  Ref.update Ref.workflow true 5 [Ref.started] [] []
    [{| TimerInfo_TimerID := "t"; TimerInfo_StartedID := 3;
        TimerInfo_ExpirySeconds := 30 |}].

(** A workflow with a scheduled activity [a] that has not started. *)
Definition activityWorkflow : Ref.state :=
  Ref.update Ref.workflow true 5 [Ref.started] []
    [{| ActivityInfo_ScheduleID := 3; ActivityInfo_StartedID := EmptyEventID;
        ActivityInfo_ActivityID := "a" |}] [].

(** A workflow with a retry policy whose start event cannot be loaded. *)
Definition lostStartWorkflow : Ref.state :=
  {| Ref.executionInfo := Ref.executionInfo Ref.retryingWorkflow;
     Ref.running := true;
     Ref.nextEventID := 5;
     Ref.history := [Ref.started];
     Ref.bufferedEvents := [];
     Ref.activityInfos := [];
     Ref.timerInfos := [];
     Ref.startEvent := None;
     Ref.cronBackoff := NoBackoff;
     Ref.retryBackoff := 1000000000;
     Ref.hasParent := false |}.

(** A validator that is out of order: every method returns the same
    error. *)
Definition failingValidator (err : error) : decisionAttrValidator :=
  {| validateActivityScheduleAttributes := fun _ _ _ _ => Some err;
     validateActivityCancelAttributes := fun _ => Some err;
     validateTimerScheduleAttributes := fun _ => Some err;
     validateTimerCancelAttributes := fun _ => Some err;
     validateCompleteWorkflowExecutionAttributes := fun _ => Some err;
     validateFailWorkflowExecutionAttributes := fun _ => Some err;
     validateCancelWorkflowExecutionAttributes := fun _ => Some err;
     validateRecordMarkerAttributes := fun _ => Some err;
     validateContinueAsNewWorkflowExecutionAttributes := fun _ _ => Some err;
     validateStartChildExecutionAttributes := fun _ _ _ _ => Some err;
     validateCancelExternalWorkflowExecutionAttributes := fun _ _ _ =>
       Some err;
     validateSignalExternalWorkflowExecutionAttributes := fun _ _ _ =>
       Some err |}.

(** The handler of [Ref.handlerOn] with another validator. *)
Definition handlerWith (validator : decisionAttrValidator) (ms : Ref.state)
  : decisionTaskHandlerImpl Ref.state Ref.timerBuilder :=
  newDecisionTaskHandler "decider" 4 0 {| GetInfo := Ref.ownDomain |} ms
    validator (newDecisionBlobSizeChecker 4 8)
    [] (fun _ => []) (Ref.newDomainCache [Ref.ownDomain; Ref.otherDomain])
    [].

End Cases.

(** * Properties of the handler *)

Unset Implicit Arguments.

(** Case analysis on an innermost [match] of the goal, one whose
    scrutinee holds no further [match]. *)
Ltac step :=
  match goal with
  | |- context [match ?x with _ => _ end] =>
      lazymatch x with
      | context [match _ with _ => _ end] => fail
      | _ => destruct x eqn:?
      end
  end.

(** The same in a hypothesis. *)
Ltac step_in H :=
  match type of H with
  | context [match ?x with _ => _ end] =>
      lazymatch x with
      | context [match _ with _ => _ end] => fail
      | _ => destruct x eqn:?
      end
  end.

(** Unfold the clauses of the handler down to the calls of its
    collaborators. *)
Ltac unfold_clauses :=
  unfold handleDecisionScheduleActivity, handleDecisionRequestCancelActivity,
    handleDecisionStartTimer, handleDecisionCompleteWorkflow,
    handleDecisionFailWorkflow, handleDecisionCancelTimer,
    handleDecisionCancelWorkflow,
    handleDecisionRequestCancelExternalWorkflow, handleDecisionRecordMarker,
    handleDecisionContinueAsNewWorkflow, handleDecisionStartChildWorkflow,
    handleDecisionSignalExternalWorkflow, retryCronContinueAsNew,
    validateDecisionAttr, handlerFailDecision, uuidNew, IncCounter,
    WarnMultipleCompletion in *.

(** Rewrite the goal with the equations case analysis has left. *)
Ltac use_equations :=
  repeat match goal with
         | E : ?x = _ |- context [?x] => rewrite E
         end.

(** Take a decision apart into its type and its attribute pointers, one
    case per decision type. *)
Ltac open_decision d :=
  destruct d as [[[]|] ? ? ? ? ? ? ? ? ? ? ? ?];
  unfold isTerminalDecision, drawsRequestID, Decision.GetDecisionType in *;
  simpl in *; try discriminate; try congruence.

(** Take a hypothesis about the prelude of a decision apart into the
    answers of the collaborators that it stands for. *)
Ltac open_prelude Hp :=
  unfold prepared, passesValidation, validationOf, checkedPayload,
    targetDomainID, targetDomainOf, counted, option_map,
    Decision.GetDecisionType in Hp;
  simpl in Hp;
  repeat (step_in Hp; try discriminate Hp; try congruence);
  repeat match goal with
         | E : negb _ = true |- _ => apply negb_true_iff in E
         end.

(** Run the clause in the goal along the answers found. *)
Ltac run_clause :=
  unfold handleDecision, counted, Decision.GetDecisionType; simpl;
  unfold_clauses; simpl;
  repeat (progress (use_equations; simpl)).

(** Run every clause of the handler to its leaves. *)
Ltac all_paths d :=
  open_decision d;
  unfold handleDecision, Decision.GetDecisionType in *; simpl in *;
  unfold_clauses; simpl in *;
  repeat (step; simpl in *).

Section HandlerFacts.
Context {MS TB : Type} `{MutableState MS} `{timerBuilderOps TB MS}.
Variable uuid_New : nat -> string.
Variable errorString : error -> string.
Variable secondsInt32 : Duration -> Z.

Local Abbreviation handlerImpl := (decisionTaskHandlerImpl MS TB).
Local Abbreviation handle :=
  (handleDecision uuid_New errorString secondsInt32).
Local Abbreviation handleAll :=
  (handleDecisions uuid_New errorString secondsInt32).

(** [handlerFailDecision] assigns the four fields of the verdict and
    returns nil. *)
Lemma handlerFailDecision_failedWith (cause : DecisionTaskFailedCause)
  (message : string) (handler : handlerImpl) :
  handlerFailDecision cause message handler =
  (None, failedWith cause message handler).
Proof. reflexivity. Qed.

Lemma validateDecisionAttr_nil (fn : unit -> option error)
  (cause : DecisionTaskFailedCause) (handler : handlerImpl) :
  fn tt = None ->
  validateDecisionAttr errorString fn cause handler = (None, handler).
Proof. intros E. unfold validateDecisionAttr. now rewrite E. Qed.

Lemma validateDecisionAttr_badRequest (fn : unit -> option error)
  (cause : DecisionTaskFailedCause) (handler : handlerImpl) (m : string) :
  fn tt = Some (BadRequestError m) ->
  validateDecisionAttr errorString fn cause handler =
  (None, failedWith cause (errorString (BadRequestError m)) handler).
Proof. intros E. unfold validateDecisionAttr. now rewrite E. Qed.

(** A batch is handled front to back: when a prefix runs through without
    an error and without stopping, the rest is handled from where the
    prefix ended. *)
Lemma handleDecisions_app (pre post : list Decision.t)
  (handler handler1 : handlerImpl) :
  handleAll pre handler = (Returns None, handler1) ->
  stopProcessing handler1 = false ->
  handleAll (pre ++ post) handler = handleAll post handler1.
Proof.
  revert handler.
  induction pre as [|d pre IH]; intros handler Hrun Hgo; simpl in *.
  - now inversion Hrun.
  - destruct (handle d handler) as [c h2].
    destruct c as [[e|]|]; try discriminate.
    destruct (stopProcessing h2) eqn:Hs.
    + inversion Hrun; subst. congruence.
    + now apply IH.
Qed.

(** A terminal decision met while events are unhandled is answered with
    the verdict [UnhandledDecision] and nothing else happens. *)
Lemma terminal_decision_unhandled (d : Decision.t) (handler : handlerImpl) :
  isTerminalDecision d = true ->
  hasUnhandledEventsBeforeDecisions handler = true ->
  handle d handler =
  (Returns None,
   failedWith DecisionTaskFailedCauseUnhandledDecision "" (counted d handler)).
Proof.
  unfold isTerminalDecision, handleDecision, counted.
  intros Hterm Hflag.
  destruct (Decision.GetDecisionType d); try discriminate Hterm;
    unfold_clauses; simpl; rewrite Hflag; reflexivity.
Qed.

(** Only a cancelled timer refreshes the flag of unhandled events. *)
Lemma hasUnhandledEvents_kept (d : Decision.t) (handler : handlerImpl) :
  Decision.GetDecisionType d <> DecisionTypeCancelTimer ->
  hasUnhandledEventsBeforeDecisions (snd (handle d handler)) =
  hasUnhandledEventsBeforeDecisions handler.
Proof.
  unfold handleDecision. intros Hty.
  destruct (Decision.GetDecisionType d); try congruence;
    unfold_clauses; simpl; repeat (step; simpl); congruence.
Qed.

Lemma hasUnhandledEvents_kept_batch (ds : list Decision.t) :
  Forall (fun d => Decision.GetDecisionType d <> DecisionTypeCancelTimer) ds ->
  forall (handler handler' : handlerImpl) (c : completion),
  handleAll ds handler = (c, handler') ->
  hasUnhandledEventsBeforeDecisions handler' =
  hasUnhandledEventsBeforeDecisions handler.
Proof.
  induction 1 as [|d ds Hd _ IH]; intros handler handler' c Hrun;
    simpl in Hrun.
  - now inversion Hrun.
  - pose proof (hasUnhandledEvents_kept d handler Hd) as Hkept.
    destruct (handle d handler) as [c1 h1]. simpl in Hkept.
    destruct c1 as [[e|]|].
    + inversion Hrun; subst. exact Hkept.
    + destruct (stopProcessing h1).
      * inversion Hrun; subst. exact Hkept.
      * rewrite (IH _ _ _ Hrun). exact Hkept.
    + inversion Hrun; subst. exact Hkept.
Qed.

(** A decision whose validator answers with a BadRequest error is
    converted into the fail-decision verdict of its clause. *)
Lemma validation_badRequest (d : Decision.t) (handler : handlerImpl)
  (m : string) (cause : DecisionTaskFailedCause) :
  validationOf d handler = Some (Some (BadRequestError m), cause) ->
  handle d handler =
  (Returns None,
   failedWith cause (errorString (BadRequestError m)) (counted d handler)).
Proof.
  intros Hv.
  open_decision d; open_prelude Hv;
    inversion Hv; subst; clear Hv; run_clause; reflexivity.
Qed.

(** Once the workflow no longer runs, a terminal decision that gets as far
    as the check is skipped: counted as a multiple completion, logged, and
    nothing else. *)
Lemma terminal_decision_skipped (d : Decision.t)
  (handler handler1 : handlerImpl) :
  isTerminalDecision d = true ->
  prepared d handler = Some handler1 ->
  IsWorkflowExecutionRunning (mutableState handler1) = false ->
  handle d handler =
  (Returns None,
   WarnMultipleCompletion (Decision.GetDecisionType d)
     (IncCounter HistoryRespondDecisionTaskCompletedScope
        MultipleCompletionDecisionsCounter handler1)).
Proof.
  intros Hterm Hp Hrun.
  open_decision d; open_prelude Hp;
    inversion Hp; subst; clear Hp; simpl in Hrun;
    run_clause; reflexivity.
Qed.

(** When the blob-size checker asks to fail the workflow, or returns an
    error, the clause sets [stopProcessing] and returns what the checker
    returned; the mutable state is the one the checker left. *)
Lemma blob_check_trips (d : Decision.t) (handler : handlerImpl)
  (payload : bytes) (message : string) (failWorkflow : bool)
  (err : option error) (ms : MS) :
  passesValidation d handler = true ->
  checkedPayload d = Some (payload, message) ->
  failWorkflowIfBlobSizeExceedsLimit (sizeLimitChecker handler) payload
    message (mutableState handler) = ((failWorkflow, err), ms) ->
  negb (isNil err) || failWorkflow = true ->
  handle d handler =
  (Returns err,
   set_stopProcessing true (set_mutableState ms (counted d handler))).
Proof.
  intros Hv Hp Hc Htrip.
  open_decision d; open_prelude Hp; open_prelude Hv;
    inversion Hp; subst; clear Hp;
    run_clause; reflexivity.
Qed.

(** How the clauses resolve the target domain, in terms of
    [targetDomainOf]. *)
Lemma targetDomainOf_Ok (domain : string) (handler : handlerImpl)
  (target : string) (e : error) :
  targetDomainOf domain handler = Some target ->
  (if (domain =? "")%string
   then Ok (DomainID (GetExecutionInfo (mutableState handler)))
   else
     match GetDomain (domainCache handler) domain with
     | Ok entry => Ok (ID (GetInfo entry))
     | Error _ => Error e
     end) = Ok target.
Proof.
  unfold targetDomainOf.
  destruct (domain =? "")%string.
  - now intros [= ->].
  - destruct (GetDomain (domainCache handler) domain); [|discriminate].
    now intros [= ->].
Qed.

(** What the clause of a ScheduleActivity decision does with the answer
    of the state mutator, once the decision is past its checks. *)
Lemma schedule_activity_applied (d : Decision.t)
  (handler handler1 : handlerImpl)
  (a : ScheduleActivityTaskDecisionAttributes.t) (target : string) :
  Decision.GetDecisionType d = DecisionTypeScheduleActivityTask ->
  Decision.ScheduleActivityTaskDecisionAttributes d = Some a ->
  targetDomainID d handler = Some target ->
  prepared d handler = Some handler1 ->
  match
    AddActivityTaskScheduledEvent (decisionTaskCompletedID handler1) (Some a)
      (mutableState handler1)
  with
  | (Ok (scheduleEvent, _), ms) =>
      handle d handler =
      (Returns None,
       set_transferTasks
         (transferTasks handler ++
          [ActivityTask target
             (TaskList.GetName
                (ScheduleActivityTaskDecisionAttributes.TaskList a))
             (HistoryEvent.GetEventId scheduleEvent)])
         (set_mutableState ms handler1))
  | (Error (BadRequestError _), ms) =>
      handle d handler =
      (Returns None,
       failedWith DecisionTaskFailedCauseScheduleActivityDuplicateID ""
         (set_mutableState ms handler1)) /\
      transferTasks (set_mutableState ms handler1) = transferTasks handler
  | (Error err, ms) =>
      handle d handler = (Returns (Some err), set_mutableState ms handler1)
  end.
Proof.
  intros Hty Ha Ht Hp.
  unfold prepared, passesValidation, validationOf, checkedPayload in Hp.
  unfold handleDecision, counted in *.
  rewrite Hty in *. rewrite Ha in *. rewrite Ht in Hp.
  unfold targetDomainID in Ht. rewrite Hty, Ha in Ht.
  destruct (validateActivityScheduleAttributes _ _ _ _ _) eqn:Hval;
    [discriminate Hp|].
  destruct (stopProcessing handler) eqn:Hstop; [discriminate Hp|].
  simpl in Hp.
  destruct (failWorkflowIfBlobSizeExceedsLimit _ _ _ _)
    as [[[|] [err|]] ms1] eqn:Hc; try discriminate Hp.
  injection Hp as <-. simpl.
  unfold handleDecisionScheduleActivity, validateDecisionAttr, IncCounter.
  simpl.
  rewrite (targetDomainOf_Ok _ _ _ _ Ht).
  rewrite Hval. simpl. rewrite Hstop. simpl. rewrite Hc. simpl.
  destruct (AddActivityTaskScheduledEvent _ _ _) as [[[ev ai]|[]] ms2];
    simpl; try split; reflexivity.
Qed.

(** C4.  A ScheduleActivity decision that reaches the state mutator: when
    [AddActivityTaskScheduledEvent] succeeds, exactly one task is appended
    to the transfer tasks, an [ActivityTask] whose [DomainID] is the
    resolved target domain, whose [TaskList] is the name of the task list
    in the attributes and whose [ScheduleID] is the id of the event the
    mutator returned; when the mutator answers with a BadRequest error the
    decision fails with cause [ScheduleActivityDuplicateID] and no task is
    appended. *)
Theorem schedule_activity_emits_one_transfer_task (d : Decision.t)
  (handler handler1 : handlerImpl)
  (a : ScheduleActivityTaskDecisionAttributes.t) (target : string) :
  Decision.GetDecisionType d = DecisionTypeScheduleActivityTask ->
  Decision.ScheduleActivityTaskDecisionAttributes d = Some a ->
  targetDomainID d handler = Some target ->
  prepared d handler = Some handler1 ->
  (forall (scheduleEvent : HistoryEvent.t) (ai : ActivityInfo) (ms : MS),
     AddActivityTaskScheduledEvent (decisionTaskCompletedID handler1)
       (Some a) (mutableState handler1) = (Ok (scheduleEvent, ai), ms) ->
     exists handler',
       handle d handler = (Returns None, handler') /\
       transferTasks handler' =
         transferTasks handler ++
         [ActivityTask target
            (TaskList.GetName
               (ScheduleActivityTaskDecisionAttributes.TaskList a))
            (HistoryEvent.GetEventId scheduleEvent)] /\
       mutableState handler' = ms /\
       failDecision handler' = failDecision handler1) /\
  (forall (m : string) (ms : MS),
     AddActivityTaskScheduledEvent (decisionTaskCompletedID handler1)
       (Some a) (mutableState handler1) = (Error (BadRequestError m), ms) ->
     exists handler',
       handle d handler = (Returns None, handler') /\
       failDecision handler' = true /\
       failDecisionCause handler' =
         Some DecisionTaskFailedCauseScheduleActivityDuplicateID /\
       stopProcessing handler' = true /\
       transferTasks handler' = transferTasks handler).
Proof.
  intros Hty Ha Ht Hp.
  pose proof (schedule_activity_applied d handler handler1 a target
                Hty Ha Ht Hp) as Happ.
  split.
  - intros scheduleEvent ai ms Hadd. rewrite Hadd in Happ.
    eexists. split; [exact Happ|]. simpl. repeat split; reflexivity.
  - intros m ms Hadd. rewrite Hadd in Happ. destruct Happ as [Happ Htasks].
    eexists. split; [exact Happ|]. simpl. repeat split; try reflexivity.
    exact Htasks.
Qed.

(** What the clause of a FailWorkflow decision does once it is past its
    checks and the workflow runs. *)
Lemma fail_workflow_applied (d : Decision.t) (handler handler1 : handlerImpl)
  (a : FailWorkflowExecutionDecisionAttributes.t) :
  Decision.GetDecisionType d = DecisionTypeFailWorkflowExecution ->
  Decision.FailWorkflowExecutionDecisionAttributes d = Some a ->
  prepared d handler = Some handler1 ->
  IsWorkflowExecutionRunning (mutableState handler1) = true ->
  handle d handler =
  (let retry :=
     GetRetryBackoffDuration
       (getString (FailWorkflowExecutionDecisionAttributes.Reason a))
       (mutableState handler1) in
   let '(backoffInterval, continueAsNewInitiator) :=
     if retry =? NoBackoff
     then (GetCronBackoffDuration (mutableState handler1),
           ContinueAsNewInitiatorCronSchedule)
     else (retry, ContinueAsNewInitiatorRetryPolicy) in
   if backoffInterval =? NoBackoff
   then
     match
       AddFailWorkflowEvent (decisionTaskCompletedID handler1) (Some a)
         (mutableState handler1)
     with
     | (Ok _, ms) => (Returns None, set_mutableState ms handler1)
     | (Error _, ms) =>
         (Returns
            (Some (InternalServiceError "Unable to add fail workflow event.")),
          set_mutableState ms handler1)
     end
   else
     match GetStartEvent (mutableState handler1) with
     | None =>
         (Returns (Some (InternalServiceError "Failed to load start event.")),
          handler1)
     | Some startEvent =>
         match
           HistoryEvent.WorkflowExecutionStartedEventAttributes startEvent
         with
         | None => (Panics, handler1)
         | Some sa =>
             retryCronContinueAsNew (Some sa) (secondsInt32 backoffInterval)
               (Some continueAsNewInitiator)
               (FailWorkflowExecutionDecisionAttributes.Reason a)
               (FailWorkflowExecutionDecisionAttributes.Details a)
               (WorkflowExecutionStartedEventAttributes.LastCompletionResult
                  sa)
               handler1
         end
     end).
Proof.
  intros Hty Ha Hp Hrun.
  unfold prepared, passesValidation, validationOf, checkedPayload in Hp.
  unfold handleDecision, counted in *.
  rewrite Hty in *. rewrite Ha in *.
  destruct (hasUnhandledEventsBeforeDecisions handler) eqn:Hflag;
    [discriminate Hp|].
  destruct (validateFailWorkflowExecutionAttributes _ _) eqn:Hval;
    [discriminate Hp|].
  destruct (stopProcessing handler) eqn:Hstop; [discriminate Hp|].
  simpl in Hp.
  destruct (failWorkflowIfBlobSizeExceedsLimit _ _ _ _)
    as [[[|] [err|]] ms1] eqn:Hc; try discriminate Hp.
  injection Hp as <-. simpl in *.
  unfold handleDecisionFailWorkflow, validateDecisionAttr, IncCounter.
  simpl.
  rewrite Hflag, Hval. simpl. rewrite Hstop. simpl. rewrite Hc. simpl.
  rewrite Hrun. simpl.
  destruct (GetRetryBackoffDuration _ ms1 =? NoBackoff); simpl.
  - destruct (GetCronBackoffDuration ms1 =? NoBackoff); simpl.
    + destruct (AddFailWorkflowEvent _ _ _) as [[ev|e] ms2]; reflexivity.
    + destruct (GetStartEvent ms1) as [startEvent|]; [|reflexivity].
      destruct (HistoryEvent.WorkflowExecutionStartedEventAttributes _);
        reflexivity.
  - destruct (GetRetryBackoffDuration _ ms1 =? NoBackoff) eqn:E; simpl.
    + destruct (AddFailWorkflowEvent _ _ _) as [[ev|e] ms2]; reflexivity.
    + destruct (GetStartEvent ms1) as [startEvent|]; [|reflexivity].
      destruct (HistoryEvent.WorkflowExecutionStartedEventAttributes _);
        reflexivity.
Qed.

(** [retryCronContinueAsNew] hands [AddContinueAsNewEvent] attributes
    inherited from the start event, with the backoff, the initiator, the
    failure and the last completion result it was given. *)
Lemma retryCronContinueAsNew_attributes
  (sa : WorkflowExecutionStartedEventAttributes.t) (backoff : Z)
  (initiator : option ContinueAsNewInitiator) (reason : option string)
  (details last : bytes) (handler : handlerImpl) :
  retryCronContinueAsNew (Some sa) backoff initiator reason details last
    handler =
  continuedAsNew
    (WorkflowExecutionStartedEventAttributes.GetParentWorkflowDomain sa)
    {|
      ContinueAsNewWorkflowExecutionDecisionAttributes.WorkflowType :=
        WorkflowExecutionStartedEventAttributes.WorkflowType sa;
      ContinueAsNewWorkflowExecutionDecisionAttributes.TaskList :=
        WorkflowExecutionStartedEventAttributes.TaskList sa;
      ContinueAsNewWorkflowExecutionDecisionAttributes.Input :=
        WorkflowExecutionStartedEventAttributes.Input sa;
      ContinueAsNewWorkflowExecutionDecisionAttributes.ExecutionStartToCloseTimeoutSeconds :=
        WorkflowExecutionStartedEventAttributes.ExecutionStartToCloseTimeoutSeconds sa;
      ContinueAsNewWorkflowExecutionDecisionAttributes.TaskStartToCloseTimeoutSeconds :=
        WorkflowExecutionStartedEventAttributes.TaskStartToCloseTimeoutSeconds sa;
      ContinueAsNewWorkflowExecutionDecisionAttributes.BackoffStartIntervalInSeconds :=
        Some backoff;
      ContinueAsNewWorkflowExecutionDecisionAttributes.RetryPolicy :=
        WorkflowExecutionStartedEventAttributes.RetryPolicy sa;
      ContinueAsNewWorkflowExecutionDecisionAttributes.Initiator := initiator;
      ContinueAsNewWorkflowExecutionDecisionAttributes.FailureReason := reason;
      ContinueAsNewWorkflowExecutionDecisionAttributes.FailureDetails :=
        details;
      ContinueAsNewWorkflowExecutionDecisionAttributes.LastCompletionResult :=
        last;
      ContinueAsNewWorkflowExecutionDecisionAttributes.CronSchedule :=
        WorkflowExecutionStartedEventAttributes.CronSchedule sa
    |}
    handler.
Proof.
  unfold retryCronContinueAsNew, continuedAsNew.
  destruct (AddContinueAsNewEvent _ _ _ _ _ _ _) as [[[ev builder]|e] ms];
    reflexivity.
Qed.

(** Getting a decision past its checks changes the metrics and, through
    the blob-size check, the mutable state; the verdict so far and the
    continue-as-new builder are kept. *)
Lemma prepared_keeps (d : Decision.t) (handler handler1 : handlerImpl) :
  prepared d handler = Some handler1 ->
  continueAsNewBuilder handler1 = continueAsNewBuilder handler /\
  failDecision handler1 = failDecision handler /\
  failDecisionCause handler1 = failDecisionCause handler /\
  failMessage handler1 = failMessage handler /\
  stopProcessing handler1 = false /\
  stopProcessing handler = false /\
  transferTasks handler1 = transferTasks handler /\
  hasUnhandledEventsBeforeDecisions handler1 =
    hasUnhandledEventsBeforeDecisions handler.
Proof.
  intros Hp.
  open_decision d; open_prelude Hp; inversion Hp; subst; clear Hp; simpl;
    repeat split; congruence.
Qed.

(** C5 (as amended).  A FailWorkflow decision that is past its checks, on
    a running workflow: the retry backoff for the decision's reason
    decides first, and the cron backoff is consulted only when the retry
    backoff is [NoBackoff].  When both are [NoBackoff] the handler adds
    the workflow-failed event; the start event plays no part.  Otherwise
    the handler loads the start event of the run.  When it can be loaded,
    the run continues as new, with initiator [RetryPolicy] when the retry
    backoff applied and [CronSchedule] when the cron backoff applied: the
    attributes handed to the mutator carry the chosen backoff and
    initiator and the reason and details of the decision, and when the
    mutator succeeds the builder it returns becomes the verdict.  When
    the start event cannot be loaded, the handler returns an internal
    service error and there is no continue-as-new verdict. *)
Theorem fail_workflow_retry_then_cron (d : Decision.t)
  (handler handler1 : handlerImpl)
  (a : FailWorkflowExecutionDecisionAttributes.t) :
  Decision.GetDecisionType d = DecisionTypeFailWorkflowExecution ->
  Decision.FailWorkflowExecutionDecisionAttributes d = Some a ->
  prepared d handler = Some handler1 ->
  IsWorkflowExecutionRunning (mutableState handler1) = true ->
  let retry :=
    GetRetryBackoffDuration
      (getString (FailWorkflowExecutionDecisionAttributes.Reason a))
      (mutableState handler1) in
  let cron := GetCronBackoffDuration (mutableState handler1) in
  let continuesAsNew sa backoff initiator :=
    exists attrs,
      handle d handler =
      continuedAsNew
        (WorkflowExecutionStartedEventAttributes.GetParentWorkflowDomain sa)
        attrs handler1 /\
      ContinueAsNewWorkflowExecutionDecisionAttributes.Initiator attrs =
        Some initiator /\
      ContinueAsNewWorkflowExecutionDecisionAttributes.BackoffStartIntervalInSeconds
        attrs = Some (secondsInt32 backoff) /\
      ContinueAsNewWorkflowExecutionDecisionAttributes.FailureReason attrs =
        FailWorkflowExecutionDecisionAttributes.Reason a /\
      ContinueAsNewWorkflowExecutionDecisionAttributes.FailureDetails attrs =
        FailWorkflowExecutionDecisionAttributes.Details a /\
      (forall (ev : HistoryEvent.t) (builder ms : MS),
         AddContinueAsNewEvent
           (decisionTaskCompletedID handler1)
           (decisionTaskCompletedID handler1) (domainEntry handler1)
           (WorkflowExecutionStartedEventAttributes.GetParentWorkflowDomain
              sa)
           (Some attrs) (eventStoreVersion handler1)
           (mutableState handler1) = (Ok (ev, builder), ms) ->
         fst (handle d handler) = Returns None /\
         continueAsNewBuilder (snd (handle d handler)) = Some builder /\
         mutableState (snd (handle d handler)) = ms) in
  (retry = NoBackoff -> cron = NoBackoff ->
   handle d handler =
   match
     AddFailWorkflowEvent (decisionTaskCompletedID handler1) (Some a)
       (mutableState handler1)
   with
   | (Ok _, ms) => (Returns None, set_mutableState ms handler1)
   | (Error _, ms) =>
       (Returns
          (Some (InternalServiceError "Unable to add fail workflow event.")),
        set_mutableState ms handler1)
   end) /\
  (forall (startEvent : HistoryEvent.t)
          (sa : WorkflowExecutionStartedEventAttributes.t),
     GetStartEvent (mutableState handler1) = Some startEvent ->
     HistoryEvent.WorkflowExecutionStartedEventAttributes startEvent =
       Some sa ->
     (retry <> NoBackoff ->
      continuesAsNew sa retry ContinueAsNewInitiatorRetryPolicy) /\
     (retry = NoBackoff -> cron <> NoBackoff ->
      continuesAsNew sa cron ContinueAsNewInitiatorCronSchedule)) /\
  (retry <> NoBackoff \/ cron <> NoBackoff ->
   GetStartEvent (mutableState handler1) = None ->
   handle d handler =
     (Returns (Some (InternalServiceError "Failed to load start event.")),
      handler1) /\
   continueAsNewBuilder handler1 = continueAsNewBuilder handler).
Proof.
  intros Hty Ha Hp Hrun retry cron continuesAsNew.
  pose proof (fail_workflow_applied d handler handler1 a Hty Ha Hp Hrun)
    as Happ.
  subst continuesAsNew retry cron. cbv zeta in Happ. cbv beta zeta.
  split; [|split].
  - intros Hretry Hcron. apply Z.eqb_eq in Hretry. apply Z.eqb_eq in Hcron.
    rewrite Hretry in Happ. rewrite Hcron in Happ.
    exact Happ.
  - intros startEvent sa Hstart Hsa. rewrite Hstart, Hsa in Happ. split.
    + intros Hretry. apply Z.eqb_neq in Hretry.
      rewrite Hretry in Happ. rewrite Hretry in Happ.
      rewrite retryCronContinueAsNew_attributes in Happ.
      eexists. split; [exact Happ|]. simpl.
      split; [reflexivity|]. split; [reflexivity|].
      split; [reflexivity|]. split; [reflexivity|].
      intros ev builder ms Hadd. rewrite Happ. unfold continuedAsNew.
      simpl. rewrite Hadd. simpl. auto.
    + intros Hretry Hcron. apply Z.eqb_eq in Hretry.
      apply Z.eqb_neq in Hcron.
      rewrite Hretry in Happ. rewrite Hcron in Happ.
      rewrite retryCronContinueAsNew_attributes in Happ.
      eexists. split; [exact Happ|]. simpl.
      split; [reflexivity|]. split; [reflexivity|].
      split; [reflexivity|]. split; [reflexivity|].
      intros ev builder ms Hadd. rewrite Happ. unfold continuedAsNew.
      simpl. rewrite Hadd. simpl. auto.
  - intros Hpath Hstart. rewrite Hstart in Happ.
    split; [|exact (proj1 (prepared_keeps d handler handler1 Hp))].
    rewrite Happ.
    destruct (GetRetryBackoffDuration _ _ =? NoBackoff) eqn:Hretry.
    + destruct (GetCronBackoffDuration _ =? NoBackoff) eqn:Hcron;
        [|reflexivity].
      apply Z.eqb_eq in Hretry. apply Z.eqb_eq in Hcron.
      destruct Hpath; congruence.
    + rewrite Hretry. reflexivity.
Qed.

(** C10.  When a FailWorkflow decision continues the run as new on the
    retry or cron path, the attributes handed to [AddContinueAsNewEvent]
    take [LastCompletionResult] from the start event of the run,
    [FailureReason] and [FailureDetails] from the decision, and workflow
    type, task list, retry policy, input, the two timeouts and the cron
    schedule from the start event. *)
Theorem fail_workflow_continue_as_new_attributes (d : Decision.t)
  (handler handler1 : handlerImpl)
  (a : FailWorkflowExecutionDecisionAttributes.t)
  (startEvent : HistoryEvent.t)
  (sa : WorkflowExecutionStartedEventAttributes.t) :
  Decision.GetDecisionType d = DecisionTypeFailWorkflowExecution ->
  Decision.FailWorkflowExecutionDecisionAttributes d = Some a ->
  prepared d handler = Some handler1 ->
  IsWorkflowExecutionRunning (mutableState handler1) = true ->
  GetStartEvent (mutableState handler1) = Some startEvent ->
  HistoryEvent.WorkflowExecutionStartedEventAttributes startEvent = Some sa ->
  let retry :=
    GetRetryBackoffDuration
      (getString (FailWorkflowExecutionDecisionAttributes.Reason a))
      (mutableState handler1) in
  let cron := GetCronBackoffDuration (mutableState handler1) in
  retry <> NoBackoff \/ cron <> NoBackoff ->
  handle d handler =
  continuedAsNew
    (WorkflowExecutionStartedEventAttributes.GetParentWorkflowDomain sa)
    {|
      ContinueAsNewWorkflowExecutionDecisionAttributes.WorkflowType :=
        WorkflowExecutionStartedEventAttributes.WorkflowType sa;
      ContinueAsNewWorkflowExecutionDecisionAttributes.TaskList :=
        WorkflowExecutionStartedEventAttributes.TaskList sa;
      ContinueAsNewWorkflowExecutionDecisionAttributes.Input :=
        WorkflowExecutionStartedEventAttributes.Input sa;
      ContinueAsNewWorkflowExecutionDecisionAttributes.ExecutionStartToCloseTimeoutSeconds :=
        WorkflowExecutionStartedEventAttributes.ExecutionStartToCloseTimeoutSeconds sa;
      ContinueAsNewWorkflowExecutionDecisionAttributes.TaskStartToCloseTimeoutSeconds :=
        WorkflowExecutionStartedEventAttributes.TaskStartToCloseTimeoutSeconds sa;
      ContinueAsNewWorkflowExecutionDecisionAttributes.BackoffStartIntervalInSeconds :=
        Some (secondsInt32 (if retry =? NoBackoff then cron else retry));
      ContinueAsNewWorkflowExecutionDecisionAttributes.RetryPolicy :=
        WorkflowExecutionStartedEventAttributes.RetryPolicy sa;
      ContinueAsNewWorkflowExecutionDecisionAttributes.Initiator :=
        Some (if retry =? NoBackoff
              then ContinueAsNewInitiatorCronSchedule
              else ContinueAsNewInitiatorRetryPolicy);
      ContinueAsNewWorkflowExecutionDecisionAttributes.FailureReason :=
        FailWorkflowExecutionDecisionAttributes.Reason a;
      ContinueAsNewWorkflowExecutionDecisionAttributes.FailureDetails :=
        FailWorkflowExecutionDecisionAttributes.Details a;
      ContinueAsNewWorkflowExecutionDecisionAttributes.LastCompletionResult :=
        WorkflowExecutionStartedEventAttributes.LastCompletionResult sa;
      ContinueAsNewWorkflowExecutionDecisionAttributes.CronSchedule :=
        WorkflowExecutionStartedEventAttributes.CronSchedule sa
    |}
    handler1.
Proof.
  intros Hty Ha Hp Hrun Hstart Hsa retry cron Hpath.
  rewrite (fail_workflow_applied d handler handler1 a Hty Ha Hp Hrun).
  subst retry cron. cbv zeta. rewrite Hstart, Hsa.
  destruct (GetRetryBackoffDuration _ _ =? NoBackoff) eqn:Hretry.
  - destruct (GetCronBackoffDuration _ =? NoBackoff) eqn:Hcron.
    + apply Z.eqb_eq in Hretry. apply Z.eqb_eq in Hcron.
      destruct Hpath; congruence.
    + apply retryCronContinueAsNew_attributes.
  - rewrite Hretry. apply retryCronContinueAsNew_attributes.
Qed.

(** The handler never appends to its timer tasks. *)
Lemma timerTasks_kept (d : Decision.t) (handler : handlerImpl) :
  timerTasks (snd (handle d handler)) = timerTasks handler.
Proof. all_paths d; reflexivity. Qed.

(** The collaborators of the handler stay the ones it was built with. *)
Lemma sizeLimitChecker_kept (d : Decision.t) (handler : handlerImpl) :
  sizeLimitChecker (snd (handle d handler)) = sizeLimitChecker handler.
Proof. all_paths d; reflexivity. Qed.

(** A decision that sets the fail-decision verdict stops the batch,
    returns nil and appends no transfer task. *)
Lemma fail_verdict_adds_no_task (d : Decision.t) (handler : handlerImpl) :
  failDecision handler = false ->
  failDecision (snd (handle d handler)) = true ->
  fst (handle d handler) = Returns None /\
  stopProcessing (snd (handle d handler)) = true /\
  transferTasks (snd (handle d handler)) = transferTasks handler.
Proof.
  intros Hno.
  all_paths d; intros Hfail; try congruence; repeat split; reflexivity.
Qed.

(** A clause draws at most one identifier, and only the clauses of the
    three decisions that carry a request id draw one. *)
Lemma uuidsDrawn_step' (ids : nat -> string) (d : Decision.t)
  (handler : handlerImpl) :
  let handler' :=
    snd (handleDecision ids errorString secondsInt32 d handler) in
  uuidsDrawn handler' = uuidsDrawn handler \/
  (drawsRequestID d = true /\ uuidsDrawn handler' = S (uuidsDrawn handler)).
Proof. all_paths d; auto. Qed.

Lemma timerTasks_kept_batch (ds : list Decision.t) :
  forall (handler handler' : handlerImpl) (c : completion),
  handleAll ds handler = (c, handler') ->
  timerTasks handler' = timerTasks handler.
Proof.
  induction ds as [|d ds IH]; intros handler handler' c Hrun; simpl in Hrun.
  - now inversion Hrun.
  - pose proof (timerTasks_kept d handler) as Hkept.
    destruct (handle d handler) as [c1 h1]. simpl in Hkept.
    destruct c1 as [[e|]|]; [| destruct (stopProcessing h1) |];
      try (inversion Hrun; subst; exact Hkept).
    rewrite (IH _ _ _ Hrun). exact Hkept.
Qed.

(** C7 (as amended).  When a batch ends with a fail-decision verdict, the
    timer tasks are as they were at the start of the batch (empty for a
    new handler, which never appends to them), and the decision that
    failed appended no transfer task: the transfer tasks are exactly those
    the decisions before it had accumulated.  Those are not cleared. *)
Theorem fail_verdict_keeps_accumulated_tasks (ds : list Decision.t)
  (handler handler' : handlerImpl) (c : completion) :
  failDecision handler = false ->
  handleAll ds handler = (c, handler') ->
  failDecision handler' = true ->
  timerTasks handler' = timerTasks handler /\
  exists (pre post : list Decision.t) (d : Decision.t)
         (handler1 : handlerImpl),
    ds = pre ++ d :: post /\
    handleAll pre handler = (Returns None, handler1) /\
    failDecision handler1 = false /\
    handle d handler1 = (Returns None, handler') /\
    transferTasks handler' = transferTasks handler1.
Proof.
  intros Hno Hrun Hfail.
  split; [exact (timerTasks_kept_batch ds _ _ _ Hrun)|].
  revert handler Hno Hrun.
  induction ds as [|d ds IH]; intros handler Hno Hrun; simpl in Hrun.
  - inversion Hrun; subst. congruence.
  - pose proof (fail_verdict_adds_no_task d handler Hno) as Hstep.
    destruct (handle d handler) as [c1 h1] eqn:Hd. simpl in Hstep.
    destruct (failDecision h1) eqn:Hf1.
    + destruct (Hstep eq_refl) as [-> [Hstop Htasks]].
      rewrite Hstop in Hrun. inversion Hrun; subst.
      exists [], ds, d, handler. repeat split; auto.
    + destruct c1 as [[e|]|]; try (inversion Hrun; subst; congruence).
      destruct (stopProcessing h1) eqn:Hstop;
        [inversion Hrun; subst; congruence|].
      destruct (IH h1 Hf1 Hrun) as (pre & post & d' & h2 & -> & Hpre & Hrest).
      exists (d :: pre), post, d', h2. repeat split; try apply Hrest.
      simpl. rewrite Hd, Hstop. exact Hpre.
Qed.

(** Two runs of a clause agree when the generator hands both the same
    identifier, and always when the clause draws none. *)
Lemma handleDecision_same_ids (ids1 ids2 : nat -> string) (d : Decision.t)
  (handler : handlerImpl) :
  (drawsRequestID d = true ->
   ids1 (uuidsDrawn handler) = ids2 (uuidsDrawn handler)) ->
  handleDecision ids1 errorString secondsInt32 d handler =
  handleDecision ids2 errorString secondsInt32 d handler.
Proof.
  intros Hids.
  open_decision d; try reflexivity;
    unfold handleDecision, Decision.GetDecisionType; simpl;
    unfold_clauses; simpl;
    repeat (rewrite ?(Hids eq_refl); try reflexivity; step; simpl).
Qed.


(** Once a decision of another type than ScheduleActivity and StartTimer
    is past its checks, nothing its clause does sets the fail-decision
    verdict: whatever the state mutators answer, the three fields of the
    verdict are as they were. *)
Lemma verdict_kept_past_checks (d : Decision.t)
  (handler handler1 : handlerImpl) :
  Decision.GetDecisionType d <> DecisionTypeScheduleActivityTask ->
  Decision.GetDecisionType d <> DecisionTypeStartTimer ->
  prepared d handler = Some handler1 ->
  failDecision (snd (handle d handler)) = failDecision handler /\
  failDecisionCause (snd (handle d handler)) = failDecisionCause handler /\
  failMessage (snd (handle d handler)) = failMessage handler.
Proof.
  intros Hsa Hst Hp.
  open_decision d; open_prelude Hp; inversion Hp; subst; clear Hp;
    run_clause; repeat (step; simpl); simpl in *; try congruence;
    repeat split; reflexivity.
Qed.

(** What the clauses of RequestCancelActivity and CancelTimer do when the
    state mutator answers with a BadRequest error: they record the
    failure as an event and return what that mutator returns. *)
Lemma request_cancel_activity_unknown (d : Decision.t)
  (handler handler1 : handlerImpl) (m : string) (ms : MS) :
  Decision.GetDecisionType d = DecisionTypeRequestCancelActivityTask ->
  prepared d handler = Some handler1 ->
  AddActivityTaskCancelRequestedEvent (decisionTaskCompletedID handler1)
    (RequestCancelActivityTaskDecisionAttributes.GetActivityId
       (Decision.RequestCancelActivityTaskDecisionAttributes d))
    (identity handler1) (mutableState handler1) =
    (Error (BadRequestError m), ms) ->
  handle d handler =
  match
    AddRequestCancelActivityTaskFailedEvent
      (decisionTaskCompletedID handler1)
      (RequestCancelActivityTaskDecisionAttributes.GetActivityId
         (Decision.RequestCancelActivityTaskDecisionAttributes d))
      activityCancellationMsgActivityIDUnknown ms
  with
  | (Ok _, ms') => (Returns None, set_mutableState ms' handler1)
  | (Error err, ms') => (Returns (Some err), set_mutableState ms' handler1)
  end.
Proof.
  intros Hty Hp Hadd.
  unfold prepared, passesValidation, validationOf in Hp.
  unfold handleDecision, counted in *. rewrite Hty in *.
  destruct (validateActivityCancelAttributes _ _) eqn:Hval;
    [discriminate Hp|].
  destruct (stopProcessing handler) eqn:Hstop; [discriminate Hp|].
  simpl in Hp. injection Hp as <-. simpl in *.
  unfold handleDecisionRequestCancelActivity, validateDecisionAttr,
    IncCounter.
  simpl. rewrite Hval. simpl. rewrite Hstop. simpl. rewrite Hadd. simpl.
  destruct (AddRequestCancelActivityTaskFailedEvent _ _ _ _)
    as [[ev|e] ms']; reflexivity.
Qed.

Lemma cancel_timer_unknown (d : Decision.t)
  (handler handler1 : handlerImpl) (m : string) (ms : MS) :
  Decision.GetDecisionType d = DecisionTypeCancelTimer ->
  prepared d handler = Some handler1 ->
  AddTimerCanceledEvent (decisionTaskCompletedID handler1)
    (Decision.CancelTimerDecisionAttributes d) (identity handler1)
    (mutableState handler1) = (Error (BadRequestError m), ms) ->
  handle d handler =
  match
    AddCancelTimerFailedEvent (decisionTaskCompletedID handler1)
      (Decision.CancelTimerDecisionAttributes d) (identity handler1) ms
  with
  | (Ok _, ms') => (Returns None, set_mutableState ms' handler1)
  | (Error err, ms') => (Returns (Some err), set_mutableState ms' handler1)
  end.
Proof.
  intros Hty Hp Hadd.
  unfold prepared, passesValidation, validationOf in Hp.
  unfold handleDecision, counted in *. rewrite Hty in *.
  destruct (validateTimerCancelAttributes _ _) eqn:Hval;
    [discriminate Hp|].
  destruct (stopProcessing handler) eqn:Hstop; [discriminate Hp|].
  simpl in Hp. injection Hp as <-. simpl in *.
  unfold handleDecisionCancelTimer, validateDecisionAttr, IncCounter.
  simpl. rewrite Hval. simpl. rewrite Hstop. simpl. rewrite Hadd. simpl.
  destruct (AddCancelTimerFailedEvent _ _ _ _) as [[ev|e] ms'];
    reflexivity.
Qed.

(** C3 (as amended).  A BadRequest error becomes a fail-decision verdict
    in three places: when the validator of a decision returns it (the
    cause is the one of the clause, the message the text of the error),
    when [AddActivityTaskScheduledEvent] returns it (cause
    [ScheduleActivityDuplicateID]) and when [AddTimerStartedEvent] returns
    it (cause [StartTimerDuplicateID]).  In each the handler returns nil,
    and the verdict assigns exactly four fields, [failDecision],
    [failDecisionCause], [failMessage] and [stopProcessing]: the mutable
    state is the one the failing call left and every other field is
    kept.  Nowhere else: a BadRequest error of the mutator of a
    RequestCancelActivity or CancelTimer decision is answered with a
    cancel-failed event, and the handler returns what the mutator of that
    event returns; for a decision of any type but ScheduleActivity and
    StartTimer that is past its checks, no answer of a state mutator
    changes the verdict; and for a decision of unknown type the handler
    itself returns a BadRequest error to the caller and touches nothing. *)
Theorem bad_request_becomes_fail_decision (d : Decision.t)
  (handler : handlerImpl) :
  (forall (m : string) (cause : DecisionTaskFailedCause),
     validationOf d handler = Some (Some (BadRequestError m), cause) ->
     handle d handler =
     (Returns None,
      failedWith cause (errorString (BadRequestError m))
        (counted d handler))) /\
  (forall (handler1 : handlerImpl) (m : string) (ms : MS),
     Decision.GetDecisionType d = DecisionTypeScheduleActivityTask ->
     prepared d handler = Some handler1 ->
     AddActivityTaskScheduledEvent (decisionTaskCompletedID handler1)
       (Decision.ScheduleActivityTaskDecisionAttributes d)
       (mutableState handler1) = (Error (BadRequestError m), ms) ->
     handle d handler =
     (Returns None,
      failedWith DecisionTaskFailedCauseScheduleActivityDuplicateID ""
        (set_mutableState ms handler1))) /\
  (forall (handler1 : handlerImpl) (m : string) (ms : MS),
     Decision.GetDecisionType d = DecisionTypeStartTimer ->
     prepared d handler = Some handler1 ->
     AddTimerStartedEvent (decisionTaskCompletedID handler1)
       (Decision.StartTimerDecisionAttributes d)
       (mutableState handler1) = (Error (BadRequestError m), ms) ->
     handle d handler =
     (Returns None,
      failedWith DecisionTaskFailedCauseStartTimerDuplicateID ""
        (set_mutableState ms handler1))) /\
  (forall (cause : DecisionTaskFailedCause) (message : string)
          (h : handlerImpl),
     let verdict := failedWith cause message h in
     failDecision verdict = true /\
     failDecisionCause verdict = Some cause /\
     failMessage verdict = Some message /\
     stopProcessing verdict = true /\
     mutableState verdict = mutableState h /\
     transferTasks verdict = transferTasks h /\
     timerTasks verdict = timerTasks h /\
     continueAsNewBuilder verdict = continueAsNewBuilder h /\
     hasUnhandledEventsBeforeDecisions verdict =
       hasUnhandledEventsBeforeDecisions h /\
     timerBuilder verdict = timerBuilder h /\
     activityNotStartedCancelled verdict = activityNotStartedCancelled h /\
     logger verdict = logger h /\
     metricsClient verdict = metricsClient h /\
     uuidsDrawn verdict = uuidsDrawn h) /\
  (forall (handler1 : handlerImpl) (m : string) (ms : MS),
     Decision.GetDecisionType d = DecisionTypeRequestCancelActivityTask ->
     prepared d handler = Some handler1 ->
     AddActivityTaskCancelRequestedEvent (decisionTaskCompletedID handler1)
       (RequestCancelActivityTaskDecisionAttributes.GetActivityId
          (Decision.RequestCancelActivityTaskDecisionAttributes d))
       (identity handler1) (mutableState handler1) =
       (Error (BadRequestError m), ms) ->
     handle d handler =
     match
       AddRequestCancelActivityTaskFailedEvent
         (decisionTaskCompletedID handler1)
         (RequestCancelActivityTaskDecisionAttributes.GetActivityId
            (Decision.RequestCancelActivityTaskDecisionAttributes d))
         activityCancellationMsgActivityIDUnknown ms
     with
     | (Ok _, ms') => (Returns None, set_mutableState ms' handler1)
     | (Error err, ms') =>
         (Returns (Some err), set_mutableState ms' handler1)
     end) /\
  (forall (handler1 : handlerImpl) (m : string) (ms : MS),
     Decision.GetDecisionType d = DecisionTypeCancelTimer ->
     prepared d handler = Some handler1 ->
     AddTimerCanceledEvent (decisionTaskCompletedID handler1)
       (Decision.CancelTimerDecisionAttributes d) (identity handler1)
       (mutableState handler1) = (Error (BadRequestError m), ms) ->
     handle d handler =
     match
       AddCancelTimerFailedEvent (decisionTaskCompletedID handler1)
         (Decision.CancelTimerDecisionAttributes d) (identity handler1) ms
     with
     | (Ok _, ms') => (Returns None, set_mutableState ms' handler1)
     | (Error err, ms') =>
         (Returns (Some err), set_mutableState ms' handler1)
     end) /\
  (forall handler1 : handlerImpl,
     Decision.GetDecisionType d <> DecisionTypeScheduleActivityTask ->
     Decision.GetDecisionType d <> DecisionTypeStartTimer ->
     prepared d handler = Some handler1 ->
     failDecision (snd (handle d handler)) = failDecision handler /\
     failDecisionCause (snd (handle d handler)) =
       failDecisionCause handler /\
     failMessage (snd (handle d handler)) = failMessage handler) /\
  (forall w : Z,
     Decision.GetDecisionType d = DecisionTypeOther w ->
     handle d handler =
     (Returns
        (Some (BadRequestError
                 ("Unknown decision type: " ++
                  DecisionType_String (DecisionTypeOther w))%string)),
      handler)).
Proof.
  split; [|split; [|split; [|split; [|split; [|split; [|split]]]]]].
  - intros m cause. apply validation_badRequest.
  - intros handler1 m ms Hty Hp Hadd.
    destruct (Decision.ScheduleActivityTaskDecisionAttributes d)
      as [a|] eqn:Ha.
    + destruct (targetDomainID d handler) as [target|] eqn:Ht.
      * pose proof (schedule_activity_applied d handler
                      handler1 a target Hty Ha Ht Hp) as Hs.
        rewrite Hadd in Hs. apply Hs.
      * unfold prepared, passesValidation, validationOf in Hp.
        rewrite Hty, Ht in Hp. discriminate Hp.
    + unfold prepared, passesValidation, checkedPayload in Hp.
      rewrite Hty, Ha in Hp. simpl in Hp.
      destruct (validationOf d handler) as [[[e|] c]|]; try discriminate Hp.
      destruct (negb (stopProcessing handler)); discriminate Hp.
  - intros handler1 m ms Hty Hp Hadd.
    unfold prepared, passesValidation, validationOf in Hp.
    unfold handleDecision, counted in *. rewrite Hty in *.
    destruct (validateTimerScheduleAttributes _ _) eqn:Hval;
      [discriminate Hp|].
    destruct (stopProcessing handler) eqn:Hstop; [discriminate Hp|].
    simpl in Hp. injection Hp as <-. simpl in *.
    unfold handleDecisionStartTimer, validateDecisionAttr, IncCounter.
    simpl. rewrite Hval. simpl. rewrite Hstop. simpl. rewrite Hadd.
    reflexivity.
  - intros cause message h. simpl. repeat split; reflexivity.
  - intros handler1 m ms. apply request_cancel_activity_unknown.
  - intros handler1 m ms. apply cancel_timer_unknown.
  - intros handler1. apply verdict_kept_past_checks.
  - intros w Hty. unfold handleDecision. rewrite Hty. reflexivity.
Qed.

(** The multiple-completion counter is not the counter of any decision
    type. *)
Lemma counterValue_app (c : MetricCounter) (m1 m2 : metricsClientState) :
  counterValue c (m1 ++ m2) = (counterValue c m1 + counterValue c m2)%nat.
Proof. unfold counterValue. now rewrite filter_app, length_app. Qed.

Lemma counted_multiple_completions (d : Decision.t) (handler : handlerImpl) :
  counterValue MultipleCompletionDecisionsCounter
    (metricsClient (counted d handler)) =
  counterValue MultipleCompletionDecisionsCounter (metricsClient handler).
Proof.
  unfold counted.
  destruct (decisionCounter (Decision.GetDecisionType d)) as [c|] eqn:E;
    [|reflexivity].
  simpl. rewrite counterValue_app. unfold counterValue at 2. simpl.
  destruct (Decision.GetDecisionType d); simpl in E;
    try discriminate E; injection E as <-; simpl; lia.
Qed.

(** A CancelTimer decision whose mutator succeeds reads the flag of
    unhandled events anew from the mutable state; one whose mutator fails,
    or that does not get as far as the mutator, leaves the flag. *)
Lemma cancel_timer_refreshes_flag (d : Decision.t)
  (handler handler1 : handlerImpl) :
  Decision.GetDecisionType d = DecisionTypeCancelTimer ->
  prepared d handler = Some handler1 ->
  hasUnhandledEventsBeforeDecisions (snd (handle d handler)) =
  match
    AddTimerCanceledEvent (decisionTaskCompletedID handler1)
      (Decision.CancelTimerDecisionAttributes d) (identity handler1)
      (mutableState handler1)
  with
  | (Ok _, ms) => HasBufferedEvents ms
  | (Error _, _) => hasUnhandledEventsBeforeDecisions handler
  end.
Proof.
  intros Hty Hp.
  unfold prepared, passesValidation, validationOf in Hp.
  unfold handleDecision, counted in *. rewrite Hty in *.
  destruct (validateTimerCancelAttributes _ _) eqn:Hval;
    [discriminate Hp|].
  destruct (stopProcessing handler) eqn:Hstop; [discriminate Hp|].
  simpl in Hp. injection Hp as <-. simpl in *.
  unfold handleDecisionCancelTimer, validateDecisionAttr, IncCounter.
  simpl. rewrite Hval. simpl. rewrite Hstop. simpl.
  destruct (AddTimerCanceledEvent _ _ _ _) as [[ev|[m|m|m]] ms]; simpl;
    try reflexivity.
  destruct (AddCancelTimerFailedEvent _ _ _ _) as [[ev'|e] ms'];
    reflexivity.
Qed.

Lemma cancel_timer_not_applied (d : Decision.t) (handler : handlerImpl) :
  Decision.GetDecisionType d = DecisionTypeCancelTimer ->
  prepared d handler = None ->
  hasUnhandledEventsBeforeDecisions (snd (handle d handler)) =
  hasUnhandledEventsBeforeDecisions handler.
Proof.
  intros Hty Hp.
  unfold prepared, passesValidation, validationOf in Hp.
  unfold handleDecision in *. rewrite Hty in *.
  unfold handleDecisionCancelTimer, validateDecisionAttr, IncCounter,
    handlerFailDecision.
  simpl.
  destruct (validateTimerCancelAttributes _ _) as [e|] eqn:Hval; simpl.
  - destruct (isBadRequestError e); reflexivity.
  - destruct (stopProcessing handler) eqn:Hstop; [reflexivity|].
    discriminate Hp.
Qed.

(** While the flag of unhandled events is not set, no clause fails the
    decision with the cause [UnhandledDecision]. *)
Lemma unhandled_cause_needs_flag (d : Decision.t) (handler : handlerImpl) :
  hasUnhandledEventsBeforeDecisions handler = false ->
  failDecisionCause (snd (handle d handler)) =
    Some DecisionTaskFailedCauseUnhandledDecision ->
  failDecisionCause handler = Some DecisionTaskFailedCauseUnhandledDecision.
Proof.
  intros Hflag.
  all_paths d; intros Hcause; congruence.
Qed.

End HandlerFacts.

(** ** The handler on a mutable state that keeps the contract *)

Section HandlerContract.
Context {MS TB : Type} `{MutableState MS} `{timerBuilderOps TB MS}.
Context `{MutableStateHistory MS} {laws : MutableStateLaws}.
Variable uuid_New : nat -> string.
Variable errorString : error -> string.
Variable secondsInt32 : Duration -> Z.

Local Abbreviation handlerImpl := (decisionTaskHandlerImpl MS TB).
Local Abbreviation handle :=
  (handleDecision uuid_New errorString secondsInt32).
Local Abbreviation handleAll :=
  (handleDecisions uuid_New errorString secondsInt32).

Lemma completionEvents_app (a b : list HistoryEvent.t) :
  completionEvents (a ++ b) = (completionEvents a + completionEvents b)%nat.
Proof. unfold completionEvents. now rewrite filter_app, length_app. Qed.

Lemma quietStep_refl (ms : MS) : quietStep ms ms.
Proof.
  split; [|auto]. exists []. split; [|reflexivity].
  unfold appended. now rewrite app_nil_r.
Qed.

Lemma quietStep_trans (ms1 ms2 ms3 : MS) :
  quietStep ms1 ms2 -> quietStep ms2 ms3 -> quietStep ms1 ms3.
Proof.
  intros [(e1 & A1 & C1) R1] [(e2 & A2 & C2) R2]. split; [|auto].
  exists (e1 ++ e2). split.
  - unfold appended in *. now rewrite A2, A1, app_assoc.
  - rewrite completionEvents_app. lia.
Qed.

Lemma decisionStep_quiet (c : completion) (ms ms' : MS) :
  quietStep ms ms' -> decisionStep c ms ms'.
Proof.
  intros [(evs & A & C) R]. exists evs. split; [|split; [|split]].
  - exact A.
  - lia.
  - auto.
  - intros _ C1. lia.
Qed.

(** A closing mutator that succeeds on a running workflow. *)
Lemma decisionStep_closed (c : completion) (ms ms1 ms2 : MS)
  (ev : HistoryEvent.t) (ty : EventType) :
  quietStep ms ms1 ->
  IsWorkflowExecutionRunning ms1 = true ->
  appended ms1 ms2 [ev] /\
  HistoryEvent.EventType ev = Some ty /\
  IsWorkflowExecutionRunning ms2 = false ->
  decisionStep c ms ms2.
Proof.
  intros [(e1 & A1 & C1) R1] Hrun (A2 & _ & Hclosed).
  exists (e1 ++ [ev]). split; [|split; [|split]].
  - unfold appended in *. now rewrite A2, A1, app_assoc.
  - rewrite completionEvents_app. unfold completionEvents at 2. simpl.
    destruct (isCompletionEventType _); simpl; lia.
  - intros Hstopped. rewrite (R1 Hstopped) in Hrun. discriminate.
  - intros _ _. exact Hclosed.
Qed.

(** A closing mutator that fails on a running workflow; the handler then
    returns an error. *)
Lemma decisionStep_failed (e : error) (ms ms1 ms2 : MS) :
  quietStep ms ms1 ->
  IsWorkflowExecutionRunning ms1 = true ->
  (exists evs, appended ms1 ms2 evs /\ (completionEvents evs <= 1)%nat) ->
  decisionStep (Returns (Some e)) ms ms2.
Proof.
  intros [(e1 & A1 & C1) R1] Hrun (e2 & A2 & C2).
  exists (e1 ++ e2). split; [|split; [|split]].
  - unfold appended in *. now rewrite A2, A1, app_assoc.
  - rewrite completionEvents_app. lia.
  - intros Hstopped. rewrite (R1 Hstopped) in Hrun. discriminate.
  - discriminate.
Qed.

(** Collect what the contract says about the calls a path has made. *)
Ltac note law E :=
  let Q := fresh "Q" in
  pose proof law as Q; rewrite E in Q; simpl in Q; clear E.

Ltac law_facts Hchecker :=
  repeat match goal with
  | E : failWorkflowIfBlobSizeExceedsLimit _ ?p ?m ?ms = _ |- _ =>
      note (Hchecker p m ms) E
  | E : AddActivityTaskScheduledEvent ?a ?b ?ms = _ |- _ =>
      note (AddActivityTaskScheduledEvent_quiet a b ms) E
  | E : AddActivityTaskCancelRequestedEvent ?a ?b ?c ?ms = _ |- _ =>
      note (AddActivityTaskCancelRequestedEvent_quiet a b c ms) E
  | E : AddActivityTaskCanceledEvent ?a ?b ?c ?d ?e ?ms = _ |- _ =>
      note (AddActivityTaskCanceledEvent_quiet a b c d e ms) E
  | E : AddRequestCancelActivityTaskFailedEvent ?a ?b ?c ?ms = _ |- _ =>
      note (AddRequestCancelActivityTaskFailedEvent_quiet a b c ms) E
  | E : AddTimerStartedEvent ?a ?b ?ms = _ |- _ =>
      note (AddTimerStartedEvent_quiet a b ms) E
  | E : AddTimerCanceledEvent ?a ?b ?c ?ms = _ |- _ =>
      note (AddTimerCanceledEvent_quiet a b c ms) E
  | E : AddCancelTimerFailedEvent ?a ?b ?c ?ms = _ |- _ =>
      note (AddCancelTimerFailedEvent_quiet a b c ms) E
  | E : AddRecordMarkerEvent ?a ?b ?ms = _ |- _ =>
      note (AddRecordMarkerEvent_quiet a b ms) E
  | E : AddStartChildWorkflowExecutionInitiatedEvent ?a ?b ?c ?ms = _ |- _ =>
      note (AddStartChildWorkflowExecutionInitiatedEvent_quiet a b c ms) E
  | E : AddRequestCancelExternalWorkflowExecutionInitiatedEvent ?a ?b ?c ?ms
        = _ |- _ =>
      note (AddRequestCancelExternalWorkflowExecutionInitiatedEvent_quiet
              a b c ms) E
  | E : AddSignalExternalWorkflowExecutionInitiatedEvent ?a ?b ?c ?ms = _
    |- _ =>
      note (AddSignalExternalWorkflowExecutionInitiatedEvent_quiet a b c ms) E
  | E : AddCompletedWorkflowEvent ?a ?b ?ms = _ |- _ =>
      note (AddCompletedWorkflowEvent_closes a b ms) E
  | E : AddFailWorkflowEvent ?a ?b ?ms = _ |- _ =>
      note (AddFailWorkflowEvent_closes a b ms) E
  | E : AddWorkflowExecutionCanceledEvent ?a ?b ?ms = _ |- _ =>
      note (AddWorkflowExecutionCanceledEvent_closes a b ms) E
  | E : AddContinueAsNewEvent ?a ?b ?c ?d ?e ?f ?ms = _ |- _ =>
      note (AddContinueAsNewEvent_closes a b c d e f ms) E
  | E : negb (IsWorkflowExecutionRunning _) = false |- _ =>
      apply negb_false_iff in E
  end.

(** Handling one decision is a step of the history in the sense of
    [decisionStep]. *)
Lemma handleDecision_step (d : Decision.t) (handler : handlerImpl) :
  quietChecker (sizeLimitChecker handler) ->
  decisionStep (fst (handle d handler)) (mutableState handler)
    (mutableState (snd (handle d handler))).
Proof.
  intros Hchecker. unfold quietChecker in Hchecker.
  all_paths d; law_facts Hchecker;
    eauto 6 using decisionStep_quiet, quietStep_refl, quietStep_trans,
      decisionStep_closed, decisionStep_failed.
Qed.

Lemma decisionStep_then (c : completion) (ms ms1 ms2 : MS) :
  decisionStep (Returns None) ms ms1 ->
  decisionStep c ms1 ms2 ->
  decisionStep c ms ms2.
Proof.
  intros (e1 & A1 & C1 & R1 & S1) (e2 & A2 & C2 & R2 & S2).
  exists (e1 ++ e2). split; [|split; [|split]].
  - unfold appended in *. now rewrite A2, A1, app_assoc.
  - rewrite completionEvents_app.
    destruct (completionEvents e1) as [|[|n]] eqn:E1; try lia.
    destruct (R2 (S1 eq_refl eq_refl)) as [-> _]. lia.
  - intros Hstopped. rewrite completionEvents_app.
    destruct (R1 Hstopped) as [-> Hs1]. destruct (R2 Hs1) as [-> Hs2].
    auto.
  - intros Hc. rewrite completionEvents_app. intros Hone.
    destruct (completionEvents e1) as [|[|n]] eqn:E1; try lia.
    + apply (S2 Hc). lia.
    + apply (R2 (S1 eq_refl eq_refl)).
Qed.

(** Handling a batch is a step of the history as well. *)
Lemma handleDecisions_step (ds : list Decision.t) :
  forall handler : handlerImpl,
  quietChecker (sizeLimitChecker handler) ->
  decisionStep (fst (handleAll ds handler)) (mutableState handler)
    (mutableState (snd (handleAll ds handler))).
Proof.
  induction ds as [|d ds IH]; intros handler Hchecker; simpl.
  - apply decisionStep_quiet, quietStep_refl.
  - pose proof (handleDecision_step d handler Hchecker) as Hd.
    pose proof (sizeLimitChecker_kept uuid_New errorString secondsInt32
                  d handler) as Hkept.
    destruct (handle d handler) as [c h1]. simpl in *.
    destruct c as [[e|]|]; try exact Hd.
    destruct (stopProcessing h1); [exact Hd|].
    apply decisionStep_then with (ms1 := mutableState h1); [exact Hd|].
    apply IH. now rewrite Hkept.
Qed.

(** A decision that is not terminal calls no closing mutator: it is a
    quiet step. *)
Lemma handleDecision_quiet_nonterminal (d : Decision.t)
  (handler : handlerImpl) :
  quietChecker (sizeLimitChecker handler) ->
  isTerminalDecision d = false ->
  quietStep (mutableState handler) (mutableState (snd (handle d handler))).
Proof.
  intros Hchecker Hterm. unfold quietChecker in Hchecker.
  all_paths d; law_facts Hchecker;
    eauto 6 using quietStep_refl, quietStep_trans.
Qed.

Lemma handleDecisions_quiet_nonterminal (ds : list Decision.t) :
  Forall (fun d => isTerminalDecision d = false) ds ->
  forall handler : handlerImpl,
  quietChecker (sizeLimitChecker handler) ->
  quietStep (mutableState handler)
    (mutableState (snd (handleAll ds handler))).
Proof.
  induction 1 as [|d ds Hd _ IH]; intros handler Hchecker; simpl.
  - apply quietStep_refl.
  - pose proof (handleDecision_quiet_nonterminal d handler Hchecker Hd)
      as Hq.
    pose proof (sizeLimitChecker_kept uuid_New errorString secondsInt32
                  d handler) as Hkept.
    destruct (handle d handler) as [c h1]. simpl in *.
    destruct c as [[e|]|]; try exact Hq.
    destruct (stopProcessing h1); [exact Hq|].
    apply quietStep_trans with (ms2 := mutableState h1); [exact Hq|].
    apply IH. now rewrite Hkept.
Qed.

(** C1 (as amended).  A terminal decision is judged by the flag of
    unhandled events as it stands when the decision is reached.  When the
    decisions before it ran through without stopping the batch and the
    flag is set, the terminal decision is answered with the verdict
    [FailDecision(UnhandledDecision)]: the four fields of the verdict are
    set, the handler returns nil, the mutable state is the one the
    earlier decisions left and no continue-as-new builder is stored; when
    it is the first terminal decision of the batch, the events the batch
    has appended hold no completion-type event.  Nothing is assumed about
    retry or cron backoff: a workflow that would continue as new on the
    retry or cron path is rejected alike.  When the flag is not set, the
    terminal decision is not failed for unhandled events.  The flag is
    the one the handler started with as long as no CancelTimer decision
    was among the earlier ones; a CancelTimer decision whose mutator
    succeeds reads it anew from the buffered events of the mutable state,
    and one whose mutator fails, or that does not reach the mutator,
    leaves it.  A handler built by [newDecisionTaskHandler] starts with
    the flag set exactly when the mutable state has buffered events. *)
Theorem unhandled_events_reject_terminal_decision
  (pre post : list Decision.t) (d : Decision.t)
  (handler handler1 : handlerImpl) :
  handleAll pre handler = (Returns None, handler1) ->
  stopProcessing handler1 = false ->
  isTerminalDecision d = true ->
  let verdict :=
    failedWith DecisionTaskFailedCauseUnhandledDecision ""
      (counted d handler1) in
  (hasUnhandledEventsBeforeDecisions handler1 = true ->
   handleAll (pre ++ d :: post) handler = (Returns None, verdict) /\
   failDecision verdict = true /\
   failDecisionCause verdict =
     Some DecisionTaskFailedCauseUnhandledDecision /\
   failMessage verdict = Some ""%string /\
   stopProcessing verdict = true /\
   mutableState verdict = mutableState handler1 /\
   continueAsNewBuilder verdict = continueAsNewBuilder handler1 /\
   transferTasks verdict = transferTasks handler1 /\
   (quietChecker (sizeLimitChecker handler) ->
    Forall (fun x => isTerminalDecision x = false) pre ->
    exists evs,
      GetHistory (mutableState verdict) =
      GetHistory (mutableState handler) ++ evs /\
      completionEvents evs = 0%nat)) /\
  (hasUnhandledEventsBeforeDecisions handler1 = false ->
   handleAll (pre ++ d :: post) handler = handleAll (d :: post) handler1 /\
   (failDecisionCause (snd (handle d handler1)) =
      Some DecisionTaskFailedCauseUnhandledDecision ->
    failDecisionCause handler1 =
      Some DecisionTaskFailedCauseUnhandledDecision)) /\
  (Forall (fun x => Decision.GetDecisionType x <> DecisionTypeCancelTimer)
     pre ->
   hasUnhandledEventsBeforeDecisions handler1 =
   hasUnhandledEventsBeforeDecisions handler) /\
  (forall (d0 : Decision.t) (h : handlerImpl),
     (Decision.GetDecisionType d0 <> DecisionTypeCancelTimer ->
      hasUnhandledEventsBeforeDecisions (snd (handle d0 h)) =
      hasUnhandledEventsBeforeDecisions h) /\
     (Decision.GetDecisionType d0 = DecisionTypeCancelTimer ->
      prepared d0 h = None ->
      hasUnhandledEventsBeforeDecisions (snd (handle d0 h)) =
      hasUnhandledEventsBeforeDecisions h) /\
     (forall h1 : handlerImpl,
        Decision.GetDecisionType d0 = DecisionTypeCancelTimer ->
        prepared d0 h = Some h1 ->
        hasUnhandledEventsBeforeDecisions (snd (handle d0 h)) =
        match
          AddTimerCanceledEvent (decisionTaskCompletedID h1)
            (Decision.CancelTimerDecisionAttributes d0) (identity h1)
            (mutableState h1)
        with
        | (Ok _, ms) => HasBufferedEvents ms
        | (Error _, _) => hasUnhandledEventsBeforeDecisions h
        end)) /\
  (forall (identity : string)
          (decisionTaskCompletedID eventStoreVersion : Z)
          (domainEntry : DomainCacheEntry) (mutableState0 : MS)
          (attrValidator : decisionAttrValidator)
          (sizeLimitChecker : decisionBlobSizeChecker MS)
          (logger : list logLine) (timerBuilderProvider : unit -> TB)
          (domainCache : DomainCache) (metricsClient : metricsClientState),
     hasUnhandledEventsBeforeDecisions
       (newDecisionTaskHandler identity decisionTaskCompletedID
          eventStoreVersion domainEntry mutableState0 attrValidator
          sizeLimitChecker logger timerBuilderProvider domainCache
          metricsClient) =
     HasBufferedEvents mutableState0).
Proof.
  intros Hrun Hgo Hterm verdict.
  pose proof (handleDecisions_app uuid_New errorString secondsInt32
                pre (d :: post) handler handler1 Hrun Hgo) as Happ.
  split; [|split; [|split; [|split; [|reflexivity]]]].
  - intros Hflag.
    split.
    { rewrite Happ. simpl.
      rewrite (terminal_decision_unhandled uuid_New errorString
                 secondsInt32 d handler1 Hterm Hflag).
      reflexivity. }
    assert (Hfields :
      failDecision verdict = true /\
      failDecisionCause verdict =
        Some DecisionTaskFailedCauseUnhandledDecision /\
      failMessage verdict = Some ""%string /\
      stopProcessing verdict = true /\
      mutableState verdict = mutableState handler1 /\
      continueAsNewBuilder verdict = continueAsNewBuilder handler1 /\
      transferTasks verdict = transferTasks handler1).
    { unfold verdict, counted.
      destruct (decisionCounter (Decision.GetDecisionType d)); simpl;
        repeat split; reflexivity. }
    destruct Hfields as (F1 & F2 & F3 & F4 & F5 & F6 & F7).
    repeat (split; [assumption|]).
    intros Hchecker Hpre.
    pose proof (handleDecisions_quiet_nonterminal pre Hpre handler
                  Hchecker) as [Hq _].
    rewrite Hrun in Hq. simpl in Hq. rewrite F5. exact Hq.
  - intros Hflag. split; [exact Happ|].
    apply (unhandled_cause_needs_flag uuid_New errorString secondsInt32
             d handler1 Hflag).
  - intros Hpre.
    exact (hasUnhandledEvents_kept_batch uuid_New errorString secondsInt32
             pre Hpre handler handler1 (Returns None) Hrun).
  - intros d0 h. split; [|split].
    + apply (hasUnhandledEvents_kept uuid_New errorString secondsInt32).
    + apply (cancel_timer_not_applied uuid_New errorString secondsInt32).
    + intros h1.
      apply (cancel_timer_refreshes_flag uuid_New errorString secondsInt32).
Qed.

Lemma counterValue_incremented (c : MetricCounter) (scope : MetricScope)
  (m : metricsClientState) :
  counterValue c (m ++ [(scope, c)]) = S (counterValue c m).
Proof.
  unfold counterValue. rewrite filter_app, length_app. simpl.
  destruct c; simpl; lia.
Qed.

(** What the contract says about the closing mutator a path has called. *)
Ltac closing_facts :=
  repeat match goal with
  | E : AddCompletedWorkflowEvent ?a ?b ?ms = _ |- _ =>
      note (AddCompletedWorkflowEvent_closes a b ms) E
  | E : AddFailWorkflowEvent ?a ?b ?ms = _ |- _ =>
      note (AddFailWorkflowEvent_closes a b ms) E
  | E : AddWorkflowExecutionCanceledEvent ?a ?b ?ms = _ |- _ =>
      note (AddWorkflowExecutionCanceledEvent_closes a b ms) E
  | E : AddContinueAsNewEvent ?a ?b ?c ?d ?e ?f ?ms = _ |- _ =>
      note (AddContinueAsNewEvent_closes a b c d e f ms) E
  end.

(** A terminal decision that is past its checks while the workflow runs
    and that the handler answers with nil has been honored: its clause
    has appended one event, of completion type, and the workflow runs no
    more. *)
Lemma terminal_decision_honored (d : Decision.t)
  (handler handler1 : handlerImpl) :
  isTerminalDecision d = true ->
  prepared d handler = Some handler1 ->
  IsWorkflowExecutionRunning (mutableState handler1) = true ->
  fst (handle d handler) = Returns None ->
  exists ev : HistoryEvent.t,
    GetHistory (mutableState (snd (handle d handler))) =
      GetHistory (mutableState handler1) ++ [ev] /\
    isCompletionEventType (HistoryEvent.EventType ev) = true /\
    IsWorkflowExecutionRunning (mutableState (snd (handle d handler))) =
      false.
Proof.
  intros Hterm Hp Hrun.
  unfold prepared, passesValidation, validationOf, checkedPayload, counted,
    option_map in Hp.
  all_paths d; repeat (step_in Hp; simpl in Hp); try discriminate Hp;
    try (injection Hp as <-); simpl in *;
    intros Hnil; try discriminate Hnil; try congruence;
    try (rewrite Hrun in *; discriminate); closing_facts;
    match goal with
    | Q : appended _ _ [?ev] /\ _ = Some _ /\ _ = false |- _ =>
        destruct Q as (A & T & C); exists ev;
        split; [exact A|]; split; [rewrite T; reflexivity | exact C]
    end.
Qed.

(** The blob-size checker of a handler is the one it was built with,
    whatever the batch. *)
Lemma sizeLimitChecker_kept_batch (ds : list Decision.t) :
  forall handler : handlerImpl,
  sizeLimitChecker (snd (handleAll ds handler)) = sizeLimitChecker handler.
Proof.
  induction ds as [|d ds IH]; intros handler; simpl; [reflexivity|].
  pose proof (sizeLimitChecker_kept uuid_New errorString secondsInt32
                d handler) as Hkept.
  destruct (handle d handler) as [c h1]. simpl in *.
  destruct c as [[e|]|]; simpl; try exact Hkept.
  destruct (stopProcessing h1); simpl; [exact Hkept|].
  now rewrite IH.
Qed.

(** Getting a decision past its checks counts it and nothing else in the
    metrics. *)
Lemma prepared_metrics (d : Decision.t) (handler handler1 : handlerImpl) :
  prepared d handler = Some handler1 ->
  metricsClient handler1 = metricsClient (counted d handler).
Proof.
  intros Hp.
  open_decision d; open_prelude Hp; inversion Hp; subst; clear Hp;
    unfold counted; simpl; reflexivity.
Qed.

(** The checks of a decision append no completion-type event: the only
    one of them that touches the mutable state is the blob-size check. *)
Lemma prepared_quiet (d : Decision.t) (handler handler1 : handlerImpl) :
  quietChecker (sizeLimitChecker handler) ->
  prepared d handler = Some handler1 ->
  quietStep (mutableState handler) (mutableState handler1).
Proof.
  intros Hchecker Hp. unfold quietChecker in Hchecker.
  open_decision d; open_prelude Hp; inversion Hp; subst; clear Hp; simpl;
    law_facts Hchecker; auto using quietStep_refl.
Qed.

(** With the blob-size checker of the spec, a decision that is past its
    checks has left the mutable state as it was. *)
Lemma prepared_state_kept (d : Decision.t) (handler handler1 : handlerImpl)
  (sizeLimitWarn sizeLimitError : Z) :
  sizeLimitChecker handler =
    newDecisionBlobSizeChecker sizeLimitWarn sizeLimitError ->
  prepared d handler = Some handler1 ->
  mutableState handler1 = mutableState handler.
Proof.
  intros Hc Hp.
  unfold prepared, counted, checkedPayload, option_map in Hp.
  rewrite Hc in Hp.
  open_decision d;
    repeat (step_in Hp; simpl in Hp; try discriminate Hp);
    inversion Hp; subst; reflexivity.
Qed.

Lemma completionEvents_one (ev : HistoryEvent.t) :
  isCompletionEventType (HistoryEvent.EventType ev) = true ->
  completionEvents [ev] = 1%nat.
Proof. intros E. unfold completionEvents. simpl. now rewrite E. Qed.

(** C6 (as amended).  Of the events a batch appends at most one is of
    completion type (completed, failed, canceled, continued as new), and
    none is when the workflow was closed before the batch.  For a terminal
    decision of the batch that is reached (the decisions before it ran
    through without stopping the batch):
    - when it is past its checks and the workflow no longer runs, it is
      skipped: the handler increments the multiple-completion counter by
      one, logs a warning, leaves the mutable state as the checks left it
      (as it was, with the blob-size checker of the spec), sets no
      verdict, returns nil and goes on with the rest of the batch;
    - when its validator answers with a BadRequest error, whether or not
      the workflow still runs, it is not skipped but failed: the batch
      ends with the fail-decision verdict of its clause, the
      multiple-completion counter is not incremented and the mutable
      state is as it was;
    - when it is past its checks while the workflow runs and the handler
      returns nil, it is honored: its clause appends one event, of
      completion type, and the workflow runs no more; when no terminal
      decision came before it, the events of the whole batch hold exactly
      one completion-type event. *)
Theorem at_most_one_completion_event (ds : list Decision.t)
  (handler : handlerImpl) :
  quietChecker (sizeLimitChecker handler) ->
  let multiple (h : handlerImpl) :=
    counterValue MultipleCompletionDecisionsCounter (metricsClient h) in
  (exists evs,
     GetHistory (mutableState (snd (handleAll ds handler))) =
     GetHistory (mutableState handler) ++ evs /\
     (completionEvents evs <= 1)%nat /\
     (IsWorkflowExecutionRunning (mutableState handler) = false ->
      completionEvents evs = 0%nat)) /\
  (forall (pre post : list Decision.t) (d : Decision.t)
          (handler0 : handlerImpl),
     ds = pre ++ d :: post ->
     handleAll pre handler = (Returns None, handler0) ->
     stopProcessing handler0 = false ->
     isTerminalDecision d = true ->
     (forall handler1 : handlerImpl,
        prepared d handler0 = Some handler1 ->
        IsWorkflowExecutionRunning (mutableState handler1) = false ->
        let skipped :=
          WarnMultipleCompletion (Decision.GetDecisionType d)
            (IncCounter HistoryRespondDecisionTaskCompletedScope
               MultipleCompletionDecisionsCounter handler1) in
        handle d handler0 = (Returns None, skipped) /\
        handleAll ds handler = handleAll post skipped /\
        multiple skipped = S (multiple handler0) /\
        mutableState skipped = mutableState handler1 /\
        (forall sizeLimitWarn sizeLimitError : Z,
           sizeLimitChecker handler =
             newDecisionBlobSizeChecker sizeLimitWarn sizeLimitError ->
           mutableState skipped = mutableState handler0) /\
        stopProcessing skipped = false /\
        failDecision skipped = failDecision handler0 /\
        continueAsNewBuilder skipped = continueAsNewBuilder handler0 /\
        transferTasks skipped = transferTasks handler0) /\
     (forall (m : string) (cause : DecisionTaskFailedCause),
        validationOf d handler0 = Some (Some (BadRequestError m), cause) ->
        let failed :=
          failedWith cause (errorString (BadRequestError m))
            (counted d handler0) in
        handleAll ds handler = (Returns None, failed) /\
        failDecision failed = true /\
        failDecisionCause failed = Some cause /\
        stopProcessing failed = true /\
        multiple failed = multiple handler0 /\
        mutableState failed = mutableState handler0) /\
     (forall handler1 : handlerImpl,
        prepared d handler0 = Some handler1 ->
        IsWorkflowExecutionRunning (mutableState handler1) = true ->
        fst (handle d handler0) = Returns None ->
        exists ev : HistoryEvent.t,
          GetHistory (mutableState (snd (handle d handler0))) =
            GetHistory (mutableState handler1) ++ [ev] /\
          isCompletionEventType (HistoryEvent.EventType ev) = true /\
          IsWorkflowExecutionRunning
            (mutableState (snd (handle d handler0))) = false /\
          (Forall (fun x => isTerminalDecision x = false) pre ->
           exists evs,
             GetHistory (mutableState (snd (handleAll ds handler))) =
             GetHistory (mutableState handler) ++ evs /\
             completionEvents evs = 1%nat))).
Proof.
  intros Hchecker multiple. split.
  { destruct (handleDecisions_step ds handler Hchecker)
      as (evs & A & C & R & _).
    exists evs. repeat split; auto. intros Hs. now destruct (R Hs). }
  intros pre post d handler0 -> Hrun Hgo Hterm.
  pose proof (handleDecisions_app uuid_New errorString secondsInt32
                pre (d :: post) handler handler0 Hrun Hgo) as Happ.
  assert (Hsame : sizeLimitChecker handler0 = sizeLimitChecker handler).
  { pose proof (sizeLimitChecker_kept_batch pre handler) as K.
    now rewrite Hrun in K. }
  split; [|split].
  - intros handler1 Hp Hclosed skipped.
    pose proof (terminal_decision_skipped uuid_New errorString secondsInt32
                  d handler0 handler1 Hterm Hp Hclosed) as Hd.
    fold skipped in Hd.
    destruct (prepared_keeps d handler0 handler1 Hp)
      as (K1 & K2 & _ & _ & K5 & _ & K7 & _).
    split; [exact Hd|].
    split.
    { rewrite Happ. simpl. rewrite Hd.
      replace (stopProcessing skipped) with false
        by (symmetry; exact K5).
      reflexivity. }
    split.
    { unfold multiple, skipped. simpl.
      rewrite counterValue_incremented, (prepared_metrics d handler0 handler1 Hp).
      now rewrite (counted_multiple_completions d handler0). }
    split; [reflexivity|].
    split.
    { intros w e Hc. rewrite <- Hsame in Hc.
      exact (prepared_state_kept d handler0 handler1 w e Hc Hp). }
    repeat split; assumption.
  - intros m cause Hv failed.
    pose proof (validation_badRequest uuid_New errorString secondsInt32
                  d handler0 m cause Hv) as Hd.
    fold failed in Hd.
    split.
    { rewrite Happ. simpl. rewrite Hd. reflexivity. }
    split; [reflexivity|]. split; [reflexivity|]. split; [reflexivity|].
    split.
    + unfold multiple, failed. simpl.
      apply counted_multiple_completions.
    + unfold failed, counted.
      destruct (decisionCounter (Decision.GetDecisionType d)); reflexivity.
  - intros handler1 Hp Hruns Hnil.
    destruct (terminal_decision_honored d handler0 handler1 Hterm Hp Hruns
                Hnil) as (ev & A & T & C).
    exists ev. split; [exact A|]. split; [exact T|]. split; [exact C|].
    intros Hpre.
    pose proof (handleDecisions_quiet_nonterminal pre Hpre handler Hchecker)
      as [(e1 & A1 & C1) _].
    rewrite Hrun in A1. simpl in A1.
    assert (Hchecker0 : quietChecker (sizeLimitChecker handler0))
      by now rewrite Hsame.
    destruct (prepared_quiet d handler0 handler1 Hchecker0 Hp)
      as [(e2 & A2 & C2) _].
    pose proof (sizeLimitChecker_kept uuid_New errorString secondsInt32
                  d handler0) as Hkept.
    rewrite Happ. simpl.
    destruct (handle d handler0) as [c h2]. simpl in *. subst c.
    assert (Hfront :
      GetHistory (mutableState h2) =
      GetHistory (mutableState handler) ++ (e1 ++ e2 ++ [ev]) /\
      completionEvents (e1 ++ e2 ++ [ev]) = 1%nat).
    { split.
      - unfold appended in *. rewrite A, A2, A1.
        now rewrite <- !app_assoc.
      - rewrite !completionEvents_app, C1, C2.
        now rewrite (completionEvents_one ev T). }
    destruct Hfront as [Hh Hone].
    destruct (stopProcessing h2); simpl.
    + eexists. split; [exact Hh | exact Hone].
    + assert (Hchecker2 : quietChecker (sizeLimitChecker h2))
        by now rewrite Hkept.
      destruct (handleDecisions_step post h2 Hchecker2)
        as (e3 & A3 & _ & R3 & _).
      destruct (R3 C) as [C3 _].
      exists ((e1 ++ e2 ++ [ev]) ++ e3). split.
      * unfold appended in A3. rewrite A3, Hh. now rewrite <- !app_assoc.
      * rewrite completionEvents_app, Hone, C3. reflexivity.
Qed.


(** The blob-size checker of the spec is quiet: it appends a termination
    event or nothing. *)
Lemma newDecisionBlobSizeChecker_quiet (sizeLimitWarn sizeLimitError : Z) :
  quietChecker (newDecisionBlobSizeChecker sizeLimitWarn sizeLimitError).
Proof.
  intros blob message ms. simpl.
  destruct (_ <=? sizeLimitWarn); [apply quietStep_refl|].
  destruct (_ <=? sizeLimitError); [apply quietStep_refl|].
  pose proof (AddWorkflowExecutionTerminatedEvent_quiet
                PayloadSizeExceedsLimit (bytesOfString message) ms) as Q.
  destruct (AddWorkflowExecutionTerminatedEvent _ _ _) as [[ev|e] ms'];
    exact Q.
Qed.

(** A clause stores a continue-as-new builder only when
    [AddContinueAsNewEvent] has succeeded, which closes the workflow, and
    nothing a clause calls reopens it. *)
Lemma continueAsNewBuilder_step (d : Decision.t) (handler : handlerImpl) :
  quietChecker (sizeLimitChecker handler) ->
  continueAsNewBuilder handler = None \/
  IsWorkflowExecutionRunning (mutableState handler) = false ->
  continueAsNewBuilder (snd (handle d handler)) = None \/
  IsWorkflowExecutionRunning (mutableState (snd (handle d handler))) = false.
Proof.
  intros Hchecker Hinv. unfold quietChecker in Hchecker.
  all_paths d; law_facts Hchecker;
    repeat match goal with
           | Q : quietStep _ _ |- _ => destruct Q as [_ Q]
           end;
    destruct Hinv as [Hnone|Hclosed];
    solve [ left; assumption
          | right; intuition congruence
          | right; auto
          | exfalso; intuition congruence ].
Qed.

Lemma continueAsNewBuilder_batch (ds : list Decision.t) :
  forall handler : handlerImpl,
  quietChecker (sizeLimitChecker handler) ->
  continueAsNewBuilder handler = None \/
  IsWorkflowExecutionRunning (mutableState handler) = false ->
  continueAsNewBuilder (snd (handleAll ds handler)) = None \/
  IsWorkflowExecutionRunning (mutableState (snd (handleAll ds handler))) =
    false.
Proof.
  induction ds as [|d ds IH]; intros handler Hchecker Hinv; simpl;
    [exact Hinv|].
  pose proof (continueAsNewBuilder_step d handler Hchecker Hinv) as Hstep.
  pose proof (sizeLimitChecker_kept uuid_New errorString secondsInt32
                d handler) as Hkept.
  destruct (handle d handler) as [c h1]. simpl in *.
  destruct c as [[e|]|]; simpl; try exact Hstep.
  destruct (stopProcessing h1); simpl; [exact Hstep|].
  apply IH; [now rewrite Hkept | exact Hstep].
Qed.

(** X22.  A next run is prepared only for a run that is closed.  For a
    handler built by [newDecisionTaskHandler] on a mutable state that
    keeps the contract, with a blob-size checker that appends no
    completion-type event: when the handler holds a continue-as-new
    builder after a batch, however the batch ended, the workflow no longer
    runs.  The builder is stored only after [AddContinueAsNewEvent] has
    succeeded, and no decision handled after it brings the workflow back
    to running. *)
Theorem continue_as_new_builder_means_closed
  (identity : string) (decisionTaskCompletedID eventStoreVersion : Z)
  (domainEntry : DomainCacheEntry) (mutableState0 : MS)
  (attrValidator : decisionAttrValidator)
  (sizeLimitChecker : decisionBlobSizeChecker MS)
  (logger : list logLine) (timerBuilderProvider : unit -> TB)
  (domainCache : DomainCache) (metricsClient : metricsClientState)
  (ds : list Decision.t) (builder : MS) :
  quietChecker sizeLimitChecker ->
  let handler :=
    newDecisionTaskHandler identity decisionTaskCompletedID
      eventStoreVersion domainEntry mutableState0 attrValidator
      sizeLimitChecker logger timerBuilderProvider domainCache
      metricsClient in
  let handler' := snd (handleAll ds handler) in
  continueAsNewBuilder handler' = Some builder ->
  IsWorkflowExecutionRunning (mutableState handler') = false.
Proof.
  intros Hchecker handler handler' Hbuilder. subst handler'.
  destruct (continueAsNewBuilder_batch ds handler Hchecker (or_introl eq_refl))
    as [Hnone|Hclosed]; [congruence | exact Hclosed].
Qed.

End HandlerContract.

(** ** What else the code of the handler shows *)

Section HandlerBehaviour.
Context {MS TB : Type} `{MutableState MS} `{timerBuilderOps TB MS}.
Variable uuid_New : nat -> string.
Variable errorString : error -> string.
Variable secondsInt32 : Duration -> Z.

Local Abbreviation handlerImpl := (decisionTaskHandlerImpl MS TB).
Local Abbreviation handle :=
  (handleDecision uuid_New errorString secondsInt32).
Local Abbreviation handleAll :=
  (handleDecisions uuid_New errorString secondsInt32).

(** ** The loop over a batch *)

(** X1.  The loop of [handleDecisions] handles a batch front to back and
    leaves it at the first decision that returns an error or stops
    processing.  When a prefix returned nil without stopping, the rest is
    handled from the handler the prefix left; and when the next decision
    returns an error, or panics, or leaves [stopProcessing] set, its
    completion is the completion of the batch and no later decision is
    looked at. *)
Theorem batch_handled_front_to_back (pre post : list Decision.t)
  (handler handler1 : handlerImpl) :
  handleAll pre handler = (Returns None, handler1) ->
  stopProcessing handler1 = false ->
  handleAll (pre ++ post) handler = handleAll post handler1 /\
  (forall (d : Decision.t) (c : completion) (handler2 : handlerImpl),
     handle d handler1 = (c, handler2) ->
     c <> Returns None \/ stopProcessing handler2 = true ->
     handleAll (pre ++ d :: post) handler = (c, handler2)).
Proof.
  intros Hrun Hgo. split.
  - exact (handleDecisions_app uuid_New errorString secondsInt32
             pre post handler handler1 Hrun Hgo).
  - intros d c handler2 Hd Hstop.
    rewrite (handleDecisions_app uuid_New errorString secondsInt32
               pre (d :: post) handler handler1 Hrun Hgo).
    simpl. rewrite Hd.
    destruct c as [[e|]|]; try reflexivity.
    destruct Hstop as [Hc|Hs]; [congruence|]. now rewrite Hs.
Qed.

(** Every clause looks at [stopProcessing] right after validation, before
    the blob-size check and before any state mutator. *)
Lemma stopped_handler_step (d : Decision.t) (handler : handlerImpl) :
  stopProcessing handler = true ->
  stopProcessing (snd (handle d handler)) = true /\
  mutableState (snd (handle d handler)) = mutableState handler /\
  transferTasks (snd (handle d handler)) = transferTasks handler /\
  timerBuilder (snd (handle d handler)) = timerBuilder handler /\
  continueAsNewBuilder (snd (handle d handler)) =
    continueAsNewBuilder handler /\
  activityNotStartedCancelled (snd (handle d handler)) =
    activityNotStartedCancelled handler /\
  hasUnhandledEventsBeforeDecisions (snd (handle d handler)) =
    hasUnhandledEventsBeforeDecisions handler /\
  uuidsDrawn (snd (handle d handler)) = uuidsDrawn handler.
Proof.
  intros Hstop.
  all_paths d; try congruence; repeat split; try reflexivity; congruence.
Qed.


(** ** What a batch leaves in the handler *)

(** A decision handled from a handler without a verdict either sets the
    four fields of the verdict together and returns nil, or leaves the
    handler without a verdict. *)
Lemma verdict_step (d : Decision.t) (handler : handlerImpl) :
  failDecision handler = false ->
  failDecisionCause handler = None ->
  failMessage handler = None ->
  (failDecision (snd (handle d handler)) = true /\
   fst (handle d handler) = Returns None /\
   stopProcessing (snd (handle d handler)) = true /\
   (exists cause, failDecisionCause (snd (handle d handler)) = Some cause) /\
   (exists message, failMessage (snd (handle d handler)) = Some message)) \/
  (failDecision (snd (handle d handler)) = false /\
   failDecisionCause (snd (handle d handler)) = None /\
   failMessage (snd (handle d handler)) = None).
Proof.
  intros Hf Hc Hm.
  all_paths d;
    first [ right; repeat split; assumption
          | left; repeat split; eauto ].
Qed.

Lemma verdict_batch (ds : list Decision.t) :
  forall handler : handlerImpl,
  failDecision handler = false ->
  failDecisionCause handler = None ->
  failMessage handler = None ->
  (failDecision (snd (handleAll ds handler)) = true /\
   fst (handleAll ds handler) = Returns None /\
   stopProcessing (snd (handleAll ds handler)) = true /\
   (exists cause,
      failDecisionCause (snd (handleAll ds handler)) = Some cause) /\
   (exists message, failMessage (snd (handleAll ds handler)) = Some message)) \/
  (failDecision (snd (handleAll ds handler)) = false /\
   failDecisionCause (snd (handleAll ds handler)) = None /\
   failMessage (snd (handleAll ds handler)) = None).
Proof.
  induction ds as [|d ds IH]; intros handler Hf Hc Hm; simpl.
  - right. auto.
  - pose proof (verdict_step d handler Hf Hc Hm) as Hstep.
    destruct (handle d handler) as [c h1]. simpl in Hstep.
    destruct Hstep as [(Hf1 & -> & Hs1 & Hc1 & Hm1)|(Hf1 & Hc1 & Hm1)].
    + rewrite Hs1. simpl. left. auto.
    + destruct c as [[e|]|]; simpl; auto.
      destruct (stopProcessing h1); simpl; auto.
Qed.

(** X3.  The verdict of a batch handled by a new handler is consistent.
    When [failDecision] is set, the cause and the message are set too (the
    caller may dereference both), [stopProcessing] is set and the handler
    has returned nil: a batch never ends with both an error and a
    fail-decision verdict.  When [failDecision] is not set, cause and
    message are nil. *)
Theorem new_handler_verdict_is_consistent
  (identity : string) (decisionTaskCompletedID eventStoreVersion : Z)
  (domainEntry : DomainCacheEntry) (mutableState : MS)
  (attrValidator : decisionAttrValidator)
  (sizeLimitChecker : decisionBlobSizeChecker MS)
  (logger : list logLine) (timerBuilderProvider : unit -> TB)
  (domainCache : DomainCache) (metricsClient : metricsClientState)
  (ds : list Decision.t) :
  let handler :=
    newDecisionTaskHandler identity decisionTaskCompletedID
      eventStoreVersion domainEntry mutableState attrValidator
      sizeLimitChecker logger timerBuilderProvider domainCache
      metricsClient in
  let c := fst (handleAll ds handler) in
  let handler' := snd (handleAll ds handler) in
  (failDecision handler' = true ->
   c = Returns None /\
   stopProcessing handler' = true /\
   (exists cause, failDecisionCause handler' = Some cause) /\
   (exists message, failMessage handler' = Some message)) /\
  (failDecision handler' = false ->
   failDecisionCause handler' = None /\ failMessage handler' = None) /\
  (c <> Returns None -> failDecision handler' = false).
Proof.
  intros handler c handler'. subst c handler'.
  destruct (verdict_batch ds handler eq_refl eq_refl eq_refl)
    as [(Hf & Hc & Hs & Hcause & Hm)|(Hf & Hcause & Hm)];
    repeat split; auto; congruence.
Qed.

(** A clause appends at most one transfer task, only the clauses of the
    four decisions that dispatch work append one, and such a clause that
    returns nil without stopping has appended exactly one. *)
Lemma transferTasks_step (d : Decision.t) (handler : handlerImpl) :
  exists new : list Task,
    transferTasks (snd (handle d handler)) = transferTasks handler ++ new /\
    (List.length new <= if addsTransferTask d then 1 else 0)%nat /\
    (fst (handle d handler) = Returns None ->
     stopProcessing (snd (handle d handler)) = false ->
     List.length new = if addsTransferTask d then 1%nat else 0%nat).
Proof.
  unfold addsTransferTask.
  all_paths d;
    first [ exists []; rewrite app_nil_r; simpl;
            repeat split; solve [reflexivity | lia | congruence]
          | eexists [_]; simpl;
            repeat split; solve [reflexivity | lia | congruence] ].
Qed.

(** X4.  The transfer tasks of the handler are append-only.  Whatever the
    batch and however it ends, the tasks the handler held are still there,
    in front, and the batch has added at most one task for each of its
    ScheduleActivity, RequestCancelExternalWorkflow, StartChildWorkflow and
    SignalExternalWorkflow decisions; when the batch ran through, returning
    nil without stopping, it has added exactly one for each. *)
Theorem transfer_tasks_are_append_only (ds : list Decision.t) :
  forall handler : handlerImpl,
  exists new : list Task,
    transferTasks (snd (handleAll ds handler)) =
      transferTasks handler ++ new /\
    (List.length new <= List.length (filter addsTransferTask ds))%nat /\
    (fst (handleAll ds handler) = Returns None ->
     stopProcessing (snd (handleAll ds handler)) = false ->
     List.length new = List.length (filter addsTransferTask ds)).
Proof.
  induction ds as [|d ds IH]; intros handler; simpl.
  - exists []. rewrite app_nil_r. auto.
  - destruct (transferTasks_step d handler) as (n1 & Happ & Hle & Heq).
    destruct (handle d handler) as [c h1]. simpl in Happ, Heq.
    assert (Hcount :
      (List.length (filter addsTransferTask (d :: ds)) =
       (if addsTransferTask d then 1 else 0) +
       List.length (filter addsTransferTask ds))%nat).
    { simpl. destruct (addsTransferTask d); reflexivity. }
    simpl in Hcount. rewrite Hcount.
    destruct c as [[e|]|]; simpl.
    + exists n1. repeat split; [exact Happ | lia | discriminate].
    + destruct (stopProcessing h1) eqn:Hs; simpl.
      * exists n1. repeat split; [exact Happ | lia | congruence].
      * destruct (IH h1) as (n2 & Happ2 & Hle2 & Heq2).
        exists (n1 ++ n2). rewrite Happ2, Happ, app_assoc, length_app.
        repeat split; [lia|].
        intros Hc Hstop. rewrite (Heq eq_refl eq_refl), (Heq2 Hc Hstop).
        reflexivity.
    + exists n1. repeat split; [exact Happ | lia | discriminate].
Qed.

(** What a clause hands to the metrics client: the counter of its
    decision type on entry and, when it skips a completion decision, the
    counter of multiple completions. *)
Lemma metricsClient_step (d : Decision.t) (handler : handlerImpl) :
  metricsClient (snd (handle d handler)) = metricsClient (counted d handler) \/
  metricsClient (snd (handle d handler)) =
    metricsClient (counted d handler) ++
    [(HistoryRespondDecisionTaskCompletedScope,
      MultipleCompletionDecisionsCounter)].
Proof.
  unfold counted.
  all_paths d; solve [left; reflexivity | right; reflexivity].
Qed.

(** Every decision handed to a clause is counted once, whatever becomes of
    it. *)
Lemma counterValue_step (c : MetricCounter) (d : Decision.t)
  (handler : handlerImpl) :
  c <> MultipleCompletionDecisionsCounter ->
  counterValue c (metricsClient (snd (handle d handler))) =
  (counterValue c (metricsClient handler) +
   if countedBy c d then 1 else 0)%nat.
Proof.
  intros Hc.
  assert (Hcounted :
    counterValue c (metricsClient (counted d handler)) =
    (counterValue c (metricsClient handler) +
     if countedBy c d then 1 else 0)%nat).
  { unfold counted, countedBy.
    destruct (decisionCounter (Decision.GetDecisionType d)) as [c'|]; simpl.
    - rewrite counterValue_app. unfold counterValue at 2. simpl.
      destruct (MetricCounter_eqb c' c); reflexivity.
    - lia. }
  destruct (metricsClient_step d handler) as [-> | ->]; [exact Hcounted|].
  rewrite counterValue_app, Hcounted.
  destruct c; try congruence; unfold counterValue at 2; simpl; lia.
Qed.


(** The line the handler logs when it skips a completion decision. *)
Lemma warning_step (d : Decision.t) (handler : handlerImpl) :
  (metricsClient (snd (handle d handler)) =
     metricsClient (counted d handler) /\
   logger (snd (handle d handler)) = logger handler) \/
  (isTerminalDecision d = true /\
   metricsClient (snd (handle d handler)) =
     metricsClient (counted d handler) ++
     [(HistoryRespondDecisionTaskCompletedScope,
       MultipleCompletionDecisionsCounter)] /\
   logger (snd (handle d handler)) =
     logger handler ++
     [{| logMessage := "Multiple completion decisions";
         tagWorkflowDecisionType := Decision.GetDecisionType d;
         tagErrorType := ErrorTypeMultipleCompletionDecisions |}]).
Proof.
  unfold counted.
  all_paths d;
    solve [left; split; reflexivity | right; repeat split; reflexivity].
Qed.


(** A field that the clauses of a class of decisions leave alone is left
    alone by every batch of such decisions. *)
Lemma kept_by_batch {A : Type} (field : handlerImpl -> A)
  (P : Decision.t -> Prop) :
  (forall d handler, P d -> field (snd (handle d handler)) = field handler) ->
  forall ds, Forall P ds ->
  forall handler, field (snd (handleAll ds handler)) = field handler.
Proof.
  intros Hstep ds Hds.
  induction Hds as [|d ds Hd _ IH]; intros handler; simpl; [reflexivity|].
  pose proof (Hstep d handler Hd) as Hkept.
  destruct (handle d handler) as [c h1]. simpl in Hkept.
  destruct c as [[e|]|]; simpl; try exact Hkept.
  destruct (stopProcessing h1); simpl; [exact Hkept|].
  now rewrite IH.
Qed.

Lemma timerBuilder_kept (d : Decision.t) (handler : handlerImpl) :
  Decision.GetDecisionType d <> DecisionTypeStartTimer /\
  Decision.GetDecisionType d <> DecisionTypeCancelTimer ->
  timerBuilder (snd (handle d handler)) = timerBuilder handler.
Proof. intros [H1 H2]. all_paths d; reflexivity. Qed.

Lemma activityNotStartedCancelled_kept (d : Decision.t)
  (handler : handlerImpl) :
  Decision.GetDecisionType d <> DecisionTypeRequestCancelActivityTask ->
  activityNotStartedCancelled (snd (handle d handler)) =
  activityNotStartedCancelled handler.
Proof. intros H1. all_paths d; reflexivity. Qed.

Lemma continueAsNewBuilder_kept (d : Decision.t) (handler : handlerImpl) :
  Decision.GetDecisionType d <> DecisionTypeCompleteWorkflowExecution /\
  Decision.GetDecisionType d <> DecisionTypeFailWorkflowExecution /\
  Decision.GetDecisionType d <> DecisionTypeContinueAsNewWorkflowExecution ->
  continueAsNewBuilder (snd (handle d handler)) =
  continueAsNewBuilder handler.
Proof. intros (H1 & H2 & H3). all_paths d; reflexivity. Qed.

(** X7.  Which decisions can touch which part of the handler.  Over a whole
    batch, however it ends: the timer tasks are never touched; the timer
    builder changes only through StartTimer and CancelTimer decisions; the
    flag of unhandled events only through CancelTimer decisions;
    [activityNotStartedCancelled] only through RequestCancelActivity
    decisions; the continue-as-new builder only through CompleteWorkflow,
    FailWorkflow and ContinueAsNewWorkflow decisions (a CancelWorkflow
    decision never continues as new); the transfer tasks only through the
    four decisions that dispatch work. *)
Theorem decisions_touch_only_their_fields (ds : list Decision.t)
  (handler : handlerImpl) :
  let handler' := snd (handleAll ds handler) in
  let without (types : list DecisionType) :=
    Forall (fun d => ~ In (Decision.GetDecisionType d) types) ds in
  timerTasks handler' = timerTasks handler /\
  (without [DecisionTypeStartTimer; DecisionTypeCancelTimer] ->
   timerBuilder handler' = timerBuilder handler) /\
  (without [DecisionTypeCancelTimer] ->
   hasUnhandledEventsBeforeDecisions handler' =
   hasUnhandledEventsBeforeDecisions handler) /\
  (without [DecisionTypeRequestCancelActivityTask] ->
   activityNotStartedCancelled handler' =
   activityNotStartedCancelled handler) /\
  (without [DecisionTypeCompleteWorkflowExecution;
            DecisionTypeFailWorkflowExecution;
            DecisionTypeContinueAsNewWorkflowExecution] ->
   continueAsNewBuilder handler' = continueAsNewBuilder handler) /\
  (without [DecisionTypeScheduleActivityTask;
            DecisionTypeRequestCancelExternalWorkflowExecution;
            DecisionTypeStartChildWorkflowExecution;
            DecisionTypeSignalExternalWorkflowExecution] ->
   transferTasks handler' = transferTasks handler).
Proof.
  intros handler' without. subst handler' without. cbv beta.
  split; [|split; [|split; [|split; [|split]]]].
  - apply (kept_by_batch (fun h => timerTasks h) (fun _ => True));
      [intros d h _; apply timerTasks_kept | now apply Forall_forall].
  - intros Hds. revert handler.
    apply (kept_by_batch (fun h => timerBuilder h)
             (fun d => ~ In (Decision.GetDecisionType d)
                           [DecisionTypeStartTimer; DecisionTypeCancelTimer]));
      [|exact Hds].
    intros d h Hd. apply timerBuilder_kept. simpl in Hd. intuition congruence.
  - intros Hds. revert handler.
    apply (kept_by_batch (fun h => hasUnhandledEventsBeforeDecisions h)
             (fun d => ~ In (Decision.GetDecisionType d)
                           [DecisionTypeCancelTimer]));
      [|exact Hds].
    intros d h Hd. apply hasUnhandledEvents_kept. simpl in Hd.
    intuition congruence.
  - intros Hds. revert handler.
    apply (kept_by_batch (fun h => activityNotStartedCancelled h)
             (fun d => ~ In (Decision.GetDecisionType d)
                           [DecisionTypeRequestCancelActivityTask]));
      [|exact Hds].
    intros d h Hd. apply activityNotStartedCancelled_kept. simpl in Hd.
    intuition congruence.
  - intros Hds. revert handler.
    apply (kept_by_batch (fun h => continueAsNewBuilder h)
             (fun d => ~ In (Decision.GetDecisionType d)
                           [DecisionTypeCompleteWorkflowExecution;
                            DecisionTypeFailWorkflowExecution;
                            DecisionTypeContinueAsNewWorkflowExecution]));
      [|exact Hds].
    intros d h Hd. apply continueAsNewBuilder_kept. simpl in Hd.
    intuition congruence.
  - intros Hds. revert handler.
    apply (kept_by_batch (fun h => transferTasks h)
             (fun d => ~ In (Decision.GetDecisionType d)
                           [DecisionTypeScheduleActivityTask;
                            DecisionTypeRequestCancelExternalWorkflowExecution;
                            DecisionTypeStartChildWorkflowExecution;
                            DecisionTypeSignalExternalWorkflowExecution]));
      [|exact Hds].
    intros d h Hd.
    destruct (transferTasks_step d h) as (new & Happ & Hle & _).
    assert (Hno : addsTransferTask d = false).
    { unfold addsTransferTask. simpl in Hd.
      destruct (Decision.GetDecisionType d); try reflexivity;
        exfalso; apply Hd; tauto. }
    rewrite Hno in Hle. destruct new; [|simpl in Hle; lia].
    now rewrite app_nil_r in Happ.
Qed.

(** ** Errors of the collaborators *)

(** X8.  An error of the attribute validator that is not a BadRequest error
    is no verdict on the decision:  [validateDecisionAttr] hands it back and
    the clause returns it to the caller as it is.  Nothing but the counter
    of the decision type has changed; in particular no fail-decision is
    recorded and [stopProcessing] is not set. *)
Theorem validator_failure_is_returned (d : Decision.t)
  (handler : handlerImpl) (err : error) (cause : DecisionTaskFailedCause) :
  validationOf d handler = Some (Some err, cause) ->
  isBadRequestError err = false ->
  handle d handler = (Returns (Some err), counted d handler).
Proof.
  intros Hv Hbad.
  open_decision d; open_prelude Hv;
    inversion Hv; subst; clear Hv; run_clause;
    rewrite ?Hbad; reflexivity.
Qed.

(** X9.  A decision that names a domain the domain cache cannot resolve is
    answered with an internal service error that names the domain; the
    error of the cache is dropped.  The lookup comes first in the clause:
    the validator is not consulted and nothing but the counter of the
    decision type has changed. *)
Theorem unresolved_domain_is_internal_error (d : Decision.t)
  (handler : handlerImpl) :
  addsTransferTask d = true ->
  targetDomainID d handler = None ->
  exists message : string,
    handle d handler =
      (Returns (Some (InternalServiceError message)), counted d handler) /\
    match Decision.GetDecisionType d with
    | DecisionTypeScheduleActivityTask =>
        message =
        ("Unable to schedule activity across domain " ++
        ScheduleActivityTaskDecisionAttributes.GetDomain
          (Decision.ScheduleActivityTaskDecisionAttributes d) ++ ".")%string
    | DecisionTypeRequestCancelExternalWorkflowExecution =>
        message =
        ("Unable to cancel workflow across domain: " ++
        RequestCancelExternalWorkflowExecutionDecisionAttributes.GetDomain
          (Decision.RequestCancelExternalWorkflowExecutionDecisionAttributes
             d) ++ ".")%string
    | DecisionTypeStartChildWorkflowExecution =>
        message =
        ("Unable to schedule child execution across domain " ++
        StartChildWorkflowExecutionDecisionAttributes.GetDomain
          (Decision.StartChildWorkflowExecutionDecisionAttributes d) ++
         ".")%string
    | DecisionTypeSignalExternalWorkflowExecution =>
        message =
        ("Unable to signal workflow across domain: " ++
        SignalExternalWorkflowExecutionDecisionAttributes.GetDomain
          (Decision.SignalExternalWorkflowExecutionDecisionAttributes d) ++
        ".")%string
    | _ => False
    end.
Proof.
  unfold addsTransferTask, targetDomainID, targetDomainOf.
  intros Hadds Ht.
  open_decision d;
    repeat (step_in Ht; try discriminate Ht);
    eexists; (split; [run_clause; reflexivity | reflexivity]).
Qed.

(** ** What the clauses apply *)

(** X10.  A CompleteWorkflow decision that is past its checks, on a running
    workflow.  Without a cron schedule the handler adds the
    workflow-completed event; an error of the mutator is replaced by an
    internal service error.  With a cron schedule the run continues as new:
    the attributes handed to [AddContinueAsNewEvent] are inherited from the
    start event, the initiator is [CronSchedule], the backoff is the cron
    backoff in seconds, there is no failure reason and there are no failure
    details, and [LastCompletionResult] is the result of the decision (not
    the one of the start event, as for a failed workflow).  When the start
    event cannot be loaded the handler returns an internal service error and
    applies nothing. *)
Theorem complete_workflow_completes_or_continues (d : Decision.t)
  (handler handler1 : handlerImpl)
  (a : CompleteWorkflowExecutionDecisionAttributes.t) :
  Decision.GetDecisionType d = DecisionTypeCompleteWorkflowExecution ->
  Decision.CompleteWorkflowExecutionDecisionAttributes d = Some a ->
  prepared d handler = Some handler1 ->
  IsWorkflowExecutionRunning (mutableState handler1) = true ->
  let cron := GetCronBackoffDuration (mutableState handler1) in
  (cron = NoBackoff ->
   handle d handler =
   match
     AddCompletedWorkflowEvent (decisionTaskCompletedID handler1) (Some a)
       (mutableState handler1)
   with
   | (Ok _, ms) => (Returns None, set_mutableState ms handler1)
   | (Error _, ms) =>
       (Returns
          (Some (InternalServiceError
                   "Unable to add complete workflow event.")),
        set_mutableState ms handler1)
   end) /\
  (cron <> NoBackoff ->
   GetStartEvent (mutableState handler1) = None ->
   handle d handler =
   (Returns (Some (InternalServiceError "Failed to load start event.")),
    handler1)) /\
  (forall (startEvent : HistoryEvent.t)
          (sa : WorkflowExecutionStartedEventAttributes.t),
     cron <> NoBackoff ->
     GetStartEvent (mutableState handler1) = Some startEvent ->
     HistoryEvent.WorkflowExecutionStartedEventAttributes startEvent =
       Some sa ->
     handle d handler =
     continuedAsNew
       (WorkflowExecutionStartedEventAttributes.GetParentWorkflowDomain sa)
       {|
         ContinueAsNewWorkflowExecutionDecisionAttributes.WorkflowType :=
           WorkflowExecutionStartedEventAttributes.WorkflowType sa;
         ContinueAsNewWorkflowExecutionDecisionAttributes.TaskList :=
           WorkflowExecutionStartedEventAttributes.TaskList sa;
         ContinueAsNewWorkflowExecutionDecisionAttributes.Input :=
           WorkflowExecutionStartedEventAttributes.Input sa;
         ContinueAsNewWorkflowExecutionDecisionAttributes.ExecutionStartToCloseTimeoutSeconds :=
           WorkflowExecutionStartedEventAttributes.ExecutionStartToCloseTimeoutSeconds sa;
         ContinueAsNewWorkflowExecutionDecisionAttributes.TaskStartToCloseTimeoutSeconds :=
           WorkflowExecutionStartedEventAttributes.TaskStartToCloseTimeoutSeconds sa;
         ContinueAsNewWorkflowExecutionDecisionAttributes.BackoffStartIntervalInSeconds :=
           Some (secondsInt32 cron);
         ContinueAsNewWorkflowExecutionDecisionAttributes.RetryPolicy :=
           WorkflowExecutionStartedEventAttributes.RetryPolicy sa;
         ContinueAsNewWorkflowExecutionDecisionAttributes.Initiator :=
           Some ContinueAsNewInitiatorCronSchedule;
         ContinueAsNewWorkflowExecutionDecisionAttributes.FailureReason :=
           None;
         ContinueAsNewWorkflowExecutionDecisionAttributes.FailureDetails :=
           [];
         ContinueAsNewWorkflowExecutionDecisionAttributes.LastCompletionResult :=
           CompleteWorkflowExecutionDecisionAttributes.Result a;
         ContinueAsNewWorkflowExecutionDecisionAttributes.CronSchedule :=
           WorkflowExecutionStartedEventAttributes.CronSchedule sa
       |}
       handler1).
Proof.
  intros Hty Ha Hp Hrun cron. subst cron.
  unfold prepared, passesValidation, validationOf, checkedPayload in Hp.
  unfold handleDecision, counted in *.
  rewrite Hty in *. rewrite Ha in *.
  destruct (hasUnhandledEventsBeforeDecisions handler) eqn:Hflag;
    [discriminate Hp|].
  destruct (validateCompleteWorkflowExecutionAttributes _ _) eqn:Hval;
    [discriminate Hp|].
  destruct (stopProcessing handler) eqn:Hstop; [discriminate Hp|].
  simpl in Hp.
  destruct (failWorkflowIfBlobSizeExceedsLimit _ _ _ _)
    as [[[|] [err|]] ms1] eqn:Hc; try discriminate Hp.
  injection Hp as <-. simpl in *.
  unfold handleDecisionCompleteWorkflow, validateDecisionAttr, IncCounter.
  simpl.
  rewrite Hflag, Hval. simpl. rewrite Hstop. simpl. rewrite Hc. simpl.
  rewrite Hrun. simpl.
  split; [|split].
  - intros Hcron. apply Z.eqb_eq in Hcron. rewrite Hcron.
    destruct (AddCompletedWorkflowEvent _ _ _) as [[ev|e] ms2]; reflexivity.
  - intros Hcron Hstart. apply Z.eqb_neq in Hcron. rewrite Hcron, Hstart.
    reflexivity.
  - intros startEvent sa Hcron Hstart Hsa. apply Z.eqb_neq in Hcron.
    rewrite Hcron, Hstart, Hsa.
    apply retryCronContinueAsNew_attributes.
Qed.

(** X11.  A RequestCancelExternalWorkflow decision that is past validation.
    The handler draws a fresh request id and hands it to the mutator with
    the attributes.  When the mutator succeeds, exactly one task is appended
    to the transfer tasks, a [CancelExecutionTask] with the resolved target
    domain, the workflow id, run id and child-only flag of the attributes
    and the id of the initiated event; the handler returns nil and does not
    stop.  When the mutator fails, whatever its error, the handler returns
    an internal service error with a fixed message and appends no task.  The
    clause has no blob-size check. *)
Theorem request_cancel_external_emits_one_transfer_task (d : Decision.t)
  (handler handler1 : handlerImpl) (target : string) :
  Decision.GetDecisionType d =
    DecisionTypeRequestCancelExternalWorkflowExecution ->
  targetDomainID d handler = Some target ->
  prepared d handler = Some handler1 ->
  let attr :=
    Decision.RequestCancelExternalWorkflowExecutionDecisionAttributes d in
  let drawn := set_uuidsDrawn (S (uuidsDrawn handler)) handler1 in
  checkedPayload d = None /\
  match
    AddRequestCancelExternalWorkflowExecutionInitiatedEvent
      (decisionTaskCompletedID handler) (uuid_New (uuidsDrawn handler)) attr
      (mutableState handler1)
  with
  | (Ok (wfCancelReqEvent, _), ms) =>
      handle d handler =
      (Returns None,
       set_transferTasks
         (transferTasks handler ++
          [CancelExecutionTask target
             (RequestCancelExternalWorkflowExecutionDecisionAttributes.GetWorkflowId
                attr)
             (RequestCancelExternalWorkflowExecutionDecisionAttributes.GetRunId
                attr)
             (RequestCancelExternalWorkflowExecutionDecisionAttributes.GetChildWorkflowOnly
                attr)
             (HistoryEvent.GetEventId wfCancelReqEvent)])
         (set_mutableState ms drawn)) /\
      stopProcessing handler = false
  | (Error _, ms) =>
      handle d handler =
      (Returns
         (Some (InternalServiceError
                  "Unable to add external cancel workflow request.")),
       set_mutableState ms drawn) /\
      transferTasks (set_mutableState ms drawn) = transferTasks handler
  end.
Proof.
  intros Hty Ht Hp attr drawn. subst attr drawn.
  unfold prepared, passesValidation, validationOf, checkedPayload in *.
  unfold handleDecision, counted in *.
  rewrite Hty in *. rewrite Ht in Hp.
  unfold targetDomainID in Ht. rewrite Hty in Ht.
  destruct (validateCancelExternalWorkflowExecutionAttributes _ _ _ _)
    eqn:Hval; [discriminate Hp|].
  destruct (stopProcessing handler) eqn:Hstop; [discriminate Hp|].
  simpl in Hp. injection Hp as <-. simpl.
  split; [reflexivity|].
  unfold handleDecisionRequestCancelExternalWorkflow, validateDecisionAttr,
    IncCounter, uuidNew.
  simpl.
  rewrite (targetDomainOf_Ok _ _ _ _ Ht).
  rewrite Hval. simpl. rewrite Hstop. simpl.
  destruct (AddRequestCancelExternalWorkflowExecutionInitiatedEvent _ _ _ _)
    as [[[ev info]|e] ms2]; simpl; split; reflexivity.
Qed.

(** X12.  A SignalExternalWorkflow decision that is past its checks.  The
    handler draws a fresh request id and hands it to the mutator with the
    attributes.  When the mutator succeeds, exactly one task is appended to
    the transfer tasks, a [SignalExecutionTask] with the resolved target
    domain, the workflow id and run id of the execution named in the
    attributes, their child-only flag and the id of the initiated event; the
    handler returns nil and does not stop.  When the mutator fails, whatever
    its error, the handler returns an internal service error with a fixed
    message and appends no task. *)
Theorem signal_external_emits_one_transfer_task (d : Decision.t)
  (handler handler1 : handlerImpl)
  (a : SignalExternalWorkflowExecutionDecisionAttributes.t)
  (target : string) :
  Decision.GetDecisionType d = DecisionTypeSignalExternalWorkflowExecution ->
  Decision.SignalExternalWorkflowExecutionDecisionAttributes d = Some a ->
  targetDomainID d handler = Some target ->
  prepared d handler = Some handler1 ->
  let drawn := set_uuidsDrawn (S (uuidsDrawn handler)) handler1 in
  match
    AddSignalExternalWorkflowExecutionInitiatedEvent
      (decisionTaskCompletedID handler) (uuid_New (uuidsDrawn handler))
      (Some a) (mutableState handler1)
  with
  | (Ok (wfSignalReqEvent, _), ms) =>
      handle d handler =
      (Returns None,
       set_transferTasks
         (transferTasks handler ++
          [SignalExecutionTask target
             (WorkflowExecution.GetWorkflowId
                (SignalExternalWorkflowExecutionDecisionAttributes.Execution
                   a))
             (WorkflowExecution.GetRunId
                (SignalExternalWorkflowExecutionDecisionAttributes.Execution
                   a))
             (getBool
                (SignalExternalWorkflowExecutionDecisionAttributes.ChildWorkflowOnly
                   a))
             (HistoryEvent.GetEventId wfSignalReqEvent)])
         (set_mutableState ms drawn)) /\
      stopProcessing handler = false
  | (Error _, ms) =>
      handle d handler =
      (Returns
         (Some (InternalServiceError
                  "Unable to add external signal workflow request.")),
       set_mutableState ms drawn) /\
      transferTasks (set_mutableState ms drawn) = transferTasks handler
  end.
Proof.
  intros Hty Ha Ht Hp drawn. subst drawn.
  unfold prepared, passesValidation, validationOf, checkedPayload in Hp.
  unfold handleDecision, counted in *.
  rewrite Hty in *. rewrite Ha in *. rewrite Ht in Hp.
  unfold targetDomainID in Ht. rewrite Hty, Ha in Ht.
  destruct (validateSignalExternalWorkflowExecutionAttributes _ _ _ _)
    eqn:Hval; [discriminate Hp|].
  destruct (stopProcessing handler) eqn:Hstop; [discriminate Hp|].
  simpl in Hp.
  destruct (failWorkflowIfBlobSizeExceedsLimit _ _ _ _)
    as [[[|] [err|]] ms1] eqn:Hc; try discriminate Hp.
  injection Hp as <-. simpl.
  unfold handleDecisionSignalExternalWorkflow, validateDecisionAttr,
    IncCounter, uuidNew.
  simpl.
  rewrite (targetDomainOf_Ok _ _ _ _ Ht).
  rewrite Hval. simpl. rewrite Hstop. simpl. rewrite Hc. simpl.
  destruct (AddSignalExternalWorkflowExecutionInitiatedEvent _ _ _ _)
    as [[[ev info]|e] ms2]; simpl; split; reflexivity.
Qed.

(** X13.  A StartChildWorkflow decision that is past its checks.  The
    handler draws a fresh request id and hands it to the mutator with the
    attributes.  When the mutator succeeds, exactly one task is appended to
    the transfer tasks, a [StartChildExecutionTask] with the resolved target
    domain, the workflow id of the attributes and the id of the initiated
    event; the handler returns nil and does not stop.  When the mutator
    fails the handler returns the error of the mutator as it is (it is not
    replaced, unlike for the two external requests) and appends no task. *)
Theorem start_child_emits_one_transfer_task (d : Decision.t)
  (handler handler1 : handlerImpl)
  (a : StartChildWorkflowExecutionDecisionAttributes.t) (target : string) :
  Decision.GetDecisionType d = DecisionTypeStartChildWorkflowExecution ->
  Decision.StartChildWorkflowExecutionDecisionAttributes d = Some a ->
  targetDomainID d handler = Some target ->
  prepared d handler = Some handler1 ->
  let drawn := set_uuidsDrawn (S (uuidsDrawn handler)) handler1 in
  match
    AddStartChildWorkflowExecutionInitiatedEvent
      (decisionTaskCompletedID handler) (uuid_New (uuidsDrawn handler))
      (Some a) (mutableState handler1)
  with
  | (Ok (initiatedEvent, _), ms) =>
      handle d handler =
      (Returns None,
       set_transferTasks
         (transferTasks handler ++
          [StartChildExecutionTask target
             (getString (StartChildWorkflowExecutionDecisionAttributes.WorkflowId a))
             (HistoryEvent.GetEventId initiatedEvent)])
         (set_mutableState ms drawn)) /\
      stopProcessing handler = false
  | (Error err, ms) =>
      handle d handler = (Returns (Some err), set_mutableState ms drawn) /\
      transferTasks (set_mutableState ms drawn) = transferTasks handler
  end.
Proof.
  intros Hty Ha Ht Hp drawn. subst drawn.
  unfold prepared, passesValidation, validationOf, checkedPayload in Hp.
  unfold handleDecision, counted in *.
  rewrite Hty in *. rewrite Ha in *. rewrite Ht in Hp.
  unfold targetDomainID in Ht. rewrite Hty, Ha in Ht.
  destruct (validateStartChildExecutionAttributes _ _ _ _ _)
    eqn:Hval; [discriminate Hp|].
  destruct (stopProcessing handler) eqn:Hstop; [discriminate Hp|].
  simpl in Hp.
  destruct (failWorkflowIfBlobSizeExceedsLimit _ _ _ _)
    as [[[|] [err|]] ms1] eqn:Hc; try discriminate Hp.
  injection Hp as <-. simpl.
  unfold handleDecisionStartChildWorkflow, validateDecisionAttr,
    IncCounter, uuidNew.
  simpl.
  rewrite (targetDomainOf_Ok _ _ _ _ Ht).
  rewrite Hval. simpl. rewrite Hstop. simpl. rewrite Hc. simpl.
  destruct (AddStartChildWorkflowExecutionInitiatedEvent _ _ _ _)
    as [[[ev info]|e] ms2]; simpl; split; reflexivity.
Qed.

(** X14.  A ContinueAsNewWorkflow decision that is past its checks, on a
    running workflow.  The attributes of the decision are handed to
    [AddContinueAsNewEvent] as they are, together with the name of the
    parent's domain: the empty name when the workflow has no parent,
    otherwise the name the domain cache gives for the parent domain id of
    the execution info.  When that lookup fails its error is returned as it
    is and nothing is applied.  The builder the mutator returns becomes the
    continue-as-new builder of the handler. *)
Theorem continue_as_new_passes_parent_domain (d : Decision.t)
  (handler handler1 : handlerImpl)
  (a : ContinueAsNewWorkflowExecutionDecisionAttributes.t) :
  Decision.GetDecisionType d = DecisionTypeContinueAsNewWorkflowExecution ->
  Decision.ContinueAsNewWorkflowExecutionDecisionAttributes d = Some a ->
  prepared d handler = Some handler1 ->
  IsWorkflowExecutionRunning (mutableState handler1) = true ->
  let parentDomainID :=
    ParentDomainID (GetExecutionInfo (mutableState handler1)) in
  (HasParentExecution (mutableState handler1) = false ->
   handle d handler = continuedAsNew "" a handler1) /\
  (forall parentDomainEntry : DomainCacheEntry,
     HasParentExecution (mutableState handler1) = true ->
     GetDomainByID (domainCache handler) parentDomainID =
       Ok parentDomainEntry ->
     handle d handler =
     continuedAsNew (Name (GetInfo parentDomainEntry)) a handler1) /\
  (forall err : error,
     HasParentExecution (mutableState handler1) = true ->
     GetDomainByID (domainCache handler) parentDomainID = Error err ->
     handle d handler = (Returns (Some err), handler1)).
Proof.
  intros Hty Ha Hp Hrun parentDomainID. subst parentDomainID.
  unfold prepared, passesValidation, validationOf, checkedPayload in Hp.
  unfold handleDecision, counted in *.
  rewrite Hty in *. rewrite Ha in *.
  destruct (hasUnhandledEventsBeforeDecisions handler) eqn:Hflag;
    [discriminate Hp|].
  destruct (validateContinueAsNewWorkflowExecutionAttributes _ _ _) eqn:Hval;
    [discriminate Hp|].
  destruct (stopProcessing handler) eqn:Hstop; [discriminate Hp|].
  simpl in Hp.
  destruct (failWorkflowIfBlobSizeExceedsLimit _ _ _ _)
    as [[[|] [err|]] ms1] eqn:Hc; try discriminate Hp.
  injection Hp as <-. simpl in *.
  unfold handleDecisionContinueAsNewWorkflow, validateDecisionAttr,
    IncCounter, continuedAsNew.
  simpl.
  rewrite Hflag, Hval. simpl. rewrite Hstop. simpl. rewrite Hc. simpl.
  rewrite Hrun. simpl.
  split; [|split].
  - intros Hparent. rewrite Hparent.
    destruct (AddContinueAsNewEvent _ _ _ _ _ _ _) as [[[ev b]|e] ms2];
      reflexivity.
  - intros entry Hparent Hentry. rewrite Hparent, Hentry.
    destruct (AddContinueAsNewEvent _ _ _ _ _ _ _) as [[[ev b]|e] ms2];
      reflexivity.
  - intros err Hparent Hentry. rewrite Hparent, Hentry. reflexivity.
Qed.

(** X15.  A RequestCancelActivity decision that is past validation.  When
    the activity is known and has started, the cancel request is recorded
    and nothing else happens.  When it is known and has not started (its
    started id is the empty event id), the handler cancels it right away: it
    adds the activity-canceled event for the schedule id of the activity,
    with the id of the cancel-requested event and the details
    [ACTIVITY_ID_NOT_STARTED], and sets [activityNotStartedCancelled]; an
    error of that second mutator is returned and the flag is not set.  When
    the activity is unknown, which the mutator answers with a BadRequest
    error, the decision does not fail: the handler records a cancel-failed
    event with cause [ACTIVITY_ID_UNKNOWN] and returns what that mutator
    returns.  Any other error is returned as it is. *)
Theorem request_cancel_activity_cancels_unstarted (d : Decision.t)
  (handler handler1 : handlerImpl) :
  Decision.GetDecisionType d = DecisionTypeRequestCancelActivityTask ->
  prepared d handler = Some handler1 ->
  let activityID :=
    RequestCancelActivityTaskDecisionAttributes.GetActivityId
      (Decision.RequestCancelActivityTaskDecisionAttributes d) in
  match
    AddActivityTaskCancelRequestedEvent (decisionTaskCompletedID handler)
      activityID (identity handler) (mutableState handler1)
  with
  | (Ok (actCancelReqEvent, ai), ms) =>
      if ActivityInfo_StartedID ai =? EmptyEventID
      then
        match
          AddActivityTaskCanceledEvent (ActivityInfo_ScheduleID ai)
            (ActivityInfo_StartedID ai)
            (HistoryEvent.GetEventId actCancelReqEvent)
            (bytesOfString "ACTIVITY_ID_NOT_STARTED") (identity handler) ms
        with
        | (Ok _, ms') =>
            handle d handler =
            (Returns None,
             set_activityNotStartedCancelled true
               (set_mutableState ms' handler1))
        | (Error err, ms') =>
            handle d handler =
            (Returns (Some err), set_mutableState ms' handler1)
        end
      else handle d handler = (Returns None, set_mutableState ms handler1)
  | (Error (BadRequestError _), ms) =>
      match
        AddRequestCancelActivityTaskFailedEvent
          (decisionTaskCompletedID handler) activityID "ACTIVITY_ID_UNKNOWN"
          ms
      with
      | (Ok _, ms') =>
          handle d handler = (Returns None, set_mutableState ms' handler1)
      | (Error err, ms') =>
          handle d handler =
          (Returns (Some err), set_mutableState ms' handler1)
      end
  | (Error err, ms) =>
      handle d handler = (Returns (Some err), set_mutableState ms handler1)
  end.
Proof.
  intros Hty Hp activityID. subst activityID.
  unfold prepared, passesValidation, validationOf in Hp.
  unfold handleDecision, counted in *.
  rewrite Hty in *.
  destruct (validateActivityCancelAttributes _ _) eqn:Hval;
    [discriminate Hp|].
  destruct (stopProcessing handler) eqn:Hstop; [discriminate Hp|].
  simpl in Hp. injection Hp as <-. simpl.
  unfold handleDecisionRequestCancelActivity, validateDecisionAttr,
    IncCounter.
  simpl. rewrite Hval. simpl. rewrite Hstop. simpl.
  destruct (AddActivityTaskCancelRequestedEvent _ _ _ _)
    as [[[ev ai]|[m|m|m]] ms]; simpl; try reflexivity.
  - destruct (ActivityInfo_StartedID ai =? EmptyEventID); [|reflexivity].
    destruct (AddActivityTaskCanceledEvent _ _ _ _ _ _) as [[ev'|e] ms'];
      reflexivity.
  - destruct (AddRequestCancelActivityTaskFailedEvent _ _ _ _)
      as [[ev'|e] ms']; reflexivity.
Qed.

(** X16.  A StartTimer decision that is past validation.  When the mutator
    succeeds, the timer it returns is added to the timer builder of the
    handler, with the mutable state the mutator left; the handler returns
    nil, appends no transfer task and no timer task.  An error of the
    mutator that is not a BadRequest error is returned as it is and the
    timer builder is left alone. *)
Theorem start_timer_registers_user_timer (d : Decision.t)
  (handler handler1 : handlerImpl) :
  Decision.GetDecisionType d = DecisionTypeStartTimer ->
  prepared d handler = Some handler1 ->
  match
    AddTimerStartedEvent (decisionTaskCompletedID handler)
      (Decision.StartTimerDecisionAttributes d) (mutableState handler1)
  with
  | (Ok (_, ti), ms) =>
      handle d handler =
      (Returns None,
       set_timerBuilder (AddUserTimer ti ms (timerBuilder handler))
         (set_mutableState ms handler1)) /\
      transferTasks handler1 = transferTasks handler /\
      timerTasks handler1 = timerTasks handler
  | (Error err, ms) =>
      isBadRequestError err = false ->
      handle d handler = (Returns (Some err), set_mutableState ms handler1)
  end.
Proof.
  intros Hty Hp.
  unfold prepared, passesValidation, validationOf in Hp.
  unfold handleDecision, counted in *.
  rewrite Hty in *.
  destruct (validateTimerScheduleAttributes _ _) eqn:Hval;
    [discriminate Hp|].
  destruct (stopProcessing handler) eqn:Hstop; [discriminate Hp|].
  simpl in Hp. injection Hp as <-. simpl.
  unfold handleDecisionStartTimer, validateDecisionAttr, IncCounter.
  simpl. rewrite Hval. simpl. rewrite Hstop. simpl.
  destruct (AddTimerStartedEvent _ _ _) as [[[ev ti]|[m|m|m]] ms]; simpl;
    try (intros Hbad; try discriminate Hbad); auto.
Qed.

(** X17.  A CancelTimer decision that is past validation.  When the mutator
    succeeds, the handler drops its timer builder, takes a new one from the
    provider and loads the user timers of the mutable state into it, and it
    reads the flag of unhandled events anew from the mutable state (the
    cancelled timer may have had its fired event in the buffer).  When the
    timer is unknown, which the mutator answers with a BadRequest error, the
    decision does not fail: the handler records a cancel-timer-failed event
    and returns what that mutator returns; timer builder and flag are left
    alone.  Any other error is returned as it is. *)
Theorem cancel_timer_rebuilds_timer_builder (d : Decision.t)
  (handler handler1 : handlerImpl) :
  Decision.GetDecisionType d = DecisionTypeCancelTimer ->
  prepared d handler = Some handler1 ->
  let attr := Decision.CancelTimerDecisionAttributes d in
  match
    AddTimerCanceledEvent (decisionTaskCompletedID handler) attr
      (identity handler) (mutableState handler1)
  with
  | (Ok _, ms) =>
      handle d handler =
      (Returns None,
       set_hasUnhandledEventsBeforeDecisions (HasBufferedEvents ms)
         (set_timerBuilder
            (loadUserTimers ms (timerBuilderProvider handler tt))
            (set_mutableState ms handler1)))
  | (Error (BadRequestError _), ms) =>
      match
        AddCancelTimerFailedEvent (decisionTaskCompletedID handler) attr
          (identity handler) ms
      with
      | (Ok _, ms') =>
          handle d handler = (Returns None, set_mutableState ms' handler1)
      | (Error err, ms') =>
          handle d handler =
          (Returns (Some err), set_mutableState ms' handler1)
      end
  | (Error err, ms) =>
      handle d handler = (Returns (Some err), set_mutableState ms handler1)
  end.
Proof.
  intros Hty Hp attr. subst attr.
  unfold prepared, passesValidation, validationOf in Hp.
  unfold handleDecision, counted in *.
  rewrite Hty in *.
  destruct (validateTimerCancelAttributes _ _) eqn:Hval;
    [discriminate Hp|].
  destruct (stopProcessing handler) eqn:Hstop; [discriminate Hp|].
  simpl in Hp. injection Hp as <-. simpl.
  unfold handleDecisionCancelTimer, validateDecisionAttr, IncCounter.
  simpl. rewrite Hval. simpl. rewrite Hstop. simpl.
  destruct (AddTimerCanceledEvent _ _ _ _) as [[ev|[m|m|m]] ms]; simpl;
    try reflexivity.
  destruct (AddCancelTimerFailedEvent _ _ _ _) as [[ev'|e] ms'];
    reflexivity.
Qed.

(** X18.  A CancelWorkflow decision that is past validation, on a running
    workflow.  The handler adds the workflow-canceled event and returns what
    the mutator returns: an error of the mutator reaches the caller as it is
    (for CompleteWorkflow and FailWorkflow it is replaced).  Neither the
    retry backoff nor the cron backoff is consulted, so a cancelled workflow
    never continues as new: the continue-as-new builder is left alone. *)
Theorem cancel_workflow_never_continues_as_new (d : Decision.t)
  (handler handler1 : handlerImpl) :
  Decision.GetDecisionType d = DecisionTypeCancelWorkflowExecution ->
  prepared d handler = Some handler1 ->
  IsWorkflowExecutionRunning (mutableState handler1) = true ->
  match
    AddWorkflowExecutionCanceledEvent (decisionTaskCompletedID handler)
      (Decision.CancelWorkflowExecutionDecisionAttributes d)
      (mutableState handler1)
  with
  | (Ok _, ms) =>
      handle d handler = (Returns None, set_mutableState ms handler1)
  | (Error err, ms) =>
      handle d handler = (Returns (Some err), set_mutableState ms handler1)
  end /\
  continueAsNewBuilder (snd (handle d handler)) =
    continueAsNewBuilder handler.
Proof.
  intros Hty Hp Hrun.
  unfold prepared, passesValidation, validationOf in Hp.
  unfold handleDecision, counted in *.
  rewrite Hty in *.
  destruct (hasUnhandledEventsBeforeDecisions handler) eqn:Hflag;
    [discriminate Hp|].
  destruct (validateCancelWorkflowExecutionAttributes _ _) eqn:Hval;
    [discriminate Hp|].
  destruct (stopProcessing handler) eqn:Hstop; [discriminate Hp|].
  simpl in Hp. injection Hp as <-. simpl in *.
  unfold handleDecisionCancelWorkflow, validateDecisionAttr, IncCounter.
  simpl. rewrite Hflag, Hval. simpl. rewrite Hstop. simpl.
  rewrite Hrun. simpl.
  destruct (AddWorkflowExecutionCanceledEvent _ _ _) as [[ev|e] ms];
    split; reflexivity.
Qed.

(** X19.  A RecordMarker decision that is past its checks.  The handler adds
    the marker-recorded event and returns what the mutator returns.  The
    clause does not ask whether the workflow still runs, and it touches
    nothing but the mutable state. *)
Theorem record_marker_returns_mutator_result (d : Decision.t)
  (handler handler1 : handlerImpl) :
  Decision.GetDecisionType d = DecisionTypeRecordMarker ->
  prepared d handler = Some handler1 ->
  match
    AddRecordMarkerEvent (decisionTaskCompletedID handler)
      (Decision.RecordMarkerDecisionAttributes d) (mutableState handler1)
  with
  | (Ok _, ms) =>
      handle d handler = (Returns None, set_mutableState ms handler1)
  | (Error err, ms) =>
      handle d handler = (Returns (Some err), set_mutableState ms handler1)
  end.
Proof.
  intros Hty Hp.
  unfold prepared, passesValidation, validationOf, checkedPayload in Hp.
  unfold handleDecision, counted in *.
  rewrite Hty in *.
  destruct (validateRecordMarkerAttributes _ _) eqn:Hval;
    [discriminate Hp|].
  destruct (stopProcessing handler) eqn:Hstop; [discriminate Hp|].
  simpl in Hp.
  destruct (Decision.RecordMarkerDecisionAttributes d) as [a|] eqn:Ha;
    [|discriminate Hp].
  simpl in Hp.
  destruct (failWorkflowIfBlobSizeExceedsLimit _ _ _ _)
    as [[[|] [err|]] ms1] eqn:Hc; try discriminate Hp.
  injection Hp as <-. simpl.
  unfold handleDecisionRecordMarker, validateDecisionAttr, IncCounter.
  simpl. rewrite Hval. simpl. rewrite Hstop. simpl. rewrite Hc. simpl.
  destruct (AddRecordMarkerEvent _ _ _) as [[ev|e] ms]; reflexivity.
Qed.

(** X20.  An error of the blob-size checker ends the batch.  When the
    checker returns an error for the payload of a decision that passed
    validation, the clause sets [stopProcessing] and returns that error; the
    state mutator of the decision is not called (the mutable state is the
    one the checker left) and no fail-decision is recorded, so the batch
    ends with [stopProcessing] set, an error and no verdict. *)
Theorem blob_checker_error_stops_the_batch (d : Decision.t)
  (ds : list Decision.t) (handler : handlerImpl)
  (payload : bytes) (message : string) (failWorkflow : bool)
  (err : error) (ms : MS) :
  passesValidation d handler = true ->
  checkedPayload d = Some (payload, message) ->
  failWorkflowIfBlobSizeExceedsLimit (sizeLimitChecker handler) payload
    message (mutableState handler) = ((failWorkflow, Some err), ms) ->
  let handler' := set_stopProcessing true
                    (set_mutableState ms (counted d handler)) in
  handleAll (d :: ds) handler = (Returns (Some err), handler') /\
  stopProcessing handler' = true /\
  mutableState handler' = ms /\
  failDecision handler' = failDecision handler /\
  transferTasks handler' = transferTasks handler.
Proof.
  intros Hv Hp Hc handler'. subst handler'.
  split.
  - simpl.
    rewrite (blob_check_trips uuid_New errorString secondsInt32
               d handler payload message failWorkflow (Some err) ms
               Hv Hp Hc eq_refl).
    reflexivity.
  - unfold counted.
    destruct (decisionCounter (Decision.GetDecisionType d)); simpl;
      repeat split; reflexivity.
Qed.

(** X21.  A FailWorkflow decision on the retry or cron path needs the start
    event of the run.  When the mutable state cannot load it, the handler
    returns an internal service error and applies nothing: no event is
    added, no next run is prepared and [stopProcessing] is not set. *)
Theorem fail_workflow_needs_start_event (d : Decision.t)
  (handler handler1 : handlerImpl)
  (a : FailWorkflowExecutionDecisionAttributes.t) :
  Decision.GetDecisionType d = DecisionTypeFailWorkflowExecution ->
  Decision.FailWorkflowExecutionDecisionAttributes d = Some a ->
  prepared d handler = Some handler1 ->
  IsWorkflowExecutionRunning (mutableState handler1) = true ->
  GetRetryBackoffDuration
    (getString (FailWorkflowExecutionDecisionAttributes.Reason a))
    (mutableState handler1) <> NoBackoff \/
  GetCronBackoffDuration (mutableState handler1) <> NoBackoff ->
  GetStartEvent (mutableState handler1) = None ->
  handle d handler =
  (Returns (Some (InternalServiceError "Failed to load start event.")),
   handler1).
Proof.
  intros Hty Ha Hp Hrun Hpath Hstart.
  rewrite (fail_workflow_applied uuid_New errorString secondsInt32
             d handler handler1 a Hty Ha Hp Hrun).
  cbv zeta. rewrite Hstart.
  destruct (GetRetryBackoffDuration _ _ =? NoBackoff) eqn:Hretry.
  - destruct (GetCronBackoffDuration _ =? NoBackoff) eqn:Hcron;
      [|reflexivity].
    apply Z.eqb_eq in Hretry. apply Z.eqb_eq in Hcron.
    destruct Hpath; congruence.
  - rewrite Hretry. reflexivity.
Qed.

End HandlerBehaviour.

(** ** The reference mutable state keeps the contract *)

Lemma Ref_quiet (ms ms' : Ref.state) (evs : list HistoryEvent.t) :
  Ref.history ms' = Ref.history ms ++ evs ->
  completionEvents evs = 0%nat ->
  (Ref.running ms = false -> Ref.running ms' = false) ->
  quietStep ms ms'.
Proof.
  intros A C R. split; [|exact R]. exists evs. split; assumption.
Qed.

(** Settle a goal [quietStep ms ms'] of the reference state by the events
    that [ms'] has on top of [ms]. *)
Ltac ref_quiet :=
  first
    [ apply quietStep_refl
    | apply Ref_quiet with (evs := []);
      [simpl; now rewrite app_nil_r | reflexivity | simpl; auto]
    | eapply Ref_quiet; [simpl; reflexivity | reflexivity | simpl; auto] ].

Ltac ref_cases :=
  intros; simpl;
  unfold Ref.addActivityTaskScheduledEvent,
    Ref.addActivityTaskCancelRequestedEvent,
    Ref.addActivityTaskCanceledEvent, Ref.addTimerStartedEvent,
    Ref.addTimerCanceledEvent, Ref.addContinueAsNewEvent, Ref.recorded,
    Ref.initiated, Ref.closeWith, Ref.append;
  repeat (step; simpl).

Lemma Ref_laws : @MutableStateLaws Ref.state _ _.
Proof.
  constructor.
  all: try (ref_cases; ref_quiet).
  all: intros; simpl;
    unfold closingStep, Ref.addContinueAsNewEvent, Ref.closeWith, Ref.append;
    repeat (step; simpl);
    try exact I;
    try (repeat split; reflexivity).
  all: exists (@nil HistoryEvent.t).
  all: split; [unfold appended; simpl; now rewrite app_nil_r|cbv; lia].
Qed.

(** * The handler at work on the reference workflow *)

Local Abbreviation refHandle :=
  (handleDecision (Ref.uuids "a-") Ref.errorText Ref.wholeSeconds).
Local Abbreviation refHandleAll :=
  (handleDecisions (Ref.uuids "a-") Ref.errorText Ref.wholeSeconds).

(** Witness of C1: a workflow with a pending timer [t] and a buffered
    signal.  The batch cancels the timer twice and then completes the
    workflow: the first cancellation succeeds and reads the flag anew (the
    signal is still buffered), the second is answered with a
    cancel-failed event and leaves the flag, and the completion is
    rejected. *)
Lemma unhandled_events_reject_terminal_decision_witness :
  let handler :=
    Ref.handlerOn (Ref.withBuffered [Ref.signaled] Cases.timerWorkflow) in
  let pre := [Ref.cancelTimer "t"; Ref.cancelTimer "t"] in
  let d := Ref.completeWorkflow [x01] in
  let post := [Ref.failWorkflow "boom" []] in
  let handler1 := snd (refHandleAll pre handler) in
  let verdict :=
    failedWith DecisionTaskFailedCauseUnhandledDecision ""
      (counted d handler1) in
  refHandleAll (pre ++ d :: post) handler = (Returns None, verdict) /\
  failDecision verdict = true /\
  failDecisionCause verdict = Some DecisionTaskFailedCauseUnhandledDecision /\
  failMessage verdict = Some ""%string /\
  stopProcessing verdict = true /\
  mutableState verdict = mutableState handler1 /\
  continueAsNewBuilder verdict = continueAsNewBuilder handler1 /\
  transferTasks verdict = transferTasks handler1 /\
  exists evs,
    GetHistory (mutableState verdict) =
    GetHistory (mutableState handler) ++ evs /\
    completionEvents evs = 0%nat.
Proof.
  intros handler pre d post handler1 verdict.
  unshelve epose proof
    (unhandled_events_reject_terminal_decision (laws := Ref_laws)
       (Ref.uuids "a-") Ref.errorText Ref.wholeSeconds
       pre post d handler handler1 _ _ _) as W;
    [vm_compute; reflexivity | vm_compute; reflexivity
    | vm_compute; reflexivity | ].
  destruct W as [W _]. cbv zeta in W.
  assert (Hflag : hasUnhandledEventsBeforeDecisions handler1 = true)
    by (vm_compute; reflexivity).
  destruct (W Hflag) as (R & F1 & F2 & F3 & F4 & F5 & F6 & F7 & Hev).
  split; [exact R|]. split; [exact F1|]. split; [exact F2|].
  split; [exact F3|]. split; [exact F4|]. split; [exact F5|].
  split; [exact F6|]. split; [exact F7|].
  apply Hev.
  - apply (newDecisionBlobSizeChecker_quiet (laws := Ref_laws) 4 8).
  - repeat constructor.
Defined.

(** Counterexample to C1 as stated.  (1) A workflow on the cron path,
    with a buffered event at the start of the batch, that completes: the
    batch is rejected like any other, nothing continues as new.  (2) A
    workflow whose only buffered event is the firing of timer [t]: the
    batch cancels the timer, which consumes the buffered event and
    refreshes the flag, and then completes the workflow; the verdict is
    not a fail-decision and the completion event is appended. *)
Lemma terminal_decision_after_buffered_events_counterexample :
  (let ms := Ref.withBuffered [Ref.signaled] Ref.cronWorkflow in
   let out := refHandleAll [Ref.completeWorkflow [x01]] (Ref.handlerOn ms) in
   HasBufferedEvents ms = true /\
   GetCronBackoffDuration ms <> NoBackoff /\
   failDecision (snd out) = true /\
   failDecisionCause (snd out) =
     Some DecisionTaskFailedCauseUnhandledDecision /\
   continueAsNewBuilder (snd out) = None) /\
  (let ms := Ref.withBuffered [Ref.timerFired "t"] Ref.workflow in
   let out :=
     refHandleAll [Ref.cancelTimer "t"; Ref.completeWorkflow [x01]]
       (Ref.handlerOn ms) in
   HasBufferedEvents ms = true /\
   GetCronBackoffDuration ms = NoBackoff /\
   fst out = Returns None /\
   failDecision (snd out) = false /\
   map HistoryEvent.EventType (GetHistory (mutableState (snd out))) =
     [Some EventTypeWorkflowExecutionStarted;
      Some EventTypeTimerCanceled;
      Some EventTypeWorkflowExecutionCompleted]).
Proof.
  split; vm_compute; repeat split; try reflexivity; discriminate.
Qed.



(** Witness of C3: a CompleteWorkflow decision without attributes, which
    the validator answers with a BadRequest error. *)
Lemma bad_request_becomes_fail_decision_witness :
  let handler := Ref.handlerOn Ref.workflow in
  let d := Ref.bare DecisionTypeCompleteWorkflowExecution in
  refHandle d handler =
  (Returns None,
   failedWith DecisionTaskFailedCauseBadCompleteWorkflowExecutionAttributes
     "BadRequestError{Message: CompleteWorkflowExecutionDecisionAttributes is not set on decision.}"
     (counted d handler)).
Proof.
  intros handler d.
  apply (proj1 (bad_request_becomes_fail_decision
                  (Ref.uuids "a-") Ref.errorText Ref.wholeSeconds d handler)
           "CompleteWorkflowExecutionDecisionAttributes is not set on decision."
           DecisionTaskFailedCauseBadCompleteWorkflowExecutionAttributes).
  reflexivity.
Defined.

(** Counterexample to C3 as stated.  (1) The mutator of a
    RequestCancelActivity decision answers with a BadRequest error (the
    activity is unknown): the handler records no fail-decision verdict and
    does not stop; it appends a cancel-failed event.  (2) A decision of an
    unknown type: the handler returns a BadRequest error to its caller. *)
Lemma bad_request_not_always_fail_decision_counterexample :
  (let handler := Ref.handlerOn Ref.workflow in
   let out := refHandleAll [Ref.requestCancelActivity "zz"] handler in
   fst (AddActivityTaskCancelRequestedEvent 4 "zz" "decider" Ref.workflow) =
     Error (BadRequestError "unknown activity id") /\
   fst out = Returns None /\
   failDecision (snd out) = false /\
   stopProcessing (snd out) = false /\
   map HistoryEvent.EventType (GetHistory (mutableState (snd out))) =
     [Some EventTypeWorkflowExecutionStarted;
      Some EventTypeRequestCancelActivityTaskFailed]) /\
  (let handler := Ref.handlerOn Ref.workflow in
   refHandleAll [Ref.bare (DecisionTypeOther 99)] handler =
   (Returns
      (Some (BadRequestError
               ("Unknown decision type: " ++
                DecisionType_String (DecisionTypeOther 99)))),
    handler)).
Proof.
  split; vm_compute; repeat split; reflexivity.
Qed.

(** Witness of C4: one activity scheduled on the workflow's own domain. *)
Lemma schedule_activity_emits_one_transfer_task_witness :
  let handler := Ref.handlerOn Ref.workflow in
  let d := Ref.scheduleActivity "a" "tl" [x01] in
  exists handler',
    refHandle d handler = (Returns None, handler') /\
    transferTasks handler' =
      transferTasks handler ++ [ActivityTask "domain-id-1" "tl" 5] /\
    mutableState handler' =
      snd (AddActivityTaskScheduledEvent 4
             (Decision.ScheduleActivityTaskDecisionAttributes d)
             Ref.workflow) /\
    failDecision handler' = false.
Proof.
  intros handler d.
  unshelve epose proof
    (schedule_activity_emits_one_transfer_task
       (Ref.uuids "a-") Ref.errorText Ref.wholeSeconds
       d handler (counted d handler) _ "domain-id-1" _ _ _ _) as W.
  5: reflexivity.
  all: try reflexivity.
  destruct W as [W _].
  exact (W _ _ _ eq_refl).
Defined.

(** Witness of C5: FailWorkflow on a workflow whose retry policy backs
    off for one second. *)
Lemma fail_workflow_retry_then_cron_witness :
  let handler := Ref.handlerOn Ref.retryingWorkflow in
  let d := Ref.failWorkflow "boom" [x01] in
  exists attrs,
    refHandle d handler =
      continuedAsNew "" attrs (counted d handler) /\
    ContinueAsNewWorkflowExecutionDecisionAttributes.Initiator attrs =
      Some ContinueAsNewInitiatorRetryPolicy /\
    ContinueAsNewWorkflowExecutionDecisionAttributes.BackoffStartIntervalInSeconds
      attrs = Some 1 /\
    ContinueAsNewWorkflowExecutionDecisionAttributes.FailureReason attrs =
      Some "boom"%string /\
    ContinueAsNewWorkflowExecutionDecisionAttributes.FailureDetails attrs =
      [x01].
Proof.
  intros handler d.
  unshelve epose proof
    (fail_workflow_retry_then_cron
       (Ref.uuids "a-") Ref.errorText Ref.wholeSeconds
       d handler (counted d handler)
       {| FailWorkflowExecutionDecisionAttributes.Reason :=
            Some "boom"%string;
          FailWorkflowExecutionDecisionAttributes.Details := [x01] |}
       _ _ _ _) as W;
    [reflexivity | reflexivity | reflexivity | reflexivity | ].
  cbv zeta in W. destruct W as (_ & W & _).
  destruct (W Ref.started Ref.startAttributes eq_refl eq_refl) as [W1 _].
  destruct W1 as (attrs & E & I & B & R & D & _).
  - vm_compute. discriminate.
  - exists attrs.
    split; [exact E|]. split; [exact I|]. split; [exact B|].
    split; [exact R | exact D].
Defined.

(** Counterexample to C5 as stated: a FailWorkflow decision on a running
    workflow with no unhandled events, whose retry policy backs off, but
    whose start event cannot be loaded.  The handler returns an internal
    service error; there is no continue-as-new verdict and no event is
    appended. *)
Lemma fail_workflow_without_start_event_counterexample :
  let ms := Cases.lostStartWorkflow in
  let handler := Ref.handlerOn ms in
  let out := refHandle (Ref.failWorkflow "boom" [x01]) handler in
  IsWorkflowExecutionRunning ms = true /\
  hasUnhandledEventsBeforeDecisions handler = false /\
  GetRetryBackoffDuration "boom" ms <> NoBackoff /\
  fst out =
    Returns (Some (InternalServiceError "Failed to load start event.")) /\
  continueAsNewBuilder (snd out) = None /\
  GetHistory (mutableState (snd out)) = GetHistory ms.
Proof.
  vm_compute. repeat split; try reflexivity; discriminate.
Qed.

(** Witness of C6: two completions in one batch; the first is honored,
    the second skipped and counted, and the batch has appended exactly
    one completion-type event. *)
Lemma at_most_one_completion_event_witness :
  let handler := Ref.handlerOn Ref.workflow in
  let ds := [Ref.completeWorkflow [x01]; Ref.completeWorkflow [x02]] in
  let first := snd (refHandle (Ref.completeWorkflow [x01]) handler) in
  (exists evs,
     GetHistory (mutableState (snd (refHandleAll ds handler))) =
     GetHistory (mutableState handler) ++ evs /\
     (completionEvents evs <= 1)%nat /\
     (IsWorkflowExecutionRunning (mutableState handler) = false ->
      completionEvents evs = 0%nat)) /\
  (exists skipped,
     refHandleAll ds handler = (Returns None, skipped) /\
     counterValue MultipleCompletionDecisionsCounter
       (metricsClient skipped) = 1%nat /\
     mutableState skipped = mutableState first /\
     failDecision skipped = false) /\
  (exists evs,
     GetHistory (mutableState (snd (refHandleAll ds handler))) =
     GetHistory (mutableState handler) ++ evs /\
     completionEvents evs = 1%nat).
Proof.
  intros handler ds first.
  destruct (at_most_one_completion_event (laws := Ref_laws)
              (Ref.uuids "a-") Ref.errorText Ref.wholeSeconds
              ds handler
              (newDecisionBlobSizeChecker_quiet (laws := Ref_laws) 4 8))
    as [A B].
  split; [exact A|]. split.
  - destruct (B [Ref.completeWorkflow [x01]] [] (Ref.completeWorkflow [x02])
                first eq_refl)
      as [Skip _];
      [vm_compute; reflexivity | vm_compute; reflexivity | reflexivity | ].
    edestruct (Skip (counted (Ref.completeWorkflow [x02]) first))
      as (_ & E & Cn & _ & M & _ & F & _);
      [vm_compute; reflexivity | vm_compute; reflexivity | ].
    eexists. split; [exact E|].
    split; [rewrite Cn; vm_compute; reflexivity|].
    split; [exact (M 4 8 eq_refl) | rewrite F; reflexivity].
  - destruct (B [] [Ref.completeWorkflow [x02]] (Ref.completeWorkflow [x01])
                handler eq_refl)
      as (_ & _ & Honored);
      [reflexivity | reflexivity | reflexivity | ].
    edestruct (Honored (counted (Ref.completeWorkflow [x01]) handler))
      as (ev & _ & _ & _ & One);
      [vm_compute; reflexivity | vm_compute; reflexivity
      | vm_compute; reflexivity | ].
    apply One. constructor.
Defined.

(** Counterexample to C6 as stated: a completion followed by a
    CompleteWorkflow decision without attributes.  When the second
    decision is reached the workflow no longer runs, yet the decision is
    not skipped: its validator answers with a BadRequest error, the batch
    ends with a fail-decision verdict, and the multiple-completion
    counter stays at zero. *)
Lemma later_terminal_decision_not_skipped_counterexample :
  let handler := Ref.handlerOn Ref.workflow in
  let first := snd (refHandle (Ref.completeWorkflow [x01]) handler) in
  let out :=
    refHandleAll
      [Ref.completeWorkflow [x01];
       Ref.bare DecisionTypeCompleteWorkflowExecution] handler in
  IsWorkflowExecutionRunning (mutableState first) = false /\
  fst out = Returns None /\
  failDecision (snd out) = true /\
  failDecisionCause (snd out) =
    Some DecisionTaskFailedCauseBadCompleteWorkflowExecutionAttributes /\
  counterValue MultipleCompletionDecisionsCounter
    (metricsClient (snd out)) = 0%nat.
Proof.
  vm_compute. repeat split; reflexivity.
Qed.

(** The second completion of that batch, seen by itself: the counter of
    multiple completions goes from 0 to 1 and the history stays. *)
Lemma second_completion_skipped :
  let handler := Ref.handlerOn Ref.workflow in
  let first := snd (refHandle (Ref.completeWorkflow [x01]) handler) in
  let second := snd (refHandle (Ref.completeWorkflow [x02]) first) in
  counterValue MultipleCompletionDecisionsCounter (metricsClient first) =
    0%nat /\
  counterValue MultipleCompletionDecisionsCounter (metricsClient second) =
    1%nat /\
  GetHistory (mutableState second) = GetHistory (mutableState first) /\
  map HistoryEvent.EventType (GetHistory (mutableState second)) =
    [Some EventTypeWorkflowExecutionStarted;
     Some EventTypeWorkflowExecutionCompleted].
Proof. vm_compute. repeat split; reflexivity. Qed.

(** Witness of C7: an activity is scheduled, then a completion is refused
    because a signal is buffered. *)
Lemma fail_verdict_keeps_accumulated_tasks_witness :
  let handler := Ref.handlerOn (Ref.withBuffered [Ref.signaled] Ref.workflow) in
  let ds := [Ref.scheduleActivity "a" "tl" [x01]; Ref.completeWorkflow [x01]] in
  let handler' := snd (refHandleAll ds handler) in
  timerTasks handler' = timerTasks handler /\
  exists (pre post : list Decision.t) (d : Decision.t)
         (handler1 : decisionTaskHandlerImpl Ref.state Ref.timerBuilder),
    ds = pre ++ d :: post /\
    refHandleAll pre handler = (Returns None, handler1) /\
    failDecision handler1 = false /\
    refHandle d handler1 = (Returns None, handler') /\
    transferTasks handler' = transferTasks handler1.
Proof.
  intros handler ds handler'.
  apply (fail_verdict_keeps_accumulated_tasks
           (Ref.uuids "a-") Ref.errorText Ref.wholeSeconds
           ds handler handler' (Returns None)).
  - reflexivity.
  - vm_compute. reflexivity.
  - vm_compute. reflexivity.
Defined.

(** Counterexample to C7 as stated: the batch of the witness ends with a
    fail-decision verdict and one transfer task accumulated. *)
Lemma fail_verdict_with_transfer_task_counterexample :
  let handler := Ref.handlerOn (Ref.withBuffered [Ref.signaled] Ref.workflow) in
  let ds := [Ref.scheduleActivity "a" "tl" [x01]; Ref.completeWorkflow [x01]] in
  let out := refHandleAll ds handler in
  fst out = Returns None /\
  failDecision (snd out) = true /\
  failDecisionCause (snd out) =
    Some DecisionTaskFailedCauseUnhandledDecision /\
  transferTasks (snd out) = [ActivityTask "domain-id-1" "tl" 5] /\
  transferTasks (snd out) <> [].
Proof. vm_compute. repeat split; try reflexivity. discriminate. Qed.

(** C8.  The code at the failing input: a CancelWorkflow decision whose
    details have ten bytes, above the error limit of eight.  The clause
    hands no payload to the blob-size checker; the workflow is canceled
    with the oversize details and processing is not stopped.  A
    FailWorkflow decision with the same details ends the workflow with a
    termination event instead. *)
Theorem cancel_workflow_details_not_checked :
  let handler := Ref.handlerOn Ref.workflow in
  let canceled := refHandleAll [Ref.cancelWorkflow Ref.tenBytes] handler in
  let failed := refHandleAll [Ref.failWorkflow "boom" Ref.tenBytes] handler in
  checkedPayload (Ref.cancelWorkflow Ref.tenBytes) = None /\
  fst canceled = Returns None /\
  stopProcessing (snd canceled) = false /\
  GetHistory (mutableState (snd canceled)) =
    [Ref.started;
     {| HistoryEvent.EventId := Some 5;
        HistoryEvent.EventType := Some EventTypeWorkflowExecutionCanceled;
        HistoryEvent.Attributes := ClosedAttributes "" Ref.tenBytes |}] /\
  fst failed = Returns None /\
  stopProcessing (snd failed) = true /\
  map HistoryEvent.EventType (GetHistory (mutableState (snd failed))) =
    [Some EventTypeWorkflowExecutionStarted;
     Some EventTypeWorkflowExecutionTerminated].
Proof. vm_compute. repeat split; reflexivity. Qed.



(** Witness of C10: the continue-as-new of the retrying workflow; the
    last completion result is the one of the start event. *)
Lemma fail_workflow_continue_as_new_attributes_witness :
  let handler := Ref.handlerOn Ref.retryingWorkflow in
  let d := Ref.failWorkflow "boom" [x01] in
  refHandle d handler =
  continuedAsNew ""
    {|
      ContinueAsNewWorkflowExecutionDecisionAttributes.WorkflowType :=
        Some {| WorkflowType.Name := Some "order" |};
      ContinueAsNewWorkflowExecutionDecisionAttributes.TaskList :=
        Some {| TaskList.Name := Some "tl" |};
      ContinueAsNewWorkflowExecutionDecisionAttributes.Input := [x01];
      ContinueAsNewWorkflowExecutionDecisionAttributes.ExecutionStartToCloseTimeoutSeconds :=
        Some 3600;
      ContinueAsNewWorkflowExecutionDecisionAttributes.TaskStartToCloseTimeoutSeconds :=
        Some 10;
      ContinueAsNewWorkflowExecutionDecisionAttributes.BackoffStartIntervalInSeconds :=
        Some 1;
      ContinueAsNewWorkflowExecutionDecisionAttributes.RetryPolicy := None;
      ContinueAsNewWorkflowExecutionDecisionAttributes.Initiator :=
        Some ContinueAsNewInitiatorRetryPolicy;
      ContinueAsNewWorkflowExecutionDecisionAttributes.FailureReason :=
        Some "boom"%string;
      ContinueAsNewWorkflowExecutionDecisionAttributes.FailureDetails :=
        [x01];
      ContinueAsNewWorkflowExecutionDecisionAttributes.LastCompletionResult :=
        [x07; x08];
      ContinueAsNewWorkflowExecutionDecisionAttributes.CronSchedule := None
    |}
    (counted d handler).
Proof.
  intros handler d.
  pose proof (fail_workflow_continue_as_new_attributes
                (Ref.uuids "a-") Ref.errorText Ref.wholeSeconds
                d handler (counted d handler)
                {| FailWorkflowExecutionDecisionAttributes.Reason :=
                     Some "boom"%string;
                   FailWorkflowExecutionDecisionAttributes.Details := [x01] |}
                Ref.started Ref.startAttributes) as W.
  simpl in W. apply W; try reflexivity.
  left. vm_compute. discriminate.
Defined.

(** * More of the handler at work on the reference workflow *)

(** Witness of X1: a batch of three: an activity is scheduled, a
    CompleteWorkflow decision without attributes fails validation and stops
    the batch, and the timer after it is never started. *)
Lemma batch_handled_front_to_back_witness :
  let handler := Ref.handlerOn Ref.workflow in
  let pre := [Ref.scheduleActivity "a" "tl" [x01]] in
  let post := [Cases.startTimer "t" 30] in
  let handler1 := snd (refHandleAll pre handler) in
  let d := Ref.bare DecisionTypeCompleteWorkflowExecution in
  refHandleAll (pre ++ post) handler = refHandleAll post handler1 /\
  refHandleAll (pre ++ d :: post) handler = refHandle d handler1 /\
  failDecision (snd (refHandle d handler1)) = true.
Proof.
  intros handler pre post handler1 d.
  destruct (batch_handled_front_to_back
              (Ref.uuids "a-") Ref.errorText Ref.wholeSeconds
              pre post handler handler1) as [A B].
  - vm_compute. reflexivity.
  - vm_compute. reflexivity.
  - split; [exact A|]. split; [|vm_compute; reflexivity].
    rewrite (B d (fst (refHandle d handler1)) (snd (refHandle d handler1))).
    + now destruct (refHandle d handler1).
    + now destruct (refHandle d handler1).
    + right. vm_compute. reflexivity.
Defined.



(** Witness of X8: a StartTimer decision meets a validator that is out of
    order. *)
Lemma validator_failure_is_returned_witness :
  let err := InternalServiceError "validator is down" in
  let handler := Cases.handlerWith (Cases.failingValidator err) Ref.workflow in
  let d := Cases.startTimer "t" 30 in
  refHandle d handler = (Returns (Some err), counted d handler) /\
  failDecision (counted d handler) = false /\
  stopProcessing (counted d handler) = false.
Proof.
  intros err handler d.
  split; [|split; reflexivity].
  apply (validator_failure_is_returned
           (Ref.uuids "a-") Ref.errorText Ref.wholeSeconds
           d handler err DecisionTaskFailedCauseBadStartTimerAttributes);
    reflexivity.
Defined.

(** Witness of X9: a child workflow is to be started in a domain nobody has
    registered. *)
Lemma unresolved_domain_is_internal_error_witness :
  let handler := Ref.handlerOn Ref.workflow in
  let d := Cases.startChild (Some "nowhere") "child-1" [x01] in
  refHandle d handler =
  (Returns
     (Some (InternalServiceError
              "Unable to schedule child execution across domain nowhere.")),
   counted d handler).
Proof.
  intros handler d.
  destruct (unresolved_domain_is_internal_error
              (Ref.uuids "a-") Ref.errorText Ref.wholeSeconds
              d handler eq_refl eq_refl) as (message & W & M).
  simpl in M. rewrite M in W. exact W.
Defined.

(** Witness of X20: an activity with an input of ten bytes is scheduled on a
    workflow that is closed: the checker wants to terminate the workflow,
    the mutator refuses, and the error of the mutator ends the batch. *)
Lemma blob_checker_error_stops_the_batch_witness :
  let handler := Ref.handlerOn Cases.closedWorkflow in
  let d := Ref.scheduleActivity "a" "tl" Ref.tenBytes in
  let err := InternalServiceError "workflow execution already completed" in
  fst (refHandleAll [d; Cases.startTimer "t" 30] handler) =
    Returns (Some err) /\
  stopProcessing (snd (refHandleAll [d; Cases.startTimer "t" 30] handler)) =
    true /\
  failDecision (snd (refHandleAll [d; Cases.startTimer "t" 30] handler)) =
    false.
Proof.
  intros handler d err.
  destruct (blob_checker_error_stops_the_batch
              (Ref.uuids "a-") Ref.errorText Ref.wholeSeconds
              d [Cases.startTimer "t" 30] handler Ref.tenBytes
              "ScheduleActivityTaskDecisionAttributes.Input exceeds size limit."
              false err Cases.closedWorkflow
              eq_refl eq_refl eq_refl) as (W & S & _ & F & _).
  rewrite W. simpl. split; [reflexivity|]. split; reflexivity.
Defined.

(** Witness of X3: a new handler on the reference workflow; the second
    decision of the batch fails validation. *)
Lemma new_handler_verdict_is_consistent_witness :
  let ds := [Ref.scheduleActivity "a" "tl" [x01];
             Ref.bare DecisionTypeCompleteWorkflowExecution;
             Cases.startTimer "t" 30] in
  let out := refHandleAll ds (Ref.handlerOn Ref.workflow) in
  fst out = Returns None /\
  stopProcessing (snd out) = true /\
  (exists cause, failDecisionCause (snd out) = Some cause) /\
  (exists message, failMessage (snd out) = Some message).
Proof.
  intros ds out.
  apply (new_handler_verdict_is_consistent
           (Ref.uuids "a-") Ref.errorText Ref.wholeSeconds
           "decider" 4 0 {| GetInfo := Ref.ownDomain |} Ref.workflow
           (Ref.newDecisionAttrValidator (Ref.liveTimerIDs Ref.workflow))
           (newDecisionBlobSizeChecker 4 8) [] (fun _ => [])
           (Ref.newDomainCache [Ref.ownDomain; Ref.otherDomain]) [] ds).
  vm_compute. reflexivity.
Defined.

(** Witness of X4: an activity, a signal to another workflow and a marker:
    two transfer tasks. *)
Lemma transfer_tasks_are_append_only_witness :
  let ds := [Ref.scheduleActivity "a" "tl" [x01];
             Cases.signalExternal None "w2" "r2" [x01];
             Cases.recordMarker "m" [x01]] in
  let handler := Ref.handlerOn Ref.workflow in
  exists new : list Task,
    transferTasks (snd (refHandleAll ds handler)) = new /\
    List.length new = 2%nat.
Proof.
  intros ds handler.
  destruct (transfer_tasks_are_append_only
              (Ref.uuids "a-") Ref.errorText Ref.wholeSeconds ds handler)
    as (new & A & _ & E).
  exists new. split; [exact A|].
  rewrite E; vm_compute; reflexivity.
Defined.

(** Witness of X7: a batch of an activity and a marker leaves the timer
    builder, the flags and the continue-as-new builder alone. *)
Lemma decisions_touch_only_their_fields_witness :
  let ds := [Ref.scheduleActivity "a" "tl" [x01];
             Cases.recordMarker "m" [x01]] in
  let handler := Ref.handlerOn Ref.workflow in
  let handler' := snd (refHandleAll ds handler) in
  timerTasks handler' = timerTasks handler /\
  timerBuilder handler' = timerBuilder handler /\
  hasUnhandledEventsBeforeDecisions handler' =
    hasUnhandledEventsBeforeDecisions handler /\
  activityNotStartedCancelled handler' =
    activityNotStartedCancelled handler /\
  continueAsNewBuilder handler' = continueAsNewBuilder handler.
Proof.
  intros ds handler handler'.
  destruct (decisions_touch_only_their_fields
              (Ref.uuids "a-") Ref.errorText Ref.wholeSeconds ds handler)
    as (A & B & C & D & E & _).
  split; [exact A|].
  split; [apply B|split; [apply C|split; [apply D|apply E]]];
    repeat constructor; simpl; intuition discriminate.
Defined.


(** Witness of X10: a cron workflow completes with the result [[x05]]: the
    run continues as new with that result as last completion result. *)
Lemma complete_workflow_completes_or_continues_witness :
  let handler := Ref.handlerOn Ref.cronWorkflow in
  let d := Ref.completeWorkflow [x05] in
  exists attrs,
    refHandle d handler = continuedAsNew "" attrs (counted d handler) /\
    ContinueAsNewWorkflowExecutionDecisionAttributes.Initiator attrs =
      Some ContinueAsNewInitiatorCronSchedule /\
    ContinueAsNewWorkflowExecutionDecisionAttributes.BackoffStartIntervalInSeconds
      attrs = Some 60 /\
    ContinueAsNewWorkflowExecutionDecisionAttributes.LastCompletionResult
      attrs = [x05] /\
    ContinueAsNewWorkflowExecutionDecisionAttributes.FailureReason attrs =
      None.
Proof.
  intros handler d.
  unshelve epose proof
    (complete_workflow_completes_or_continues
       (Ref.uuids "a-") Ref.errorText Ref.wholeSeconds
       d handler (counted d handler)
       {| CompleteWorkflowExecutionDecisionAttributes.Result := [x05] |}
       _ _ _ _) as W;
    [reflexivity | reflexivity | reflexivity | reflexivity |].
  destruct W as (_ & _ & W).
  eexists. split.
  - apply (W Ref.started Ref.startAttributes);
      [vm_compute; discriminate | reflexivity | reflexivity].
  - simpl. repeat split; reflexivity.
Defined.

(** Witness of X11: an external workflow in the other domain is asked to
    cancel. *)
Lemma request_cancel_external_emits_one_transfer_task_witness :
  let handler := Ref.handlerOn Ref.workflow in
  let d := Cases.requestCancelExternalIn "other" "w2" "r2" in
  fst (refHandle d handler) = Returns None /\
  transferTasks (snd (refHandle d handler)) =
    [CancelExecutionTask "domain-id-2" "w2" "r2" true 5] /\
  map HistoryEvent.Attributes
    (GetHistory (mutableState (snd (refHandle d handler)))) =
    [StartedAttributes Ref.startAttributes; RequestedAttributes "a-0"].
Proof.
  intros handler d.
  unshelve epose proof
    (request_cancel_external_emits_one_transfer_task
       (Ref.uuids "a-") Ref.errorText Ref.wholeSeconds
       d handler (counted d handler) "domain-id-2" _ _ _) as W;
    [reflexivity | reflexivity | reflexivity | ].
  destruct W as (_ & W).
  simpl in W. destruct W as [W _]. rewrite W.
  repeat split; reflexivity.
Defined.

(** Witness of X12: an external workflow in the workflow's own domain is
    signalled. *)
Lemma signal_external_emits_one_transfer_task_witness :
  let handler := Ref.handlerOn Ref.workflow in
  let d := Cases.signalExternal None "w2" "r2" [x01] in
  fst (refHandle d handler) = Returns None /\
  transferTasks (snd (refHandle d handler)) =
    [SignalExecutionTask "domain-id-1" "w2" "r2" true 5].
Proof.
  intros handler d.
  unshelve epose proof
    (signal_external_emits_one_transfer_task
       (Ref.uuids "a-") Ref.errorText Ref.wholeSeconds
       d handler (counted d handler)
       (Cases.signalAttributes None "w2" "r2" [x01]) "domain-id-1"
       _ _ _ _) as W;
    [reflexivity | reflexivity | reflexivity | reflexivity |].
  simpl in W. destruct W as [W _]. rewrite W.
  split; reflexivity.
Defined.

(** Witness of X13: a child workflow is started in the other domain. *)
Lemma start_child_emits_one_transfer_task_witness :
  let handler := Ref.handlerOn Ref.workflow in
  let d := Cases.startChild (Some "other") "child-1" [x01] in
  fst (refHandle d handler) = Returns None /\
  transferTasks (snd (refHandle d handler)) =
    [StartChildExecutionTask "domain-id-2" "child-1" 5].
Proof.
  intros handler d.
  unshelve epose proof
    (start_child_emits_one_transfer_task
       (Ref.uuids "a-") Ref.errorText Ref.wholeSeconds
       d handler (counted d handler)
       (Cases.startChildAttributes (Some "other") "child-1" [x01])
       "domain-id-2" _ _ _ _) as W;
    [reflexivity | reflexivity | reflexivity | reflexivity |].
  simpl in W. destruct W as [W _]. rewrite W.
  split; reflexivity.
Defined.

(** Witness of X14: a workflow whose parent lives in the other domain
    continues as new: the name of that domain is handed to the mutator. *)
Lemma continue_as_new_passes_parent_domain_witness :
  let handler := Ref.handlerOn Cases.childWorkflow in
  let d := Cases.continueAsNew [x01] in
  refHandle d handler =
  continuedAsNew "other" (Cases.continueAsNewAttributes [x01])
    (counted d handler).
Proof.
  intros handler d.
  unshelve epose proof
    (continue_as_new_passes_parent_domain
       (Ref.uuids "a-") Ref.errorText Ref.wholeSeconds
       d handler (counted d handler)
       (Cases.continueAsNewAttributes [x01]) _ _ _ _) as W;
    [reflexivity | reflexivity | reflexivity | reflexivity |].
  destruct W as (_ & W & _).
  apply (W {| GetInfo := Ref.otherDomain |}); reflexivity.
Defined.

(** Witness of X15: the activity [a] is scheduled but not started when its
    cancellation is requested: it is cancelled on the spot. *)
Lemma request_cancel_activity_cancels_unstarted_witness :
  let handler := Ref.handlerOn Cases.activityWorkflow in
  let d := Ref.requestCancelActivity "a" in
  fst (refHandle d handler) = Returns None /\
  activityNotStartedCancelled (snd (refHandle d handler)) = true /\
  map HistoryEvent.EventType
    (GetHistory (mutableState (snd (refHandle d handler)))) =
    [Some EventTypeWorkflowExecutionStarted;
     Some EventTypeActivityTaskCancelRequested;
     Some EventTypeActivityTaskCanceled].
Proof.
  intros handler d.
  unshelve epose proof
    (request_cancel_activity_cancels_unstarted
       (Ref.uuids "a-") Ref.errorText Ref.wholeSeconds
       d handler (counted d handler) _ _) as W;
    [reflexivity | reflexivity | ].
  simpl in W. rewrite W. repeat split; reflexivity.
Defined.

(** Witness of X16: a timer of thirty seconds is started. *)
Lemma start_timer_registers_user_timer_witness :
  let handler := Ref.handlerOn Ref.workflow in
  let d := Cases.startTimer "t" 30 in
  fst (refHandle d handler) = Returns None /\
  timerBuilder (snd (refHandle d handler)) =
    [{| TimerInfo_TimerID := "t"; TimerInfo_StartedID := 5;
        TimerInfo_ExpirySeconds := 30 |}] /\
  transferTasks (snd (refHandle d handler)) = [] /\
  timerTasks (snd (refHandle d handler)) = [].
Proof.
  intros handler d.
  unshelve epose proof
    (start_timer_registers_user_timer
       (Ref.uuids "a-") Ref.errorText Ref.wholeSeconds
       d handler (counted d handler) _ _) as W;
    [reflexivity | reflexivity | ].
  simpl in W. destruct W as [W _]. rewrite W. repeat split; reflexivity.
Defined.

(** Witness of X17: the pending timer [t] is cancelled. *)
Lemma cancel_timer_rebuilds_timer_builder_witness :
  let handler := Ref.handlerOn Cases.timerWorkflow in
  let d := Ref.cancelTimer "t" in
  fst (refHandle d handler) = Returns None /\
  timerBuilder (snd (refHandle d handler)) = [] /\
  hasUnhandledEventsBeforeDecisions (snd (refHandle d handler)) = false.
Proof.
  intros handler d.
  unshelve epose proof
    (cancel_timer_rebuilds_timer_builder
       (Ref.uuids "a-") Ref.errorText Ref.wholeSeconds
       d handler (counted d handler) _ _) as W;
    [reflexivity | reflexivity | ].
  simpl in W. rewrite W. repeat split; reflexivity.
Defined.

(** Witness of X18: a cron workflow is cancelled: the canceled event is
    added and no next run is prepared. *)
Lemma cancel_workflow_never_continues_as_new_witness :
  let handler := Ref.handlerOn Ref.cronWorkflow in
  let d := Ref.cancelWorkflow [x01] in
  fst (refHandle d handler) = Returns None /\
  continueAsNewBuilder (snd (refHandle d handler)) = None /\
  map HistoryEvent.EventType
    (GetHistory (mutableState (snd (refHandle d handler)))) =
    [Some EventTypeWorkflowExecutionStarted;
     Some EventTypeWorkflowExecutionCanceled].
Proof.
  intros handler d.
  unshelve epose proof
    (cancel_workflow_never_continues_as_new
       (Ref.uuids "a-") Ref.errorText Ref.wholeSeconds
       d handler (counted d handler) _ _ _) as W;
    [reflexivity | reflexivity | reflexivity | ].
  destruct W as [W B].
  simpl in W. rewrite B. rewrite W. repeat split; reflexivity.
Defined.

(** Witness of X19: a marker is recorded on a workflow that is closed
    already. *)
Lemma record_marker_returns_mutator_result_witness :
  let handler := Ref.handlerOn Cases.closedWorkflow in
  let d := Cases.recordMarker "m" [x01] in
  fst (refHandle d handler) = Returns None /\
  map HistoryEvent.EventType
    (GetHistory (mutableState (snd (refHandle d handler)))) =
    [Some EventTypeWorkflowExecutionStarted; Some EventTypeMarkerRecorded].
Proof.
  intros handler d.
  unshelve epose proof
    (record_marker_returns_mutator_result
       (Ref.uuids "a-") Ref.errorText Ref.wholeSeconds
       d handler (counted d handler) _ _) as W;
    [reflexivity | reflexivity | ].
  simpl in W. rewrite W. split; reflexivity.
Defined.

(** Witness of X21: a retrying workflow whose start event is lost fails. *)
Lemma fail_workflow_needs_start_event_witness :
  let handler := Ref.handlerOn Cases.lostStartWorkflow in
  let d := Ref.failWorkflow "boom" [x01] in
  refHandle d handler =
  (Returns (Some (InternalServiceError "Failed to load start event.")),
   counted d handler).
Proof.
  intros handler d.
  apply (fail_workflow_needs_start_event
           (Ref.uuids "a-") Ref.errorText Ref.wholeSeconds
           d handler (counted d handler)
           {| FailWorkflowExecutionDecisionAttributes.Reason :=
                Some "boom"%string;
              FailWorkflowExecutionDecisionAttributes.Details := [x01] |});
    try reflexivity.
  left. vm_compute. discriminate.
Defined.

(** Witness of X22: the reference workflow continues as new and records
    a marker after that. *)
Lemma continue_as_new_builder_means_closed_witness :
  let ds := [Cases.continueAsNew [x01]; Cases.recordMarker "m" [x01]] in
  let handler' := snd (refHandleAll ds (Ref.handlerOn Ref.workflow)) in
  (exists builder, continueAsNewBuilder handler' = Some builder) /\
  IsWorkflowExecutionRunning (mutableState handler') = false.
Proof.
  intros ds handler'.
  assert (B : exists builder, continueAsNewBuilder handler' = Some builder).
  { vm_compute. eexists. reflexivity. }
  split; [exact B|]. destruct B as [builder B].
  exact (continue_as_new_builder_means_closed (laws := Ref_laws)
           (Ref.uuids "a-") Ref.errorText Ref.wholeSeconds
           "decider" 4 0 {| GetInfo := Ref.ownDomain |} Ref.workflow
           (Ref.newDecisionAttrValidator (Ref.liveTimerIDs Ref.workflow))
           (newDecisionBlobSizeChecker 4 8) [] (fun _ => [])
           (Ref.newDomainCache [Ref.ownDomain; Ref.otherDomain]) [] ds
           builder
           (newDecisionBlobSizeChecker_quiet (laws := Ref_laws) 4 8) B).
Defined.
